(** * biokontrol-backend: MQTT ingestion bridge and pH calibration endpoint

    A shallow embedding of the JavaScript sources of the biogas bridge:

    - the validator ([sanitizeFloatValue], [validateSensorData],
      [validateSensorErrors], [validateActuatorData]);
    - the MQTT handler with warmup gating ([MqttHandler]: first variant of the
      handler, with [isWarmupActive] and [currentSensorId]);
    - the server with the calibration workflow ([Server]: second variant,
      with [phCalibrationStatus] and the [/api/calibrate-ph] route);
    - the stateless [/api/calibrate-ph] route of the Express entry point
      ([Index]) and the status routes ([Routes]);
    - the two earlier handlers: the first one, which tells the kind of a
      message from its shape ([Legacy]), and the one of [src/mqttHandler.js],
      which has no validator ([Unvalidated]);
    - sequences of messages and requests ([Run]).

    JavaScript numbers are IEEE-754 binary64 values: they are modelled by
    [spec_float] with the operations of [SpecFloat] at precision 53 and
    maximal exponent 1024.  JSON payloads are modelled by the inductive type
    [JsValue]; a string is the sequence of the bytes of its UTF-8 encoding.
    The Supabase client is an external collaborator: it is a
    function from the history of queries and the current query to a reply,
    and every query is recorded in a trace.  What [console.*] prints is not
    modelled; a conversion to a string that a template literal makes for it
    is, because it can throw. *)

From Stdlib Require Import ZArith List String Ascii Bool Lia.
From Stdlib Require Import Floats.SpecFloat.
Import ListNotations.

Open Scope string_scope.
Open Scope Z_scope.
Open Scope list_scope.

(* ================================================================== *)
(** * JavaScript values and built-ins *)
(* ================================================================== *)

Module Js.

(** ** Numbers *)

Definition prec : Z := 53.
Definition emax : Z := 1024.

Definition Number : Type := spec_float.

Definition NaN : Number := S754_nan.
Definition Infinity : Number := S754_infinity false.
Definition pos_zero : Number := S754_zero false.
Definition neg_zero : Number := S754_zero true.

(** The number denoted by an integer literal. *)
Definition num_of_Z (n : Z) : Number := binary_normalize prec emax n 0 false.

Definition mul (x y : Number) : Number := SFmul prec emax x y.
Definition div (x y : Number) : Number := SFdiv prec emax x y.
Definition sub (x y : Number) : Number := SFsub prec emax x y.

(** [x == y] and [x === y] on two numbers. *)
Definition num_eqb (x y : Number) : bool := SFeqb x y.

Definition is_nan (x : Number) : bool :=
  match x with S754_nan => true | _ => false end.

Definition is_finite (x : Number) : bool :=
  match x with S754_zero _ | S754_finite _ _ _ => true | _ => false end.

(** The global [isNaN], applied to a number. *)
Definition isNaN (x : Number) : bool := is_nan x.

(** [Math.round]: a non-finite or integral number is returned as it is;
    otherwise the result is [floor (x + 1/2)], computed exactly, and a zero
    result keeps the sign of [x]. *)
Definition Math_round (x : Number) : Number :=
  match x with
  | S754_finite s m e =>
      if 0 <=? e then x
      else
        let k := 2 ^ (- e) in
        let n := (2 * cond_Zopp s (Zpos m) + k) / (2 * k) in
        if n =? 0 then S754_zero s else num_of_Z n
  | _ => x
  end.

(** ** Values *)

#[local] Set Warnings "-register-all".


Inductive JsValue : Type :=
| JUndefined
| JNull
| JBool (b : bool)
| JNum (x : Number)
| JStr (s : string)
| JArr (items : list JsValue)
| JObj (fields : list (string * JsValue)).

Definition typeof (v : JsValue) : string :=
  match v with
  | JUndefined => "undefined"
  | JNull => "object"
  | JBool _ => "boolean"
  | JNum _ => "number"
  | JStr _ => "string"
  | JArr _ => "object"
  | JObj _ => "object"
  end.

(** ToBoolean. *)
Definition truthy (v : JsValue) : bool :=
  match v with
  | JUndefined | JNull => false
  | JBool b => b
  | JNum (S754_zero _) | JNum S754_nan => false
  | JNum _ => true
  | JStr EmptyString => false
  | JStr _ => true
  | JArr _ | JObj _ => true
  end.

(** [v === w].  The sources compare with primitives only ([undefined], [1],
    ['success']); two objects are never compared, and the model answers
    [false] for them. *)
Definition strict_equals (v w : JsValue) : bool :=
  match v, w with
  | JUndefined, JUndefined => true
  | JNull, JNull => true
  | JBool a, JBool b => Bool.eqb a b
  | JNum x, JNum y => num_eqb x y
  | JStr s, JStr t => String.eqb s t
  | _, _ => false
  end.

(** [a || b] on values. *)
Definition or_else (a b : JsValue) : JsValue := if truthy a then a else b.

(** ** Exceptions and completions *)

Inductive Exception : Type :=
| TypeError
| Error (message : string).

Inductive Completion (A : Type) : Type :=
| Normal (a : A)
| Throw (e : Exception).

Arguments Normal {A} a.
Arguments Throw {A} e.

Definition bindC {A B : Type} (c : Completion A) (k : A -> Completion B) : Completion B :=
  match c with
  | Normal a => k a
  | Throw e => Throw e
  end.

(** [err.message].  The text of a TypeError raised by the engine is not
    fixed by the language; it is written ["TypeError"] here. *)
Definition message_of (e : Exception) : string :=
  match e with
  | TypeError => "TypeError"
  | Error message => message
  end.

(** ** Property access *)

Fixpoint lookup (k : string) (fields : list (string * JsValue)) : option JsValue :=
  match fields with
  | [] => None
  | (k', v) :: rest => if String.eqb k k' then Some v else lookup k rest
  end.

(** [v.k] for the property names the sources use (none of them is a built-in
    property of strings, arrays or numbers): reading a property of
    [null] or [undefined] throws a TypeError; a missing property reads as
    [undefined]. *)
Definition get (v : JsValue) (k : string) : Completion JsValue :=
  match v with
  | JUndefined | JNull => Throw TypeError
  | JObj fields =>
      match lookup k fields with
      | Some x => Normal x
      | None => Normal JUndefined
      end
  | _ => Normal JUndefined
  end.

(** [v[0]]. *)
Definition get0 (v : JsValue) : Completion JsValue :=
  match v with
  | JUndefined | JNull => Throw TypeError
  | JArr (x :: _) => Normal x
  | JStr (String c _) => Normal (JStr (String c EmptyString))
  | JObj fields =>
      match lookup "0" fields with
      | Some x => Normal x
      | None => Normal JUndefined
      end
  | _ => Normal JUndefined
  end.

(** [v?.k]. *)
Definition get_opt (v : JsValue) (k : string) : JsValue :=
  match get v k with
  | Normal x => x
  | Throw _ => JUndefined
  end.

(** ** ToString

    Converting an object to a string calls its [toString] method.  An
    object read by [JSON.parse] inherits the method, unless it has a key
    ["toString"] of its own: the value at that key is never a function,
    [valueOf] does not return a primitive either, and the conversion throws
    a TypeError.  The method of an array joins its elements, each one
    other than [null] and [undefined] converted in turn.  Converting a
    primitive never throws. *)
Fixpoint ToString_throws (v : JsValue) : bool :=
  match v with
  | JObj fields =>
      match lookup "toString" fields with
      | Some _ => true
      | None => false
      end
  | JArr items =>
      (fix any (l : list JsValue) : bool :=
         match l with
         | [] => false
         | x :: r => ToString_throws x || any r
         end) items
  | _ => false
  end.

(** A template literal [`... ${v} ...`] whose text is only printed. *)
Definition template (v : JsValue) : Completion unit :=
  if ToString_throws v then Throw TypeError else Normal tt.

(** ** JSON.stringify

    The text that [JSON.stringify] writes for a value other than
    [undefined] is kept as the value [JSON.parse] reads back from it: a
    number that is not finite is written [null] and [-0] is written [0]; a
    property whose value is [undefined] is left out; [undefined] in an
    array is written [null]. *)
Fixpoint JSON_stringify (v : JsValue) : JsValue :=
  match v with
  | JNum (S754_zero _) => JNum pos_zero
  | JNum (S754_finite _ _ _) => v
  | JNum _ => JNull
  | JArr items =>
      JArr (map (fun x => match x with
                          | JUndefined => JNull
                          | _ => JSON_stringify x
                          end) items)
  | JObj fields =>
      JObj ((fix properties (l : list (string * JsValue)) : list (string * JsValue) :=
               match l with
               | [] => []
               | (_, JUndefined) :: r => properties r
               | (k, x) :: r => (k, JSON_stringify x) :: properties r
               end) fields)
  | _ => v
  end.

(** ** parseFloat *)

Definition byte (c : ascii) : Z := Z.of_nat (nat_of_ascii c).

(** White space and line terminators of one byte: TAB, LF, VT, FF, CR and
    the space. *)
Definition is_space (c : ascii) : bool :=
  let n := byte c in
  (n =? 32) || ((9 <=? n) && (n <=? 13)).

(** U+00A0, the no-break space: C2 A0. *)
Definition is_space2 (c1 c2 : ascii) : bool :=
  (byte c1 =? 194) && (byte c2 =? 160).

(** The white space and line terminators of three bytes: U+1680 (E1 9A 80),
    U+2000 to U+200A (E2 80 80 to E2 80 8A), U+2028 and U+2029 (E2 80 A8,
    E2 80 A9), U+202F (E2 80 AF), U+205F (E2 81 9F), U+3000 (E3 80 80) and
    U+FEFF (EF BB BF). *)
Definition is_space3 (c1 c2 c3 : ascii) : bool :=
  let '(a, b, c) := (byte c1, byte c2, byte c3) in
  ((a =? 225) && (b =? 154) && (c =? 128)) ||
  ((a =? 226) && (b =? 128) &&
     (((128 <=? c) && (c <=? 138)) || (c =? 168) || (c =? 169) || (c =? 175))) ||
  ((a =? 226) && (b =? 129) && (c =? 159)) ||
  ((a =? 227) && (b =? 128) && (c =? 128)) ||
  ((a =? 239) && (b =? 187) && (c =? 191)).

Fixpoint skip_spaces (s : string) : string :=
  match s with
  | String c1 r1 =>
      if is_space c1 then skip_spaces r1
      else
        match r1 with
        | String c2 r2 =>
            if is_space2 c1 c2 then skip_spaces r2
            else
              match r2 with
              | String c3 r3 => if is_space3 c1 c2 c3 then skip_spaces r3 else s
              | EmptyString => s
              end
        | EmptyString => s
        end
  | EmptyString => s
  end.

Definition digit_of (c : ascii) : option Z :=
  let n := byte c in
  if (48 <=? n) && (n <=? 57) then Some (n - 48) else None.

(** The longest run of decimal digits at the head of [s]: the accumulated
    value, the number of digits read and the rest of the string. *)
Fixpoint read_digits (s : string) (acc cnt : Z) : Z * Z * string :=
  match s with
  | String c r =>
      match digit_of c with
      | Some d => read_digits r (10 * acc + d) (cnt + 1)
      | None => (acc, cnt, s)
      end
  | EmptyString => (acc, cnt, s)
  end.

Definition read_sign (s : string) : bool * string :=
  match s with
  | String "+" r => (false, r)
  | String "-" r => (true, r)
  | _ => (false, s)
  end.

(** An exponent part counts only when [e] is followed by an optional sign
    and at least one digit. *)
Definition read_exponent (s : string) : Z :=
  match s with
  | String c r =>
      if (Ascii.eqb c "e" || Ascii.eqb c "E")%bool then
        let '(sg, r') := read_sign r in
        let '(v, cnt, _) := read_digits r' 0 0 in
        if cnt =? 0 then 0 else cond_Zopp sg v
      else 0
  | EmptyString => 0
  end.

(** The binary64 number nearest to [(-1)^neg * m * 10^e] (ties to even).
    The conversion is exact for literals of any length. *)
Definition decimal_to_number (neg : bool) (m e : Z) : Number :=
  if m =? 0 then S754_zero neg
  else if 0 <=? e then
    binary_normalize prec emax (cond_Zopp neg (m * 10 ^ e)) 0 false
  else
    SFdiv prec emax (S754_finite neg (Z.to_pos m) 0)
                    (S754_finite false (Z.to_pos (10 ^ (- e))) 0).

(** [parseFloat] on a string: leading white space and line terminators are
    skipped, the longest prefix that is a decimal literal (or a signed
    [Infinity]) is converted, and [NaN] is returned when there is none. *)
Definition parseFloat_string (s : string) : Number :=
  let '(neg, u) := read_sign (skip_spaces s) in
  if prefix "Infinity" u then S754_infinity neg else
  let '(ip, icnt, r1) := read_digits u 0 0 in
  let '(m, fcnt, r2) :=
    match r1 with
    | String "." r => read_digits r ip 0
    | _ => (ip, 0, r1)
    end in
  if icnt + fcnt =? 0 then NaN
  else decimal_to_number neg m (read_exponent r2 - fcnt).

(** What [parseFloat] reads in the string of a value whose conversion does
    not throw.  A number survives the round trip through its string,
    except [-0], whose string is ["0"].  An array is joined with commas, so
    only its first element can contribute ([null] and [undefined] elements
    join as the empty string); [true], [false] and ["[object Object]"] do
    not start a literal. *)
Fixpoint parse_value (v : JsValue) : Number :=
  match v with
  | JNum (S754_zero _) => pos_zero
  | JNum x => x
  | JStr s => parseFloat_string s
  | JArr (x :: _) => parse_value x
  | _ => NaN
  end.

(** [parseFloat] on any value: the value is converted to a string first. *)
Definition parseFloat (v : JsValue) : Completion Number :=
  if ToString_throws v then Throw TypeError else Normal (parse_value v).

End Js.

Import Js.

Notation "x <- c ;;; k" := (bindC c (fun x => k))
  (at level 61, c at next level, right associativity).

(* ================================================================== *)
(** * Validator *)
(* ================================================================== *)

Definition million : Number := Eval vm_compute in num_of_Z 1000000.

(** The mantissa of [million]: 10^6 = [million_mantissa] * 2^(-33). *)
Definition million_mantissa : Z := 8589934592000000.

(** [Math.round(parsed * 1000000) / 1000000]. *)
Definition round6 (parsed : Number) : Number :=
  div (Math_round (mul parsed million)) million.

(** [sanitizeFloatValue(value, fieldName)]; the field name only appears in
    the warnings.  The warning for a value that is not a number converts
    the value to a string once more. *)
Definition sanitizeFloatValue (value : JsValue) : Completion Number :=
  match value with
  | JNull | JUndefined => Normal pos_zero
  | _ =>
      parsed <- parseFloat value ;;;
      if isNaN parsed then
        bindC (template value) (fun _ => Normal pos_zero)
      else Normal (round6 parsed)
  end.

(** The guard [!x || typeof x !== 'object'] of the three validators. *)
Definition not_an_object (x : JsValue) : bool :=
  negb (truthy x) || negb (String.eqb (typeof x) "object").

Definition sanitized_field (obj : JsValue) (k : string) : Completion (string * JsValue) :=
  v <- get obj k ;;;
  x <- sanitizeFloatValue v ;;;
  Normal (k, JNum x).

Definition validateSensorData (sensors : JsValue) : Completion JsValue :=
  if not_an_object sensors then Throw (Error "Invalid sensors data structure")
  else
    ph <- sanitized_field sensors "ph" ;;;
    temp <- sanitized_field sensors "temp" ;;;
    ch4 <- sanitized_field sensors "ch4" ;;;
    pressure <- sanitized_field sensors "pressure" ;;;
    Normal (JObj [ph; temp; ch4; pressure]).

Definition validateSensorErrors (sensorErrors : JsValue) : Completion JsValue :=
  if not_an_object sensorErrors then Throw (Error "Invalid sensor_errors data structure")
  else
    ph_error <- sanitized_field sensorErrors "ph_error" ;;;
    ph_delta_error <- sanitized_field sensorErrors "ph_delta_error" ;;;
    temp_error <- sanitized_field sensorErrors "temp_error" ;;;
    temp_delta_error <- sanitized_field sensorErrors "temp_delta_error" ;;;
    Normal (JObj [ph_error; ph_delta_error; temp_error; temp_delta_error]).

Definition validateActuatorData (actuators : JsValue) : Completion JsValue :=
  if not_an_object actuators then Throw (Error "Invalid actuators data structure")
  else
    pump_base <- sanitized_field actuators "pump_base" ;;;
    pump_acid <- sanitized_field actuators "pump_acid" ;;;
    heater <- sanitized_field actuators "heater" ;;;
    solenoid <- sanitized_field actuators "solenoid" ;;;
    stirrer <- sanitized_field actuators "stirrer" ;;;
    Normal (JObj [pump_base; pump_acid; heater; solenoid; stirrer]).

(* ================================================================== *)
(** * The persistence gateway and the handler monad *)
(* ================================================================== *)

Module Gateway.

(** A query built with the Supabase client:
    [from(t).insert([row])], optionally followed by [.select(cols)], or
    [from(t).select(cols).order(col, {ascending}).limit(n).single()]. *)
Record Query : Type := {
  q_from : string;
  q_insert : option JsValue;
  q_select : option string;
  q_order : option (string * bool);
  q_limit : option Z;
  q_single : bool }.

(** What awaiting a query resolves to: [{ data, error }]. *)
Record Reply : Type := { data : JsValue; error : JsValue }.

(** The client: the reply may depend on every query made before. *)
Definition Client : Type := list Query -> Query -> Completion Reply.

Definition insert_into (table : string) (row : JsValue) : Query :=
  {| q_from := table; q_insert := Some row; q_select := None;
     q_order := None; q_limit := None; q_single := false |}.

Definition insert_returning (table : string) (row : JsValue) (cols : string) : Query :=
  {| q_from := table; q_insert := Some row; q_select := Some cols;
     q_order := None; q_limit := None; q_single := false |}.

Definition select_latest (table cols order_col : string) : Query :=
  {| q_from := table; q_insert := None; q_select := Some cols;
     q_order := Some (order_col, false); q_limit := Some 1; q_single := true |}.

End Gateway.

Import Gateway.

(** The world a handler runs in: the module-level variables [G], the trace
    of gateway queries made so far, and the instant [new Date()] reads. *)
Record World (G : Type) : Type := {
  globals : G;
  calls : list Query;
  clock : string }.

Arguments globals {G} w.
Arguments calls {G} w.
Arguments clock {G} w.

Definition M (G A : Type) : Type := World G -> Completion A * World G.

Section Monad.
Context {G : Type}.

Definition ret {A} (a : A) : M G A := fun w => (Normal a, w).

Definition throw {A} (e : Exception) : M G A := fun w => (Throw e, w).

Definition bind {A B} (m : M G A) (k : A -> M G B) : M G B :=
  fun w =>
    match m w with
    | (Normal a, w') => k a w'
    | (Throw e, w') => (Throw e, w')
    end.

Definition lift {A} (c : Completion A) : M G A := fun w => (c, w).

(** [try { body } catch (err) { handler }]: what the body changed before
    it threw stays changed. *)
Definition try_catch {A} (body : M G A) (handler : Exception -> M G A) : M G A :=
  fun w =>
    match body w with
    | (Normal a, w') => (Normal a, w')
    | (Throw e, w') => handler e w'
    end.

Definition gets {A} (f : G -> A) : M G A := fun w => (Normal (f (globals w)), w).

Definition modify (f : G -> G) : M G unit :=
  fun w => (Normal tt, {| globals := f (globals w); calls := calls w; clock := clock w |}).

Definition now : M G string := fun w => (Normal (clock w), w).

(** [await query]: the query goes to the gateway and is recorded. *)
Definition await (supabase : Client) (q : Query) : M G Reply :=
  fun w => (supabase (calls w) q,
            {| globals := globals w; calls := calls w ++ [q]; clock := clock w |}).
End Monad.

Notation "x <- c ;; k" := (bind c (fun x => k))
  (at level 61, c at next level, right associativity).
Notation "c ;; k" := (bind c (fun _ => k))
  (at level 61, right associativity).

(** The state and the result of running a handler. *)
Definition exec {G A} (m : M G A) (w : World G) : World G := snd (m w).
Definition eval {G A} (m : M G A) (w : World G) : Completion A := fst (m w).

(** [{ ...obj }]. *)
Definition spread (obj : JsValue) : list (string * JsValue) :=
  match obj with JObj fields => fields | _ => [] end.

(** ** Gateway operations of the handlers

    Both variants of the handler carry the same four functions. *)

Section Persistence.
Context {G : Type}.
Variable supabase : Client.

(** The id is read from the first row twice: for the template literal
    of the log line, then for the result. *)
Definition insertSensorData (sensors : JsValue) : M G JsValue :=
  try_catch
    (validatedSensors <- lift (validateSensorData sensors) ;;
     r <- await supabase (insert_returning "sensors" validatedSensors "id") ;;
     if truthy (error r) then ret JNull
     else
       row <- lift (get0 (data r)) ;;
       id <- lift (get row "id") ;;
       lift (template id) ;;
       ret id)
    (fun _ => ret JNull).

Definition insertSensorErrors (sensorId sensorErrors : JsValue) : M G unit :=
  try_catch
    (validatedErrors <- lift (validateSensorErrors sensorErrors) ;;
     r <- await supabase
            (insert_into "sensor_errors"
               (JObj (("sensor_id", sensorId) :: spread validatedErrors))) ;;
     if truthy (error r) then ret tt
     else lift (template sensorId))
    (fun _ => ret tt).

Definition insertActuatorData (sensorId actuators : JsValue) : M G unit :=
  try_catch
    (validatedActuators <- lift (validateActuatorData actuators) ;;
     r <- await supabase (insert_into "actuators" (JObj (spread validatedActuators))) ;;
     if truthy (error r) then ret tt
     else lift (template sensorId))
    (fun _ => ret tt).

Definition latest_sensor_query : Query := select_latest "sensors" "id" "created_at".

Definition getLatestSensorId : M G JsValue :=
  try_catch
    (r <- await supabase latest_sensor_query ;;
     if truthy (error r) || negb (truthy (data r)) then ret JNull
     else
       id <- lift (get (data r) "id") ;;
       ret id)
    (fun _ => ret JNull).
End Persistence.

(* ================================================================== *)
(** * The MQTT handler with warmup gating *)
(* ================================================================== *)

Module MqttHandler.

Record Globals : Type := {
  currentSensorId : JsValue;
  isWarmupActive : bool }.

Definition set_currentSensorId (v : JsValue) (g : Globals) : Globals :=
  {| currentSensorId := v; isWarmupActive := isWarmupActive g |}.

Definition set_isWarmupActive (b : bool) (g : Globals) : Globals :=
  {| currentSensorId := currentSensorId g; isWarmupActive := b |}.

Definition one : Number := Eval vm_compute in num_of_Z 1.

Section Handler.
Variable supabase : Client.

Definition processSensorData (payload : JsValue) : M Globals unit :=
  try_catch
    (warmup <- gets isWarmupActive ;;
     if warmup then ret tt
     else
       sensors <- lift (get payload "sensors") ;;
       sensor_errors <- (if truthy sensors then lift (get payload "sensor_errors")
                         else ret JUndefined) ;;
       if truthy sensors && truthy sensor_errors then
         sensorId <- insertSensorData supabase sensors ;;
         if truthy sensorId then
           modify (set_currentSensorId sensorId) ;;
           insertSensorErrors supabase sensorId sensor_errors
         else ret tt
       else if truthy sensors then
         sensorId <- insertSensorData supabase sensors ;;
         if truthy sensorId then modify (set_currentSensorId sensorId)
         else ret tt
       else ret tt)
    (fun err => throw err).

Definition processControlData (payload : JsValue) : M Globals unit :=
  try_catch
    (system <- lift (get payload "system") ;;
     (if truthy system then
        warmup_active <- lift (get system "warmup_active") ;;
        if negb (strict_equals warmup_active JUndefined) then
          let newWarmupStatus := strict_equals warmup_active (JNum one) in
          warmup <- gets isWarmupActive ;;
          if negb (Bool.eqb newWarmupStatus warmup)
          then modify (set_isWarmupActive newWarmupStatus)
          else ret tt
        else ret tt
      else ret tt) ;;
     warmup <- gets isWarmupActive ;;
     if warmup then ret tt
     else
       actuators <- lift (get payload "actuators") ;;
       if truthy actuators then
         current <- gets currentSensorId ;;
         sensorId <- (if truthy current then ret current
                      else getLatestSensorId supabase) ;;
         if truthy sensorId then insertActuatorData supabase sensorId actuators
         else ret tt
       else ret tt)
    (fun err => throw err).

(** The [message] listener.  [message] is the outcome of [JSON.parse] on
    the raw text: [None] when it threw. *)
Definition onMessage (topic : string) (message : option JsValue) : M Globals unit :=
  try_catch
    (match message with
     | None => ret tt
     | Some payload =>
         if String.eqb topic "biogas/data/sensors" then processSensorData payload
         else if String.eqb topic "biogas/data/control" then processControlData payload
         else ret tt
     end)
    (fun _ => ret tt).
End Handler.

(** The value of [payload.system.warmup_active] when the control payload
    carries one: [payload.system] is truthy and the field is not
    [undefined]. *)
Definition warmup_field (payload : JsValue) : option JsValue :=
  match get payload "system" with
  | Normal system =>
      if truthy system then
        match get system "warmup_active" with
        | Normal v => if strict_equals v JUndefined then None else Some v
        | Throw _ => None
        end
      else None
  | Throw _ => None
  end.

End MqttHandler.

(* ================================================================== *)
(** * HTTP responses and MQTT publications *)
(* ================================================================== *)

Module Http.

(** A response: its status and the body, a JSON text. *)
Record Response : Type := { status : Z; body : JsValue }.

(** [res.status(code).json(obj)]: the body is [JSON.stringify(obj)]. *)
Definition json (code : Z) (obj : JsValue) : Response :=
  {| status := code; body := JSON_stringify obj |}.

(** [res.status(code).json({ success: false, message })]. *)
Definition failure (code : Z) (message : string) : Response :=
  json code (JObj [("success", JBool false); ("message", JStr message)]).

(** [res.json({ success: true, message, data })]. *)
Definition success (message : string) (payload : JsValue) : Response :=
  json 200 (JObj [("success", JBool true); ("message", JStr message);
                  ("data", payload)]).

End Http.

Module Mqtt.

(** [client.publish(topic, text, { qos })]: the payload is a JSON text. *)
Record Publication : Type := { topic : string; payload : JsValue; qos : Z }.

End Mqtt.

(* ================================================================== *)
(** * The server with the calibration workflow *)
(* ================================================================== *)

Module Server.

Record CalibrationStatus : Type := {
  isCalibrating : bool;
  lastCalibration : JsValue;
  pendingCalibration : JsValue }.

Record Globals : Type := {
  currentSensorId : JsValue;
  phCalibrationStatus : CalibrationStatus;
  connected : bool;
  published : list Mqtt.Publication }.

Definition set_currentSensorId (v : JsValue) (g : Globals) : Globals :=
  {| currentSensorId := v; phCalibrationStatus := phCalibrationStatus g;
     connected := connected g; published := published g |}.

Definition set_status (f : CalibrationStatus -> CalibrationStatus) (g : Globals) : Globals :=
  {| currentSensorId := currentSensorId g;
     phCalibrationStatus := f (phCalibrationStatus g);
     connected := connected g; published := published g |}.

Definition set_isCalibrating (b : bool) (s : CalibrationStatus) : CalibrationStatus :=
  {| isCalibrating := b; lastCalibration := lastCalibration s;
     pendingCalibration := pendingCalibration s |}.

Definition set_lastCalibration (v : JsValue) (s : CalibrationStatus) : CalibrationStatus :=
  {| isCalibrating := isCalibrating s; lastCalibration := v;
     pendingCalibration := pendingCalibration s |}.

Definition set_pendingCalibration (v : JsValue) (s : CalibrationStatus) : CalibrationStatus :=
  {| isCalibrating := isCalibrating s; lastCalibration := lastCalibration s;
     pendingCalibration := v |}.

Definition publish (p : Mqtt.Publication) (g : Globals) : Globals :=
  {| currentSensorId := currentSensorId g;
     phCalibrationStatus := phCalibrationStatus g;
     connected := connected g; published := published g ++ [p] |}.

(** The expression [payload.success || payload.status === 'success']. *)
Definition success_flag (payload : JsValue) : Completion JsValue :=
  s <- get payload "success" ;;;
  if truthy s then Normal s
  else
    st <- get payload "status" ;;;
    Normal (JBool (strict_equals st (JStr "success"))).

Section Handler.
Variable supabase : Client.

Definition processSensorData (payload : JsValue) : M Globals unit :=
  try_catch
    (sensors <- lift (get payload "sensors") ;;
     sensor_errors <- (if truthy sensors then lift (get payload "sensor_errors")
                       else ret JUndefined) ;;
     if truthy sensors && truthy sensor_errors then
       sensorId <- insertSensorData supabase sensors ;;
       if truthy sensorId then
         modify (set_currentSensorId sensorId) ;;
         insertSensorErrors supabase sensorId sensor_errors
       else ret tt
     else if truthy sensors then
       sensorId <- insertSensorData supabase sensors ;;
       if truthy sensorId then modify (set_currentSensorId sensorId)
       else ret tt
     else ret tt)
    (fun err => throw err).

Definition processControlData (payload : JsValue) : M Globals unit :=
  try_catch
    (actuators <- lift (get payload "actuators") ;;
     if truthy actuators then
       current <- gets currentSensorId ;;
       sensorId <- (if truthy current then ret current
                    else getLatestSensorId supabase) ;;
       if truthy sensorId then insertActuatorData supabase sensorId actuators
       else ret tt
     else ret tt)
    (fun err => throw err).

Definition logPhCalibration (calibrationData : JsValue) : M Globals unit :=
  try_catch
    (pending <- gets (fun g => pendingCalibration (phCalibrationStatus g)) ;;
     success <- lift (success_flag calibrationData) ;;
     timestamp <- now ;;
     let logData :=
       JObj [("calibration_type", JStr "ph_offset");
             ("offset_value", or_else (get_opt pending "offset") JNull);
             ("reference_ph", or_else (get_opt pending "referencePh") JNull);
             ("current_ph", or_else (get_opt pending "currentPh") JNull);
             ("response_data", calibrationData);
             ("success", success);
             ("timestamp", JStr timestamp)] in
     _ <- await supabase (insert_into "calibration_logs" logData) ;;
     ret tt)
    (fun _ => ret tt).

Definition processPhCalibrationResponse (payload : JsValue) : M Globals unit :=
  try_catch
    (modify (set_status (set_isCalibrating false)) ;;
     timestamp <- now ;;
     success <- lift (success_flag payload) ;;
     modify (set_status (set_lastCalibration
               (JObj [("timestamp", JStr timestamp);
                      ("response", payload);
                      ("success", success)]))) ;;
     _ <- lift (success_flag payload) ;;
     logPhCalibration payload)
    (fun _ => ret tt).

Definition onMessage (topic : string) (message : option JsValue) : M Globals unit :=
  try_catch
    (match message with
     | None => ret tt
     | Some payload =>
         if String.eqb topic "biogas/data/sensors" then processSensorData payload
         else if String.eqb topic "biogas/data/control" then processControlData payload
         else if String.eqb topic "biogas/ph_calibration/response"
              then processPhCalibrationResponse payload
         else ret tt
     end)
    (fun _ => ret tt).
End Handler.

(** [POST /api/calibrate-ph], up to the call of [client.publish]: the
    result is the response sent, or [None] when the offset was handed to the
    MQTT client and the response is left to the publish callback. *)
Definition calibrate_ph (req_body : JsValue) : M Globals (option Http.Response) :=
  try_catch
    (referencePh <- lift (get req_body "referencePh") ;;
     currentPh <- lift (get req_body "currentPh") ;;
     if negb (truthy referencePh) || negb (truthy currentPh) then
       ret (Some (Http.failure 400 "referencePh dan currentPh diperlukan"))
     else
       refPh <- lift (parseFloat referencePh) ;;
       curPh <- lift (parseFloat currentPh) ;;
       if isNaN refPh || isNaN curPh then
         ret (Some (Http.failure 400 "Nilai pH harus berupa angka yang valid"))
       else
         offset <- lift (sanitizeFloatValue (JNum (sub refPh curPh))) ;;
         mqttConnected <- gets connected ;;
         if negb mqttConnected then
           ret (Some (Http.failure 503 "MQTT client tidak terhubung"))
         else
           calibrating <- gets (fun g => isCalibrating (phCalibrationStatus g)) ;;
           if calibrating then
             ret (Some (Http.failure 409 "Kalibrasi pH sedang dalam proses"))
           else
             modify (set_status (set_isCalibrating true)) ;;
             t1 <- now ;;
             modify (set_status (set_pendingCalibration
                       (JObj [("referencePh", JNum refPh);
                              ("currentPh", JNum curPh);
                              ("offset", JNum offset);
                              ("timestamp", JStr t1)]))) ;;
             t2 <- now ;;
             modify (publish
                       {| Mqtt.topic := "biogas/ph_offset";
                          Mqtt.payload :=
                            JSON_stringify
                              (JObj [("offset", JNum offset);
                                     ("reference_ph", JNum refPh);
                                     ("current_ph", JNum curPh);
                                     ("timestamp", JStr t2)]);
                          Mqtt.qos := 1 |}) ;;
             ret None)
    (fun _ =>
       modify (set_status (set_isCalibrating false)) ;;
       modify (set_status (set_pendingCalibration JNull)) ;;
       ret (Some (Http.failure 500 "Internal server error"))).

(** The callback of [client.publish], with the variables it closes over. *)
Definition publish_callback (err : JsValue) (refPh curPh offset : Number)
  : M Globals Http.Response :=
  if truthy err then
    modify (set_status (set_isCalibrating false)) ;;
    modify (set_status (set_pendingCalibration JNull)) ;;
    ret (Http.failure 500 "Gagal mengirim offset ke ESP32")
  else
    t <- now ;;
    ret (Http.success "Offset pH berhasil dikirim ke ESP32"
           (JObj [("referencePh", JNum refPh);
                  ("currentPh", JNum curPh);
                  ("offset", JNum offset);
                  ("timestamp", JStr t)])).

End Server.

(* ================================================================== *)
(** * The stateless calibration route of the entry point *)
(* ================================================================== *)

Module Index.

Record Globals : Type := {
  connected : bool;
  published : list Mqtt.Publication }.

(** [publishPhOffset(offset)] of the MQTT handler: a publish failure is
    only logged by its callback. *)
Definition publishPhOffset (offset : Number) : M Globals unit :=
  t <- now ;;
  modify (fun g =>
            {| connected := connected g;
               published := published g ++
                 [{| Mqtt.topic := "biogas/ph_offset";
                     Mqtt.payload :=
                       JSON_stringify (JObj [("ph_offset", JNum offset);
                                             ("timestamp", JStr t)]);
                     Mqtt.qos := 1 |}] |}).

Definition calibrate_ph (req_body : JsValue) : M Globals Http.Response :=
  try_catch
    (referencePh <- lift (get req_body "referencePh") ;;
     currentPh <- lift (get req_body "currentPh") ;;
     if negb (truthy referencePh) || negb (truthy currentPh) then
       ret (Http.failure 400 "Mohon isi kedua nilai pH (referencePh dan currentPh)")
     else
       refPh <- lift (parseFloat referencePh) ;;
       curPh <- lift (parseFloat currentPh) ;;
       if isNaN refPh || isNaN curPh then
         ret (Http.failure 400 "Nilai pH harus berupa angka yang valid")
       else
         let offset := sub refPh curPh in
         mqttConnected <- gets connected ;;
         if negb mqttConnected then
           ret (Http.failure 503
                  "MQTT client tidak terhubung. Tidak dapat mengirim offset pH.")
         else
           try_catch
             (publishPhOffset offset ;;
              t <- now ;;
              ret (Http.success "Kalibrasi pH berhasil dikirim"
                     (JObj [("referencePh", JNum refPh);
                            ("currentPh", JNum curPh);
                            ("offset", JNum offset);
                            ("timestamp", JStr t)])))
             (fun mqttError =>
                ret (Http.failure 500
                       ("Gagal mengirim offset pH via MQTT: " ++ message_of mqttError))))
    (fun error =>
       ret (Http.failure 500
              ("Terjadi kesalahan internal saat kalibrasi pH: " ++ message_of error))).

End Index.

(* ================================================================== *)
(** * The read-only routes *)
(* ================================================================== *)

(** [module.exports = { client, currentSensorId, isWarmupActive,
    publishPhOffset }] of the MQTT handler with warmup gating.  The object
    is built once, when the module has been loaded, from the values the
    two module variables have at that moment; the handler assigns the
    variables afterwards, never the properties of this object. *)
Module Exports.

Record t : Type := {
  currentSensorId : JsValue;
  isWarmupActive : bool }.

(** [let currentSensorId = null; let isWarmupActive = false;]. *)
Definition loaded : MqttHandler.Globals :=
  {| MqttHandler.currentSensorId := JNull; MqttHandler.isWarmupActive := false |}.

Definition module_exports : t :=
  {| currentSensorId := MqttHandler.currentSensorId loaded;
     isWarmupActive := MqttHandler.isWarmupActive loaded |}.

End Exports.

Module Routes.

(** [const { client, isWarmupActive, publishPhOffset } =
    require('./mqttHandler')] of the entry point. *)
Definition isWarmupActive : bool := Exports.isWarmupActive Exports.module_exports.

(** [GET /health] of the entry point. *)
Definition health : M Index.Globals Http.Response :=
  t <- now ;;
  mqttConnected <- gets Index.connected ;;
  ret (Http.json 200
         (JObj [("status", JStr "OK");
                ("service", JStr "Biogas MQTT Receiver");
                ("timestamp", JStr t);
                ("mqtt_connected", JBool mqttConnected);
                ("warmup_active", JBool isWarmupActive)])).

(** [GET /api/warmup-status] of the entry point. *)
Definition warmup_status : M Index.Globals Http.Response :=
  t <- now ;;
  ret (Http.json 200
         (JObj [("warmup_active", JBool isWarmupActive);
                ("timestamp", JStr t)])).

(** [GET /api/calibration-status] of the server. *)
Definition calibration_status : M Server.Globals Http.Response :=
  s <- gets Server.phCalibrationStatus ;;
  mqttConnected <- gets Server.connected ;;
  ret (Http.json 200
         (JObj [("success", JBool true);
                ("data",
                 JObj [("isCalibrating", JBool (Server.isCalibrating s));
                       ("lastCalibration", Server.lastCalibration s);
                       ("pendingCalibration", Server.pendingCalibration s);
                       ("mqttConnected", JBool mqttConnected)])])).

End Routes.

(* ================================================================== *)
(** * The earlier handlers *)
(* ================================================================== *)

(** [v.k1.k2]. *)
Definition get_path (v : JsValue) (k1 k2 : string) : Completion JsValue :=
  x <- get v k1 ;;;
  get x k2.

(** The first handler: it listens on one topic, tells the kind of a
    message from the shape of the payload, writes the fields as they
    come and keeps no module variable.  [insert(row)] is the insert of the
    one row, as [insert([row])] is; [.select()] selects every column,
    which the client writes ['*']. *)
Module Legacy.

Section Handler.
Variable supabase : Client.

Definition handleSensorData (payload : JsValue) : M unit unit :=
  try_catch
    (ph <- lift (get_path payload "sensors" "ph") ;;
     temp <- lift (get_path payload "sensors" "temp") ;;
     ch4 <- lift (get_path payload "sensors" "ch4") ;;
     pressure <- lift (get_path payload "sensors" "pressure") ;;
     r <- await supabase
            {| q_from := "sensors";
               q_insert := Some (JObj [("ph", ph); ("temp", temp);
                                       ("ch4", ch4); ("pressure", pressure)]);
               q_select := Some "*"; q_order := None; q_limit := None;
               q_single := true |} ;;
     if truthy (error r) then ret tt
     else
       _ <- lift (get (data r) "id") ;;
       ret tt)
    (fun _ => ret tt).

Definition handleControlData (payload : JsValue) : M unit unit :=
  try_catch
    (latest <- await supabase (select_latest "sensors" "id" "created_at") ;;
     if truthy (error latest) then ret tt
     else
       sensor_id <- lift (get (data latest) "id") ;;
       ph_error <- lift (get_path payload "sensor_errors" "ph_error") ;;
       ph_delta_error <- lift (get_path payload "sensor_errors" "ph_delta_error") ;;
       temp_error <- lift (get_path payload "sensor_errors" "temp_error") ;;
       temp_delta_error <- lift (get_path payload "sensor_errors" "temp_delta_error") ;;
       _ <- await supabase
              (insert_into "sensor_errors"
                 (JObj [("sensor_id", sensor_id);
                        ("ph_error", ph_error);
                        ("ph_delta_error", ph_delta_error);
                        ("temp_error", temp_error);
                        ("temp_delta_error", temp_delta_error)])) ;;
       pump_base <- lift (get_path payload "actuators" "pump_base") ;;
       pump_acid <- lift (get_path payload "actuators" "pump_acid") ;;
       heater <- lift (get_path payload "actuators" "heater") ;;
       solenoid <- lift (get_path payload "actuators" "solenoid") ;;
       stirrer <- lift (get_path payload "actuators" "stirrer") ;;
       _ <- await supabase
              (insert_into "actuators"
                 (JObj [("pump_base", pump_base);
                        ("pump_acid", pump_acid);
                        ("heater", heater);
                        ("solenoid", solenoid);
                        ("stirrer", stirrer)])) ;;
       ret tt)
    (fun _ => ret tt).

(** The [message] listener; [JSON.parse] is called inside the [try], so a
    text that does not parse ends in the [catch]. *)
Definition onMessage (message : option JsValue) : M unit unit :=
  try_catch
    (match message with
     | None => throw (Error "SyntaxError")
     | Some payload =>
         sensors <- lift (get payload "sensors") ;;
         if truthy sensors then handleSensorData payload
         else
           sensor_errors <- lift (get payload "sensor_errors") ;;
           if truthy sensor_errors then
             actuators <- lift (get payload "actuators") ;;
             if truthy actuators then handleControlData payload
             else ret tt
           else ret tt
     end)
    (fun _ => ret tt).
End Handler.

End Legacy.

(** The handler of [src/mqttHandler.js]: two topics and the correlation
    id, but no validator: the fields of a section are written as they
    come. *)
Module Unvalidated.

Record Globals : Type := { currentSensorId : JsValue }.

Definition set_currentSensorId (v : JsValue) (g : Globals) : Globals :=
  {| currentSensorId := v |}.

Section Handler.
Variable supabase : Client.

Definition insertSensorData (sensors : JsValue) : M Globals JsValue :=
  try_catch
    (ph <- lift (get sensors "ph") ;;
     temp <- lift (get sensors "temp") ;;
     ch4 <- lift (get sensors "ch4") ;;
     pressure <- lift (get sensors "pressure") ;;
     r <- await supabase
            (insert_returning "sensors"
               (JObj [("ph", ph); ("temp", temp); ("ch4", ch4);
                      ("pressure", pressure)]) "id") ;;
     if truthy (error r) then ret JNull
     else
       row <- lift (get0 (data r)) ;;
       id <- lift (get row "id") ;;
       lift (template id) ;;
       ret id)
    (fun _ => ret JNull).

Definition insertSensorErrors (sensorId sensorErrors : JsValue) : M Globals unit :=
  try_catch
    (ph_error <- lift (get sensorErrors "ph_error") ;;
     ph_delta_error <- lift (get sensorErrors "ph_delta_error") ;;
     temp_error <- lift (get sensorErrors "temp_error") ;;
     temp_delta_error <- lift (get sensorErrors "temp_delta_error") ;;
     r <- await supabase
            (insert_into "sensor_errors"
               (JObj [("sensor_id", sensorId);
                      ("ph_error", ph_error);
                      ("ph_delta_error", ph_delta_error);
                      ("temp_error", temp_error);
                      ("temp_delta_error", temp_delta_error)])) ;;
     if truthy (error r) then ret tt
     else lift (template sensorId))
    (fun _ => ret tt).

Definition insertActuatorData (sensorId actuators : JsValue) : M Globals unit :=
  try_catch
    (pump_base <- lift (get actuators "pump_base") ;;
     pump_acid <- lift (get actuators "pump_acid") ;;
     heater <- lift (get actuators "heater") ;;
     solenoid <- lift (get actuators "solenoid") ;;
     stirrer <- lift (get actuators "stirrer") ;;
     r <- await supabase
            (insert_into "actuators"
               (JObj [("pump_base", pump_base);
                      ("pump_acid", pump_acid);
                      ("heater", heater);
                      ("solenoid", solenoid);
                      ("stirrer", stirrer)])) ;;
     if truthy (error r) then ret tt
     else lift (template sensorId))
    (fun _ => ret tt).

Definition onMessage (topic : string) (message : option JsValue) : M Globals unit :=
  try_catch
    (match message with
     | None => throw (Error "SyntaxError")
     | Some payload =>
         if String.eqb topic "biogas/data/sensors" then
           sensors <- lift (get payload "sensors") ;;
           sensor_errors <- (if truthy sensors then lift (get payload "sensor_errors")
                             else ret JUndefined) ;;
           if truthy sensors && truthy sensor_errors then
             sensorId <- insertSensorData sensors ;;
             if truthy sensorId then
               modify (set_currentSensorId sensorId) ;;
               insertSensorErrors sensorId sensor_errors
             else ret tt
           else if truthy sensors then
             sensorId <- insertSensorData sensors ;;
             if truthy sensorId then modify (set_currentSensorId sensorId)
             else ret tt
           else ret tt
         else if String.eqb topic "biogas/data/control" then
           actuators <- lift (get payload "actuators") ;;
           if truthy actuators then
             current <- gets currentSensorId ;;
             sensorId <- (if truthy current then ret current
                          else getLatestSensorId supabase) ;;
             if truthy sensorId then insertActuatorData sensorId actuators
             else ret tt
           else ret tt
         else ret tt
     end)
    (fun _ => ret tt).
End Handler.

End Unvalidated.

(* ================================================================== *)
(** * Runs *)
(* ================================================================== *)

(** Messages and requests handled one after the other: each handler has
    returned before the next one starts. *)
Module Run.

(** A message of the bus: its topic and the outcome of [JSON.parse] on its
    text. *)
Definition Message : Type := (string * option JsValue)%type.

Definition deliver (supabase : Client) (w : World MqttHandler.Globals) (m : Message)
  : World MqttHandler.Globals :=
  exec (MqttHandler.onMessage supabase (fst m) (snd m)) w.

Definition messages (supabase : Client) (ms : list Message)
    (w : World MqttHandler.Globals) : World MqttHandler.Globals :=
  fold_left (deliver supabase) ms w.

(** What happens to the server: a calibration request, the callback of a
    publish, a message of the bus, the MQTT connection going up or down. *)
Inductive Event : Type :=
| Request (body : JsValue)
| Published (err : JsValue) (refPh curPh offset : Number)
| Delivered (topic : string) (message : option JsValue)
| Connection (up : bool).

Definition set_connected (up : bool) (g : Server.Globals) : Server.Globals :=
  {| Server.currentSensorId := Server.currentSensorId g;
     Server.phCalibrationStatus := Server.phCalibrationStatus g;
     Server.connected := up;
     Server.published := Server.published g |}.

Definition step (supabase : Client) (w : World Server.Globals) (e : Event)
  : World Server.Globals :=
  match e with
  | Request body => exec (Server.calibrate_ph body) w
  | Published err refPh curPh offset =>
      exec (Server.publish_callback err refPh curPh offset) w
  | Delivered topic message => exec (Server.onMessage supabase topic message) w
  | Connection up => exec (modify (set_connected up)) w
  end.

Definition events (supabase : Client) (es : list Event)
    (w : World Server.Globals) : World Server.Globals :=
  fold_left (step supabase) es w.

End Run.

(* ================================================================== *)
(** * Vocabulary of the statements *)
(* ================================================================== *)

(** A keyed mapping is a JavaScript object: a value that is truthy and whose
    [typeof] is ['object'].  Arrays are objects. *)
Definition is_keyed_mapping (v : JsValue) : bool :=
  match v with
  | JObj _ | JArr _ => true
  | _ => false
  end.

(** The value read at key [k] of a keyed mapping; [undefined] when the key
    is missing. *)
Definition field (v : JsValue) (k : string) : JsValue :=
  match v with
  | JObj fields =>
      match lookup k fields with
      | Some x => x
      | None => JUndefined
      end
  | _ => JUndefined
  end.

(** A value is convertible when its conversion to a string does not
    throw: every primitive is, and so is every object that has no key
    ["toString"] of its own and every array of convertible values. *)
Definition convertible (v : JsValue) : bool := negb (ToString_throws v).

(** The number [sanitizeFloatValue] returns for a convertible value. *)
Definition sanitized (v : JsValue) : Number :=
  match v with
  | JNull | JUndefined => pos_zero
  | _ => if isNaN (parse_value v) then pos_zero else round6 (parse_value v)
  end.

(** The record a validator builds from the keys [ks] of [v]. *)
Definition sanitized_record (ks : list string) (v : JsValue) : JsValue :=
  JObj (map (fun k => (k, JNum (sanitized (field v k)))) ks).

Definition keys_of (v : JsValue) : list string :=
  match v with
  | JObj fields => map fst fields
  | _ => []
  end.

Definition sensor_keys : list string := ["ph"; "temp"; "ch4"; "pressure"].
Definition sensor_error_keys : list string :=
  ["ph_error"; "ph_delta_error"; "temp_error"; "temp_delta_error"].
Definition actuator_keys : list string :=
  ["pump_base"; "pump_acid"; "heater"; "solenoid"; "stirrer"].

(** A section is valid for a validator with the keys [ks] when it is a
    keyed mapping whose values at these keys are convertible. *)
Definition valid_section (ks : list string) (v : JsValue) : bool :=
  is_keyed_mapping v && forallb (fun k => convertible (field v k)) ks.

(** A value is missing when it is [undefined] or [null]. *)
Definition missing (v : JsValue) : bool :=
  match v with
  | JUndefined | JNull => true
  | _ => false
  end.

(** The id [insertSensorData] returns for a reply of the gateway: the
    [id] of the first returned row when the reply carries no error and
    the id is convertible, and [null] in every other case. *)
Definition returned_id (reply : Completion Reply) : JsValue :=
  match reply with
  | Normal r =>
      if truthy (error r) then JNull
      else
        match (row <- get0 (data r) ;;; get row "id") with
        | Normal id => if convertible id then id else JNull
        | Throw _ => JNull
        end
  | Throw _ => JNull
  end.

(** The id [getLatestSensorId] returns for a reply of the gateway. *)
Definition latest_id (reply : Completion Reply) : JsValue :=
  match reply with
  | Normal r =>
      if truthy (error r) || negb (truthy (data r)) then JNull
      else
        match get (data r) "id" with
        | Normal id => id
        | Throw _ => JNull
        end
  | Throw _ => JNull
  end.

(** The world after one more query. *)
Definition record_call {G} (q : Query) (w : World G) : World G :=
  {| globals := globals w; calls := calls w ++ [q]; clock := clock w |}.

(** The warmup flag as the gate of [processControlData] reads it: the value
    the payload sets when it carries one, the previous flag otherwise. *)
Definition warmup_after (g : MqttHandler.Globals) (payload : JsValue) : bool :=
  match MqttHandler.warmup_field payload with
  | Some v => strict_equals v (JNum MqttHandler.one)
  | None => MqttHandler.isWarmupActive g
  end.

(** The first statement of [MqttHandler.processControlData], the update
    of the warmup flag, on its own. *)
Definition warmup_update (payload : JsValue) : M MqttHandler.Globals unit :=
  system <- lift (get payload "system") ;;
  if truthy system then
    warmup_active <- lift (get system "warmup_active") ;;
    if negb (strict_equals warmup_active JUndefined) then
      let newWarmupStatus := strict_equals warmup_active (JNum MqttHandler.one) in
      warmup <- gets MqttHandler.isWarmupActive ;;
      if negb (Bool.eqb newWarmupStatus warmup)
      then modify (MqttHandler.set_isWarmupActive newWarmupStatus)
      else ret tt
    else ret tt
  else ret tt.

(** The insert [insertActuatorData] makes for [actuators]: none when the
    validator rejects them. *)
Definition actuator_insert (actuators : JsValue) : list Query :=
  if valid_section actuator_keys actuators
  then [insert_into "actuators" (sanitized_record actuator_keys actuators)]
  else [].

(** The queries [MqttHandler.processControlData] sends for a payload, from
    the module variables [g] and the queries [history] made before. *)
Definition control_queries (supabase : Client) (g : MqttHandler.Globals)
    (history : list Query) (payload : JsValue) : list Query :=
  if warmup_after g payload then []
  else
    match get payload "actuators" with
    | Normal actuators =>
        if truthy actuators then
          if truthy (MqttHandler.currentSensorId g) then actuator_insert actuators
          else
            latest_sensor_query ::
              (if truthy (latest_id (supabase history latest_sensor_query))
               then actuator_insert actuators
               else [])
        else []
    | Throw _ => []
    end.

(** The two inserts of a sensor message. *)
Definition sensor_insert (sensors : JsValue) : Query :=
  insert_returning "sensors" (sanitized_record sensor_keys sensors) "id".

Definition sensor_errors_insert (sensorId sensor_errors : JsValue) : Query :=
  insert_into "sensor_errors"
    (JObj (("sensor_id", sensorId) ::
           spread (sanitized_record sensor_error_keys sensor_errors))).

(** The [sensor_id] column of a query that inserts a row. *)
Definition sensor_id_of (q : Query) : JsValue :=
  match q_insert q with
  | Some row => field row "sensor_id"
  | None => JUndefined
  end.

(** Two gateways for the examples: one that stores every row and answers
    with id 42 (41 for the latest stored reading), one that answers every
    query with an error. *)
Definition gateway_ok : Client :=
  fun _ q =>
    if q_single q
    then Normal {| data := JObj [("id", JNum (num_of_Z 41))]; error := JNull |}
    else Normal {| data := JArr [JObj [("id", JNum (num_of_Z 42))]]; error := JNull |}.

(** A gateway that stores every row and answers with the given id. *)
Definition gateway_returning (id : JsValue) : Client :=
  fun _ _ => Normal {| data := JArr [JObj [("id", id)]]; error := JNull |}.

Definition gateway_down : Client :=
  fun _ _ =>
    Normal {| data := JNull;
              error := JObj [("message", JStr "connection refused")] |}.

Definition idle (warmup : bool) : World MqttHandler.Globals :=
  {| globals := {| MqttHandler.currentSensorId := JNull;
                   MqttHandler.isWarmupActive := warmup |};
     calls := [];
     clock := "2025-01-01T00:00:00.000Z" |}.

Definition correlated (id : JsValue) : World MqttHandler.Globals :=
  {| globals := {| MqttHandler.currentSensorId := id;
                   MqttHandler.isWarmupActive := false |};
     calls := [];
     clock := "2025-01-01T00:00:00.000Z" |}.

Definition sample_sensors : JsValue :=
  JObj [("ph", JNum (parseFloat_string "6.8"));
        ("temp", JNum (parseFloat_string "30.2"));
        ("ch4", JNum (num_of_Z 5042));
        ("pressure", JNum (num_of_Z 1015))].

Definition sample_errors : JsValue :=
  JObj [("ph_error", JNum (parseFloat_string "0.5"));
        ("ph_delta_error", JNum (parseFloat_string "0.1"));
        ("temp_error", JNum (num_of_Z 2));
        ("temp_delta_error", JNum (parseFloat_string "0.5"))].

Definition sample_actuators : JsValue :=
  JObj [("pump_base", JNum (num_of_Z 128));
        ("pump_acid", JNum (num_of_Z 0));
        ("heater", JNum (num_of_Z 255));
        ("solenoid", JNum (num_of_Z 1));
        ("stirrer", JNum (num_of_Z 1))].

Definition sensor_payload : JsValue :=
  JObj [("sensors", sample_sensors); ("sensor_errors", sample_errors)].

Definition control_payload : JsValue :=
  JObj [("actuators", sample_actuators)].

Definition control_payload_warmup (flag : JsValue) : JsValue :=
  JObj [("system", JObj [("warmup_active", flag)]);
        ("actuators", sample_actuators)].

(** The outcome of a calibration route is a validation error when it is a
    response with status 400. *)
Definition is_validation_error (r : Http.Response) : bool :=
  Http.status r =? 400.

Definition server_validation_error (out : Completion (option Http.Response)) : bool :=
  match out with
  | Normal (Some r) => is_validation_error r
  | _ => false
  end.

Definition index_validation_error (out : Completion Http.Response) : bool :=
  match out with
  | Normal r => is_validation_error r
  | Throw _ => false
  end.

(** An input of the calibration route passes the two validation steps
    of the source when it is truthy, can be converted to a string and does
    not parse to NaN. *)
Definition passes_validation (input : JsValue) : bool :=
  truthy input && convertible input && negb (isNaN (parse_value input)).


(** The world of [Server.calibrate_ph] after it handed the offset to the
    MQTT client. *)
Definition calibration_started (refPh curPh : Number) (w : World Server.Globals)
  : World Server.Globals :=
  let offset := sanitized (JNum (sub refPh curPh)) in
  {| globals :=
       Server.publish
         {| Mqtt.topic := "biogas/ph_offset";
            Mqtt.payload :=
              JSON_stringify
                (JObj [("offset", JNum offset);
                       ("reference_ph", JNum refPh);
                       ("current_ph", JNum curPh);
                       ("timestamp", JStr (clock w))]);
            Mqtt.qos := 1 |}
         (Server.set_status
            (Server.set_pendingCalibration
               (JObj [("referencePh", JNum refPh);
                      ("currentPh", JNum curPh);
                      ("offset", JNum offset);
                      ("timestamp", JStr (clock w))]))
            (Server.set_status (Server.set_isCalibrating true) (globals w)));
     calls := calls w;
     clock := clock w |}.

(** The world of [Server.calibrate_ph] after its [catch]: the flag is
    cleared and the pending request dropped. *)
Definition calibration_cancelled (w : World Server.Globals) : World Server.Globals :=
  {| globals :=
       Server.set_status (Server.set_pendingCalibration JNull)
         (Server.set_status (Server.set_isCalibrating false) (globals w));
     calls := calls w;
     clock := clock w |}.

Definition server_world (calibrating : bool) (pending : JsValue) (mqttConnected : bool)
  : World Server.Globals :=
  {| globals :=
       {| Server.currentSensorId := JNull;
          Server.phCalibrationStatus :=
            {| Server.isCalibrating := calibrating;
               Server.lastCalibration := JNull;
               Server.pendingCalibration := pending |};
          Server.connected := mqttConnected;
          Server.published := [] |};
     calls := [];
     clock := "2025-01-01T00:00:00.000Z" |}.

Definition index_world (mqttConnected : bool) : World Index.Globals :=
  {| globals := {| Index.connected := mqttConnected; Index.published := [] |};
     calls := [];
     clock := "2025-01-01T00:00:00.000Z" |}.

Definition calibration_body (referencePh currentPh : JsValue) : JsValue :=
  JObj [("referencePh", referencePh); ("currentPh", currentPh)].

Definition sample_pending : JsValue :=
  JObj [("referencePh", JNum (num_of_Z 7));
        ("currentPh", JNum (parseFloat_string "6.5"));
        ("offset", JNum (parseFloat_string "0.5"));
        ("timestamp", JStr "2025-01-01T00:00:00.000Z")].

(** The value of [payload.success || payload.status === 'success'] for a
    payload whose properties can be read. *)
Definition success_of (payload : JsValue) : JsValue :=
  or_else (field payload "success")
          (JBool (strict_equals (field payload "status") (JStr "success"))).

(** The row [Server.logPhCalibration] inserts. *)
Definition calibration_log (pending payload : JsValue) (timestamp : string) : JsValue :=
  JObj [("calibration_type", JStr "ph_offset");
        ("offset_value", or_else (get_opt pending "offset") JNull);
        ("reference_ph", or_else (get_opt pending "referencePh") JNull);
        ("current_ph", or_else (get_opt pending "currentPh") JNull);
        ("response_data", payload);
        ("success", success_of payload);
        ("timestamp", JStr timestamp)].

(** The calibration status after a response was processed. *)
Definition calibration_answered (payload : JsValue) (timestamp : string)
    (s : Server.CalibrationStatus) : Server.CalibrationStatus :=
  {| Server.isCalibrating := false;
     Server.lastCalibration :=
       JObj [("timestamp", JStr timestamp);
             ("response", payload);
             ("success", success_of payload)];
     Server.pendingCalibration := Server.pendingCalibration s |}.

(** The decimal literal [s] as a number. *)
Definition lit (s : string) : Number := parseFloat_string s.

(** A shift record stands for the quotient of [N] by [D]: its mantissa is
    the integer part, and its two bits tell where the remainder lies with
    respect to one half of [D]. *)
Definition represents (N D : Z) (mrs : shr_record) : Prop :=
  exists rem,
    N = shr_m mrs * D + rem /\ 0 <= rem < D /\
    (shr_r mrs = true <-> D <= 2 * rem) /\
    (shr_s mrs = true <-> rem <> 0 /\ 2 * rem <> D).

(** ** Vocabulary of the properties of runs and of the earlier handlers *)

(** Two numbers are the same value ([Object.is]). *)
Definition same_number (x y : Number) : bool :=
  match x, y with
  | S754_zero a, S754_zero b => Bool.eqb a b
  | S754_infinity a, S754_infinity b => Bool.eqb a b
  | S754_nan, S754_nan => true
  | S754_finite s m e, S754_finite t n f => Bool.eqb s t && Pos.eqb m n && (e =? f)
  | _, _ => false
  end.

(** [sanitizeFloatValue] returns the number it is given. *)
Definition unchanged (x : Number) : bool :=
  match sanitizeFloatValue (JNum x) with
  | Normal y => same_number y x
  | Throw _ => false
  end.

(** [check] holds of 0, 1, ..., n - 1. *)
Definition all_below (check : Z -> bool) (n : positive) : bool :=
  fst (Pos.iter (fun '(ok, k) => (ok && check k, k + 1)) (true, 0) n).

(** The number written [k / 10^d] as a decimal literal, with its sign. *)
Definition decimal (k d : Z) : Number :=
  decimal_to_number (k <? 0) (Z.abs k) (- d).

(** The record of the keys [ks] of [v] as they come. *)
Definition raw_record (ks : list string) (v : JsValue) : JsValue :=
  JObj (map (fun k => (k, field v k)) ks).

(** The values of [v] at the keys [ks] are integers of magnitude at most
    9007199254, given as numbers. *)
Definition integer_fields (ks : list string) (v : JsValue) : Prop :=
  forall k, In k ks ->
    exists n, Z.abs n <= 9007199254 /\ field v k = JNum (num_of_Z n).

(** A row whose keys are [ks] and whose values are numbers other than NaN. *)
Definition numeric_row (ks : list string) (row : JsValue) : Prop :=
  keys_of row = ks /\
  forall k, In k ks -> exists x, field row k = JNum x /\ is_nan x = false.

(** The queries of the validating handlers: the look-up of the latest
    reading, and the three inserts, each of a row of numbers; a row of
    [sensor_errors] carries a truthy [sensor_id] in front. *)
Definition handler_query (q : Query) : Prop :=
  q = latest_sensor_query \/
  (exists row, q = insert_returning "sensors" row "id" /\
               numeric_row sensor_keys row) \/
  (exists id row, q = insert_into "sensor_errors" (JObj (("sensor_id", id) :: spread row)) /\
                  truthy id = true /\ numeric_row sensor_error_keys row) \/
  (exists row, q = insert_into "actuators" row /\ numeric_row actuator_keys row).

(** What a sensor message does when nothing gates it: the correlation id
    afterwards and the queries sent, from the id [current] before and the
    queries [history] made before. *)
Definition sensor_outcome (supabase : Client) (current : JsValue)
    (history : list Query) (payload : JsValue) : JsValue * list Query :=
  match get payload "sensors" with
  | Normal sensors =>
      if valid_section sensor_keys sensors then
        let id := returned_id (supabase history (sensor_insert sensors)) in
        if truthy id then
          (id,
           sensor_insert sensors ::
             (if valid_section sensor_error_keys (field payload "sensor_errors")
              then [sensor_errors_insert id (field payload "sensor_errors")]
              else []))
        else (current, [sensor_insert sensors])
      else (current, [])
  | Throw _ => (current, [])
  end.

(** The queries [Server.processControlData] sends. *)
Definition server_control_queries (supabase : Client) (current : JsValue)
    (history : list Query) (payload : JsValue) : list Query :=
  match get payload "actuators" with
  | Normal actuators =>
      if truthy actuators then
        if truthy current then actuator_insert actuators
        else
          latest_sensor_query ::
            (if truthy (latest_id (supabase history latest_sensor_query))
             then actuator_insert actuators
             else [])
      else []
  | Throw _ => []
  end.

(** A message ends the warmup when it is a control message that carries a
    [warmup_active] other than 1. *)
Definition ends_warmup (m : Run.Message) : bool :=
  String.eqb (fst m) "biogas/data/control" &&
  match snd m with
  | Some payload =>
      match MqttHandler.warmup_field payload with
      | Some v => negb (strict_equals v (JNum MqttHandler.one))
      | None => false
      end
  | None => false
  end.

(** A message starts the warmup when it is a control message that carries
    [warmup_active] 1. *)
Definition starts_warmup (m : Run.Message) : bool :=
  String.eqb (fst m) "biogas/data/control" &&
  match snd m with
  | Some payload =>
      match MqttHandler.warmup_field payload with
      | Some v => strict_equals v (JNum MqttHandler.one)
      | None => false
      end
  | None => false
  end.

(** The handler as it is loaded. *)
Definition handler_loaded : World MqttHandler.Globals :=
  {| globals := Exports.loaded; calls := []; clock := "2025-01-01T00:00:00.000Z" |}.

(** The two variants of the handler see the same correlation id and the
    same trace, and the gated one is not warming up. *)
Definition same_view (ws : World Server.Globals) (wm : World MqttHandler.Globals) : Prop :=
  Server.currentSensorId (globals ws) = MqttHandler.currentSensorId (globals wm) /\
  calls ws = calls wm /\
  MqttHandler.isWarmupActive (globals wm) = false.

(** The publication of an offset by the server: on [biogas/ph_offset],
    with QoS 1, and with an [offset] that is a finite number or [null]. *)
Definition offset_publication (p : Mqtt.Publication) : bool :=
  String.eqb (Mqtt.topic p) "biogas/ph_offset" && (Mqtt.qos p =? 1) &&
  match field (Mqtt.payload p) "offset" with
  | JNum x => is_finite x
  | JNull => true
  | _ => false
  end.

(** While a calibration is in progress the request is held. *)
Definition request_held (s : Server.CalibrationStatus) : bool :=
  implb (Server.isCalibrating s) (is_keyed_mapping (Server.pendingCalibration s)).

(** The server as it is loaded: [currentSensorId = null] and no
    calibration. *)
Definition server_loaded (mqttConnected : bool) : World Server.Globals :=
  server_world false JNull mqttConnected.

(** The publication [Index.publishPhOffset] makes. *)
Definition ph_offset_publication (offset : Number) (timestamp : string) : Mqtt.Publication :=
  {| Mqtt.topic := "biogas/ph_offset";
     Mqtt.payload :=
       JSON_stringify (JObj [("ph_offset", JNum offset); ("timestamp", JStr timestamp)]);
     Mqtt.qos := 1 |}.

(** The queries of the first handler. *)
Definition legacy_sensor_insert (sensors : JsValue) : Query :=
  {| q_from := "sensors";
     q_insert := Some (raw_record sensor_keys sensors);
     q_select := Some "*"; q_order := None; q_limit := None; q_single := true |}.

Definition legacy_errors_insert (sensorId sensor_errors : JsValue) : Query :=
  insert_into "sensor_errors"
    (JObj (("sensor_id", sensorId) :: spread (raw_record sensor_error_keys sensor_errors))).

Definition legacy_actuators_insert (actuators : JsValue) : Query :=
  insert_into "actuators" (raw_record actuator_keys actuators).

(** The queries of [Legacy.handleControlData]: the look-up of the latest
    reading, then the two inserts when the look-up gave an id. *)
Definition legacy_control_queries (supabase : Client) (history : list Query)
    (payload : JsValue) : list Query :=
  latest_sensor_query ::
  match supabase history latest_sensor_query with
  | Normal r =>
      if truthy (error r) then []
      else
        match get (data r) "id" with
        | Normal id =>
            let errors := legacy_errors_insert id (field payload "sensor_errors") in
            errors ::
            match supabase (history ++ [latest_sensor_query]) errors with
            | Normal _ => [legacy_actuators_insert (field payload "actuators")]
            | Throw _ => []
            end
        | Throw _ => []
        end
  | Throw _ => []
  end.

Definition legacy_world (history : list Query) : World unit :=
  {| globals := tt; calls := history; clock := "2025-01-01T00:00:00.000Z" |}.

Definition unvalidated_world (id : JsValue) : World Unvalidated.Globals :=
  {| globals := {| Unvalidated.currentSensorId := id |};
     calls := [];
     clock := "2025-01-01T00:00:00.000Z" |}.


(* ================================================================== *)
(** * The built-ins on concrete inputs *)
(* ================================================================== *)

Example parseFloat_tenth :
  parseFloat_string "0.1" = S754_finite false 7205759403792794 (-56).
Proof. vm_compute. reflexivity. Qed.

Example parseFloat_prefix : parseFloat_string " 12abc" = num_of_Z 12.
Proof. vm_compute. reflexivity. Qed.

Example parseFloat_exponent :
  parseFloat_string "5.e3" = num_of_Z 5000 /\
  parseFloat_string "1e" = num_of_Z 1 /\
  parseFloat_string ".5" = parseFloat_string "5e-1".
Proof. vm_compute. repeat split. Qed.

Example parseFloat_not_a_number :
  parseFloat_string "abc" = NaN /\ parseFloat_string "." = NaN /\
  parseFloat_string EmptyString = NaN /\ parseFloat (JBool true) = Normal NaN /\
  parseFloat (JObj []) = Normal NaN /\ parseFloat (JArr []) = Normal NaN.
Proof. vm_compute. repeat split. Qed.

(** An object with a key ["toString"] of its own cannot be converted, nor
    can an array that holds one. *)
Example parseFloat_throws :
  parseFloat (JObj [("toString", JNum (num_of_Z 1))]) = Throw TypeError /\
  parseFloat (JArr [JStr "7"; JObj [("toString", JNull)]]) = Throw TypeError /\
  parseFloat (JArr [JArr [JObj [("toString", JStr "x")]]]) = Throw TypeError /\
  parseFloat (JObj [("valueOf", JNum (num_of_Z 1))]) = Normal NaN /\
  parseFloat (JArr [JNull; JObj []]) = Normal NaN.
Proof. vm_compute. repeat split. Qed.

(** The no-break space (C2 A0), the line separator (E2 80 A8) and the
    byte order mark (EF BB BF) are skipped with the ASCII white space. *)
Example parseFloat_white_space :
  let nbsp := String (ascii_of_nat 194) (String (ascii_of_nat 160) EmptyString) in
  let ls := String (ascii_of_nat 226) (String (ascii_of_nat 128)
              (String (ascii_of_nat 168) EmptyString)) in
  let bom := String (ascii_of_nat 239) (String (ascii_of_nat 187)
               (String (ascii_of_nat 191) EmptyString)) in
  parseFloat_string (nbsp ++ "5") = num_of_Z 5 /\
  parseFloat_string (" " ++ ls ++ bom ++ nbsp ++ "-2.5") = lit "-2.5" /\
  parseFloat_string (String (ascii_of_nat 194) "5") = NaN.
Proof. vm_compute. repeat split. Qed.

Example JSON_stringify_numbers :
  JSON_stringify (JObj [("offset", JNum Infinity); ("x", JUndefined);
                        ("zero", JNum neg_zero); ("ph", JNum (lit "6.8"));
                        ("list", JArr [JUndefined; JNum NaN])])
  = JObj [("offset", JNull); ("zero", JNum pos_zero); ("ph", JNum (lit "6.8"));
          ("list", JArr [JNull; JNull])].
Proof. vm_compute. reflexivity. Qed.

Example parseFloat_overflow :
  parseFloat_string "1e999" = Infinity /\
  parseFloat_string "-Infinity" = S754_infinity true /\
  parseFloat_string "1.7976931348623157e308" = S754_finite false 9007199254740991 971.
Proof. vm_compute. repeat split. Qed.

Example parseFloat_subnormal :
  parseFloat_string "5e-324" = S754_finite false 1 (-1074) /\
  parseFloat_string "2e-324" = pos_zero.
Proof. vm_compute. repeat split. Qed.

Example parseFloat_negative_zero :
  parseFloat_string "-0" = neg_zero /\ parseFloat (JNum neg_zero) = Normal pos_zero.
Proof. vm_compute. split; reflexivity. Qed.

Example parseFloat_array :
  parseFloat (JArr [JStr "7.5"; JStr "x"]) = Normal (parseFloat_string "7.5").
Proof. reflexivity. Qed.

Example Math_round_ties :
  Math_round (lit "2.5") = num_of_Z 3 /\
  Math_round (lit "-2.5") = num_of_Z (-2) /\
  Math_round (lit "-0.4") = neg_zero /\
  Math_round (lit "0.49999999999999994") = pos_zero /\
  Math_round (lit "1e300") = lit "1e300".
Proof. vm_compute. repeat split. Qed.

Example sanitize_examples :
  sanitizeFloatValue (JNum (lit "6.8")) = Normal (lit "6.8") /\
  sanitizeFloatValue (JStr "30.2") = Normal (lit "30.2") /\
  sanitizeFloatValue (JNum (lit "0.1234565")) = Normal (lit "0.123457") /\
  sanitizeFloatValue (JNum (lit "1.0000004")) = Normal (num_of_Z 1) /\
  sanitizeFloatValue (JStr "n/a") = Normal pos_zero /\
  sanitizeFloatValue JUndefined = Normal pos_zero /\
  sanitizeFloatValue (JObj [("toString", JNull)]) = Throw TypeError.
Proof. vm_compute. repeat split. Qed.

(* ================================================================== *)
(** * Properties of the number operations *)
(* ================================================================== *)

Section RoundingNeverNaN.

Lemma shr_1_nonneg : forall mrs, 0 <= shr_m mrs -> 0 <= shr_m (shr_1 mrs).
Proof.
  intros [m r s] H. simpl in *.
  destruct m as [|p|p]; simpl; try lia.
  destruct p; simpl; lia.
Qed.

Lemma iter_pos_invariant :
  forall (A : Type) (P : A -> Prop) (f : A -> A),
    (forall a, P a -> P (f a)) ->
    forall p a, P a -> P (iter_pos f p a).
Proof.
  intros A P f Hf. induction p as [p IH|p IH|]; intros a Ha; simpl; auto.
Qed.

Lemma shr_nonneg :
  forall mrs e n, 0 <= shr_m mrs -> 0 <= shr_m (fst (shr mrs e n)).
Proof.
  intros mrs e n H. unfold shr.
  destruct n as [|p|p]; simpl; auto.
  apply (iter_pos_invariant _ (fun r => 0 <= shr_m r)); auto using shr_1_nonneg.
Qed.

Lemma shr_record_of_loc_m : forall m l, shr_m (shr_record_of_loc m l) = m.
Proof. intros m [|[| |]]; reflexivity. Qed.

Lemma shr_fexp_nonneg :
  forall m e l, 0 <= m -> 0 <= shr_m (fst (shr_fexp prec emax m e l)).
Proof.
  intros m e l H. unfold shr_fexp. apply shr_nonneg.
  rewrite shr_record_of_loc_m. exact H.
Qed.

Lemma round_nearest_even_nonneg :
  forall m l, 0 <= m -> 0 <= round_nearest_even m l.
Proof.
  intros m [|[| |]] H; simpl; try lia.
  destruct (Z.even m); lia.
Qed.

Lemma binary_round_aux_not_nan :
  forall s m e l, 0 <= m -> is_nan (binary_round_aux prec emax s m e l) = false.
Proof.
  intros s m e l H. unfold binary_round_aux.
  pose proof (shr_fexp_nonneg m e l H) as H1.
  destruct (shr_fexp prec emax m e l) as [mrs' e'] eqn:E1. simpl in H1.
  pose proof (shr_fexp_nonneg _ e' loc_Exact
                (round_nearest_even_nonneg _ (loc_of_shr_record mrs') H1)) as H2.
  destruct (shr_fexp prec emax
              (round_nearest_even (shr_m mrs') (loc_of_shr_record mrs')) e' loc_Exact)
    as [mrs'' e''] eqn:E2. simpl in H2.
  destruct (shr_m mrs'') as [|p|p]; try reflexivity.
  - destruct (e'' <=? emax - prec); reflexivity.
  - lia.
Qed.

Lemma binary_round_not_nan :
  forall s m e, is_nan (binary_round prec emax s m e) = false.
Proof.
  intros s m e. unfold binary_round.
  destruct (shl_align m e _) as [mz ez].
  apply binary_round_aux_not_nan. lia.
Qed.

Lemma num_of_Z_not_nan : forall n, is_nan (num_of_Z n) = false.
Proof.
  intros [|p|p]; unfold num_of_Z, binary_normalize;
    try reflexivity; apply binary_round_not_nan.
Qed.

Lemma Math_round_not_nan :
  forall x, is_nan x = false -> is_nan (Math_round x) = false.
Proof.
  intros [s|s| |s m e] H; simpl in *; try assumption; try reflexivity.
  destruct (0 <=? e); [reflexivity|].
  match goal with |- context [if ?c then _ else _] => destruct c end;
    [reflexivity | apply num_of_Z_not_nan].
Qed.

Lemma mul_million_not_nan :
  forall x, is_nan x = false -> is_nan (mul x million) = false.
Proof.
  intros [s|s| |s m e] H; simpl in *; try reflexivity; try discriminate.
  apply binary_round_aux_not_nan. lia.
Qed.

Lemma SFdiv_core_binary_nonneg :
  forall m1 e1 m2 e2,
    0 <= m1 -> 0 < m2 ->
    0 <= fst (fst (SFdiv_core_binary prec emax m1 e1 m2 e2)).
Proof.
  intros m1 e1 m2 e2 H1 H2. unfold SFdiv_core_binary.
  set (s := _ - _ - _).
  set (m' := match s with 0 => m1 | Z.pos _ => _ | Z.neg _ => 0 end).
  assert (Hm' : 0 <= m').
  { subst m'. destruct s; try lia.
    change (0 <= Z.shiftl m1 (Z.pos p)). apply Z.shiftl_nonneg. exact H1. }
  pose proof (Z_div_mod m' m2 ltac:(lia)) as Hdm.
  change (Z.div_eucl m' m2) with (IntDef.Z.div_eucl m' m2) in Hdm.
  destruct (IntDef.Z.div_eucl m' m2) as [q r]. simpl. nia.
Qed.

Lemma div_million_not_nan :
  forall x, is_nan x = false -> is_nan (div x million) = false.
Proof.
  intros [s|s| |s m e] H; try reflexivity; try discriminate.
  unfold div, million, SFdiv.
  pose proof (SFdiv_core_binary_nonneg (Z.pos m) e 8589934592000000 (-33)
                ltac:(lia) ltac:(lia)) as Hq.
  destruct (SFdiv_core_binary prec emax (Z.pos m) e _ _) as [[q e'] l].
  apply binary_round_aux_not_nan. exact Hq.
Qed.

Lemma round6_not_nan :
  forall x, is_nan x = false -> is_nan (round6 x) = false.
Proof.
  intros x H. unfold round6.
  apply div_million_not_nan, Math_round_not_nan, mul_million_not_nan, H.
Qed.

End RoundingNeverNaN.

(** ** Scaling by a million and back

    Dividing an integer of magnitude below 2^32 * 10^6 by a million and
    multiplying the quotient by a million again gives a number within one
    half of that integer, so [Math.round] returns the integer.  The proof
    follows the rounding of [SpecFloat] on mantissas of at least 53 bits:
    the result is the nearest mantissa of 53 bits. *)

Section RoundTrip.

(** A positive number of [d] binary digits lies between 2^(d-1) and 2^d. *)
Lemma digits2_pos_bounds :
  forall p : positive,
    2 ^ (Z.pos (digits2_pos p) - 1) <= Z.pos p < 2 ^ Z.pos (digits2_pos p).
Proof.
  induction p as [p IH|p IH|]; simpl digits2_pos.
  - rewrite Pos2Z.inj_succ.
    replace (Z.succ (Z.pos (digits2_pos p)) - 1)
      with (Z.succ (Z.pos (digits2_pos p) - 1)) by lia.
    rewrite !Z.pow_succ_r by lia. lia.
  - rewrite Pos2Z.inj_succ.
    replace (Z.succ (Z.pos (digits2_pos p)) - 1)
      with (Z.succ (Z.pos (digits2_pos p) - 1)) by lia.
    rewrite !Z.pow_succ_r by lia. lia.
  - simpl. lia.
Qed.

(** One step of the right shift halves the mantissa. *)
Lemma shr_1_div2 :
  forall mrs, 0 <= shr_m mrs -> shr_m (shr_1 mrs) = shr_m mrs / 2.
Proof.
  intros [m r s] H. simpl in *.
  destruct m as [|p|p]; try lia; [reflexivity|].
  destruct p; simpl.
  - rewrite Pos2Z.inj_xI. apply Z.div_unique with (r := 1); lia.
  - rewrite Pos2Z.inj_xO. apply Z.div_unique with (r := 0); lia.
  - reflexivity.
Qed.

Lemma iter_shr_1 :
  forall p mrs, 0 <= shr_m mrs ->
    shr_m (iter_pos shr_1 p mrs) = shr_m mrs / 2 ^ Z.pos p /\
    0 <= shr_m (iter_pos shr_1 p mrs).
Proof.
  induction p as [p IH|p IH|]; intros mrs H; simpl iter_pos.
  - pose proof (shr_1_nonneg mrs H) as H1.
    destruct (IH (shr_1 mrs) H1) as [E2 H2].
    destruct (IH _ H2) as [E3 H3].
    split; [|exact H3].
    rewrite E3, E2, shr_1_div2 by assumption.
    rewrite !Z.div_div by lia.
    f_equal. rewrite Pos2Z.inj_xI.
    replace (2 * Z.pos p + 1) with (1 + Z.pos p + Z.pos p) by lia.
    rewrite !Z.pow_add_r by lia. lia.
  - destruct (IH mrs H) as [E2 H2].
    destruct (IH _ H2) as [E3 H3].
    split; [|exact H3].
    rewrite E3, E2.
    rewrite !Z.div_div by lia.
    f_equal. rewrite Pos2Z.inj_xO.
    rewrite <- Z.pow_add_r by lia. f_equal. lia.
  - split; [|apply shr_1_nonneg, H]. rewrite shr_1_div2 by assumption. reflexivity.
Qed.

Lemma digits2_pos_unique :
  forall (p : positive) (k : Z),
    2 ^ (k - 1) <= Z.pos p < 2 ^ k -> Z.pos (digits2_pos p) = k.
Proof.
  intros p k [Hl Hu].
  destruct (digits2_pos_bounds p) as [Bl Bu].
  assert (0 < k).
  { destruct (Z.ltb_spec 0 k) as [|Hk]; [assumption|].
    assert (2 ^ k <= 1).
    { destruct (Z.eq_dec k 0) as [->|]; [simpl; lia|].
      rewrite Z.pow_neg_r by lia. lia. }
    lia. }
  assert (k - 1 < Z.pos (digits2_pos p)).
  { apply (Z.pow_lt_mono_r_iff 2); lia. }
  assert (Z.pos (digits2_pos p) - 1 < k).
  { apply (Z.pow_lt_mono_r_iff 2); lia. }
  lia.
Qed.

Lemma fexp_normal :
  forall e, -1074 <= e - 53 -> fexp prec emax e = e - 53.
Proof. intros e H. unfold fexp, emin, prec, emax. lia. Qed.

Lemma round_nearest_even_cases :
  forall m l, round_nearest_even m l = m \/ round_nearest_even m l = m + 1.
Proof.
  intros m [|[| |]]; simpl; auto. destruct (Z.even m); auto.
Qed.

Lemma shr_div :
  forall mrs e n, 0 <= shr_m mrs -> 0 <= n ->
    shr mrs e n = (fst (shr mrs e n), e + n) /\
    shr_m (fst (shr mrs e n)) = shr_m mrs / 2 ^ n.
Proof.
  intros mrs e n H Hn. unfold shr. destruct n as [|p|p]; try lia; simpl fst.
  - rewrite Z.add_0_r, Z.div_1_r. split; reflexivity.
  - split; [reflexivity|]. apply iter_shr_1, H.
Qed.

(** ** Rounding to nearest

    The two bits of a shift record locate what was shifted out, so the
    mantissa that [round_nearest_even] picks is within one half of the
    quotient the record stands for. *)

Ltac bool_iff H :=
  match type of H with
  | (true = true <-> ?P) => assert P by (apply H; reflexivity)
  | (false = true <-> ?P) =>
      assert (~ P) by (let X := fresh in intro X; apply H in X; discriminate)
  end.

Lemma shr_1_represents :
  forall N D mrs, 0 < D -> 0 <= shr_m mrs ->
    represents N D mrs -> represents N (2 * D) (shr_1 mrs).
Proof.
  intros N D [m r s] HD Hm (rem & EN & Hrem & Hr & Hs).
  cbn [shr_m shr_r shr_s] in *.
  assert (Hrs : (r || s)%bool = true <-> rem <> 0).
  { destruct r, s; cbn [orb]; bool_iff Hr; bool_iff Hs; split; intro;
      first [reflexivity | discriminate | lia | exfalso; lia]. }
  destruct m as [|[p|p|]|p]; try lia; unfold represents;
    cbn [shr_1 shr_m shr_r shr_s].
  - exists rem.
    split; [lia|]. split; [lia|]. split; [split; intro; [discriminate|exfalso; lia]|].
    rewrite Hrs. lia.
  - exists (D + rem). rewrite Pos2Z.inj_xI in EN.
    split; [lia|]. split; [lia|]. split; [split; intro; [lia|reflexivity]|].
    rewrite Hrs. lia.
  - exists rem. rewrite Pos2Z.inj_xO in EN.
    split; [lia|]. split; [lia|]. split; [split; intro; [discriminate|exfalso; lia]|].
    rewrite Hrs. lia.
  - exists (D + rem).
    split; [lia|]. split; [lia|]. split; [split; intro; [lia|reflexivity]|].
    rewrite Hrs. lia.
Qed.

Lemma iter_shr_1_represents :
  forall p N D mrs, 0 < D -> 0 <= shr_m mrs ->
    represents N D mrs ->
    represents N (D * 2 ^ Z.pos p) (iter_pos shr_1 p mrs).
Proof.
  induction p as [p IH|p IH|]; intros N D mrs HD Hm HR; cbn [iter_pos].
  - assert (Hp : 0 < 2 ^ Z.pos p) by (apply Z.pow_pos_nonneg; lia).
    replace (D * 2 ^ Z.pos p~1) with (2 * D * 2 ^ Z.pos p * 2 ^ Z.pos p).
    + apply IH; [nia | apply iter_shr_1, shr_1_nonneg, Hm |].
      apply IH; [lia | apply shr_1_nonneg, Hm |].
      apply shr_1_represents; assumption.
    + rewrite (Pos2Z.inj_xI p).
      replace (2 * Z.pos p + 1) with (1 + Z.pos p + Z.pos p) by lia.
      rewrite !Z.pow_add_r by lia. change (2 ^ 1) with 2. ring.
  - assert (Hp : 0 < 2 ^ Z.pos p) by (apply Z.pow_pos_nonneg; lia).
    replace (D * 2 ^ Z.pos p~0) with (D * 2 ^ Z.pos p * 2 ^ Z.pos p).
    + apply IH; [nia | apply iter_shr_1, Hm |].
      apply IH; assumption.
    + rewrite (Pos2Z.inj_xO p).
      replace (2 * Z.pos p) with (Z.pos p + Z.pos p) by lia.
      rewrite !Z.pow_add_r by lia. ring.
  - change (2 ^ 1) with 2. rewrite Z.mul_comm. apply shr_1_represents; assumption.
Qed.

Lemma shr_represents :
  forall mrs e n N D, 0 < D -> 0 <= shr_m mrs -> 0 <= n ->
    represents N D mrs -> represents N (D * 2 ^ n) (fst (shr mrs e n)).
Proof.
  intros mrs e n N D HD Hm Hn HR. unfold shr.
  destruct n as [|p|p]; try lia; simpl fst.
  - rewrite Z.mul_1_r. exact HR.
  - apply iter_shr_1_represents; assumption.
Qed.

Lemma round_nearest_represents :
  forall N D mrs, 0 < D -> represents N D mrs ->
    - D <= 2 * (round_nearest_even (shr_m mrs) (loc_of_shr_record mrs) * D - N) <= D.
Proof.
  intros N D [m r s] HD (rem & EN & Hrem & Hr & Hs).
  cbn [shr_m shr_r shr_s] in *.
  destruct r, s; bool_iff Hr; bool_iff Hs;
    cbn [loc_of_shr_record round_nearest_even];
    try destruct (Z.even m); nia.
Qed.

(** An exact mantissa stands for itself. *)
Lemma exact_represents :
  forall N, represents N 1 (shr_record_of_loc N loc_Exact).
Proof.
  intros N. exists 0. cbn [shr_record_of_loc shr_m shr_r shr_s].
  split; [lia|]. split; [lia|]. split; split; intro; try discriminate; lia.
Qed.

(** The quotient and the remainder of a division by [million_mantissa],
    with the location [SFdiv] computes for them. *)
Lemma quotient_represents :
  forall N q r,
    N = million_mantissa * q + r -> 0 <= r < million_mantissa ->
    represents N million_mantissa
      (shr_record_of_loc q (new_location million_mantissa r)).
Proof.
  intros N q r EN Hr. unfold new_location.
  change (Z.even million_mantissa) with true. cbv iota.
  unfold new_location_even.
  destruct (Z.eqb_spec r 0) as [->|Hn].
  - exists 0. cbn [shr_record_of_loc shr_m shr_r shr_s]. unfold million_mantissa in *.
    split; [lia|]. split; [lia|]. split; split; intro; try discriminate; lia.
  - exists r. unfold million_mantissa in *.
    destruct (Z.compare_spec (2 * r) 8589934592000000);
      cbn [shr_record_of_loc shr_m shr_r shr_s];
      (split; [lia|]); (split; [lia|]);
      split; split; intro; first [reflexivity | discriminate | lia | exfalso; lia].
Qed.

(** Rounding a mantissa of [d >= 53] digits in the normal range: the result
    is finite, its 53-bit mantissa [m] (times 2 when the rounding carried
    into the next binade, [c = 1]) is the mantissa shifted right by
    [d - 53] bits or the successor of that, and it is the mantissa itself
    when nothing has to be shifted out of an exact input. *)
Lemma binary_round_aux_normal :
  forall s mx ex lx,
    0 < mx ->
    53 <= Zdigits2 mx ->
    -1074 <= Zdigits2 mx + ex - 53 <= 970 ->
    exists m c,
      binary_round_aux prec emax s mx ex lx =
        S754_finite s m (ex + (Zdigits2 mx - 53) + c) /\
      (c = 0 \/ c = 1) /\
      2 ^ 52 <= Z.pos m < 2 ^ 53 /\
      (Z.pos m * 2 ^ c - 1) * 2 ^ (Zdigits2 mx - 53) <= mx
        < (Z.pos m * 2 ^ c + 1) * 2 ^ (Zdigits2 mx - 53) /\
      (lx = loc_Exact -> Zdigits2 mx = 53 -> Z.pos m = mx /\ c = 0) /\
      (forall N D, 0 < D -> represents N D (shr_record_of_loc mx lx) ->
         - (D * 2 ^ (Zdigits2 mx - 53))
           <= 2 * (Z.pos m * 2 ^ c * (D * 2 ^ (Zdigits2 mx - 53)) - N)
           <= D * 2 ^ (Zdigits2 mx - 53)).
Proof.
  intros s mx ex lx Hpos Hd Hr.
  destruct mx as [|px|px]; try lia.
  change (Zdigits2 (Z.pos px)) with (Z.pos (digits2_pos px)) in *.
  pose proof (digits2_pos_bounds px) as Hb.
  remember (Z.pos (digits2_pos px)) as d eqn:Ed.
  unfold binary_round_aux. unfold shr_fexp at 1.
  change (Zdigits2 (Z.pos px)) with (Z.pos (digits2_pos px)). rewrite <- Ed.
  rewrite (fexp_normal (d + ex)) by lia.
  replace (d + ex - 53 - ex) with (d - 53) by lia.
  destruct (shr_div (shr_record_of_loc (Z.pos px) lx) ex (d - 53)) as [Es Em];
    [rewrite shr_record_of_loc_m; lia | lia |].
  rewrite Es. rewrite shr_record_of_loc_m in Em.
  set (mrs' := fst (shr (shr_record_of_loc (Z.pos px) lx) ex (d - 53))) in *.
  set (m1 := shr_m mrs') in *.
  assert (H1 : 2 ^ 52 <= m1 < 2 ^ 53).
  { rewrite Em. split.
    - apply Z.div_le_lower_bound; [apply Z.pow_pos_nonneg; lia|].
      rewrite <- Z.pow_add_r by lia. replace (d - 53 + 52) with (d - 1) by lia. lia.
    - apply Z.div_lt_upper_bound; [apply Z.pow_pos_nonneg; lia|].
      rewrite <- Z.pow_add_r by lia. replace (d - 53 + 53) with d by lia. lia. }
  set (m2 := round_nearest_even m1 (loc_of_shr_record mrs')).
  assert (H2 : m2 = m1 \/ m2 = m1 + 1) by apply round_nearest_even_cases.
  assert (Hfl : (m2 - 1) * 2 ^ (d - 53) <= Z.pos px < (m2 + 1) * 2 ^ (d - 53)).
  { assert (Hp2 : 0 < 2 ^ (d - 53)) by (apply Z.pow_pos_nonneg; lia).
    pose proof (Z.mul_div_le (Z.pos px) _ Hp2) as Hlo.
    pose proof (Z.mul_succ_div_gt (Z.pos px) _ Hp2) as Hhi.
    rewrite <- Em in Hlo, Hhi. nia. }
  assert (H2e : lx = loc_Exact -> d = 53 -> m2 = Z.pos px).
  { intros -> E53. subst m2 m1 mrs'. rewrite E53. reflexivity. }
  assert (Hnear : forall N D, 0 < D ->
            represents N D (shr_record_of_loc (Z.pos px) lx) ->
            - (D * 2 ^ (d - 53)) <= 2 * (m2 * (D * 2 ^ (d - 53)) - N)
              <= D * 2 ^ (d - 53)).
  { intros N D HD HR. subst m2 m1 mrs'.
    assert (Hp2 : 0 < 2 ^ (d - 53)) by (apply Z.pow_pos_nonneg; lia).
    apply round_nearest_represents; [nia|].
    apply shr_represents; try assumption; [rewrite shr_record_of_loc_m|]; lia. }
  unfold shr_fexp.
  destruct (Z.eq_dec m2 (2 ^ 53)) as [E|NE].
  - (* the mantissa carried into the next binade *)
    rewrite E. change (Zdigits2 (2 ^ 53)) with 54.
    rewrite (fexp_normal (54 + (ex + (d - 53)))) by lia.
    replace (54 + (ex + (d - 53)) - 53 - (ex + (d - 53))) with 1 by lia.
    exists 4503599627370496%positive, 1.
    split.
    { simpl.
      match goal with
      | |- context [?a <=? ?b] =>
          assert (Hle : (a <=? b) = true) by (apply Z.leb_le; lia); rewrite Hle
      end.
      reflexivity. }
    split; [right; reflexivity|].
    assert (Ev : Z.pos 4503599627370496 * 2 ^ 1 = m2) by (rewrite E; reflexivity).
    split; [lia|]. split; [|split].
    + rewrite Ev. exact Hfl.
    + intros Hx H53. specialize (H2e Hx H53). rewrite E in H2e.
      assert (Z.pos px < 2 ^ 53) by (rewrite <- H53; lia). lia.
    + rewrite Ev. exact Hnear.
  - assert (H3 : 2 ^ 52 <= m2 < 2 ^ 53) by lia.
    destruct m2 as [|p2|p2] eqn:Ep2; try lia.
    assert (Hd2 : Zdigits2 (Z.pos p2) = 53)
      by (apply digits2_pos_unique; exact H3).
    rewrite Hd2.
    rewrite (fexp_normal (53 + (ex + (d - 53)))) by lia.
    replace (53 + (ex + (d - 53)) - 53 - (ex + (d - 53))) with 0 by lia.
    exists p2, 0.
    split.
    { simpl.
      match goal with
      | |- context [?a <=? ?b] =>
          assert (Hle : (a <=? b) = true) by (apply Z.leb_le; lia); rewrite Hle
      end.
      rewrite Z.add_0_r. reflexivity. }
    rewrite Z.mul_1_r.
    split; [left; reflexivity|].
    split; [lia|]. split; [exact Hfl|]. split.
    + intros Hx H53. split; [|reflexivity]. apply H2e; assumption.
    + exact Hnear.
Qed.

(** Shifting a positive left. *)
Lemma pos_iter_xO :
  forall (d p : positive), Z.pos (Pos.iter xO p d) = Z.pos p * 2 ^ Z.pos d.
Proof.
  induction d using Pos.peano_ind; intros p.
  - simpl. lia.
  - rewrite Pos.iter_succ, Pos2Z.inj_xO, IHd, Pos2Z.inj_succ, Z.pow_succ_r by lia. lia.
Qed.

(** An integer below 2^53 is a number: its mantissa is the integer shifted
    to 53 bits. *)
Lemma num_of_Z_exact :
  forall (s : bool) (p : positive),
    Z.pos p < 2 ^ 53 ->
    exists m e,
      binary_round prec emax s p 0 = S754_finite s m e /\
      2 ^ 52 <= Z.pos m < 2 ^ 53 /\
      -52 <= e <= 0 /\
      Z.pos m = Z.pos p * 2 ^ (- e).
Proof.
  intros s p Hp.
  pose proof (digits2_pos_bounds p) as Hb.
  remember (Z.pos (digits2_pos p)) as d eqn:Ed.
  assert (Hd : 1 <= d <= 53).
  { split; [subst d; lia|].
    destruct (Z.leb_spec d 53) as [|Hgt]; [assumption|].
    assert (2 ^ 53 <= 2 ^ (d - 1)) by (apply Z.pow_le_mono_r; lia). lia. }
  unfold binary_round. rewrite <- Ed, Z.add_0_r.
  rewrite (fexp_normal d) by lia.
  assert (Hal : exists mz, shl_align p 0 (d - 53) = (mz, d - 53) /\
                           Z.pos mz = Z.pos p * 2 ^ (53 - d)).
  { unfold shl_align. rewrite Z.sub_0_r.
    destruct (d - 53) as [|k|k] eqn:Ek; try lia.
    - exists p. split; [reflexivity|].
      replace (53 - d) with 0 by lia. lia.
    - exists (Pos.iter xO p k). split; [reflexivity|].
      rewrite pos_iter_xO. f_equal. f_equal. lia. }
  destruct Hal as (mz & -> & Emz).
  assert (Hmz : 2 ^ 52 <= Z.pos mz < 2 ^ 53).
  { rewrite Emz. split.
    - replace 52 with ((d - 1) + (53 - d)) by lia.
      rewrite Z.pow_add_r by lia. apply Z.mul_le_mono_nonneg_r; [|lia].
      apply Z.pow_nonneg; lia.
    - replace 53 with (d + (53 - d)) at 2 by lia.
      rewrite Z.pow_add_r by lia. apply Z.mul_lt_mono_pos_r; [|lia].
      apply Z.pow_pos_nonneg; lia. }
  assert (Hdz : Zdigits2 (Z.pos mz) = 53)
    by (apply digits2_pos_unique; exact Hmz).
  destruct (binary_round_aux_normal s (Z.pos mz) (d - 53) loc_Exact)
    as (m & c & E & _ & Hm & _ & Hex & _); try lia.
  destruct (Hex eq_refl Hdz) as [Em ->].
  rewrite E, Hdz. exists m, (d - 53).
  split; [f_equal; lia|]. split; [exact Hm|]. split; [lia|].
  rewrite Em, Emz. f_equal. f_equal. lia.
Qed.

Lemma million_eq : million = S754_finite false 8589934592000000 (-33).
Proof. reflexivity. Qed.

(** Dividing a 53-bit number by a million. *)
Lemma div_million_normal :
  forall s ma ea,
    2 ^ 52 <= Z.pos ma < 2 ^ 53 -> -900 <= ea <= 971 ->
    exists m p c,
      div (S754_finite s ma ea) million = S754_finite s m (ea - 20 + p + c) /\
      (p = 0 \/ p = 1) /\ (c = 0 \/ c = 1) /\
      2 ^ 52 <= Z.pos m < 2 ^ 53 /\
      (Z.pos m * 2 ^ c - 1) * 2 ^ p * million_mantissa <= Z.pos ma * 2 ^ 53
        < (Z.pos m * 2 ^ c + 1) * 2 ^ p * million_mantissa /\
      - (million_mantissa * 2 ^ p)
        <= 2 * (Z.pos m * 2 ^ c * (million_mantissa * 2 ^ p) - Z.pos ma * 2 ^ 53)
        <= million_mantissa * 2 ^ p.
Proof.
  intros s ma ea Hma Hea.
  unfold div, SFdiv. rewrite million_eq.
  assert (Hda : Zdigits2 (Z.pos ma) = 53) by (apply digits2_pos_unique; exact Hma).
  unfold SFdiv_core_binary. rewrite Hda.
  change (Zdigits2 (Z.pos 8589934592000000)) with 53.
  replace (53 + ea - (53 + -33)) with (ea + 33) by lia.
  rewrite (fexp_normal (ea + 33)) by lia.
  replace (IntDef.Z.min (ea + 33 - 53) (ea - -33)) with (ea - 20)
    by (change IntDef.Z.min with Z.min; lia).
  replace (ea - -33 - (ea - 20)) with 53 by lia.
  change (IntDef.Z.shiftl (Z.pos ma) 53) with (Z.shiftl (Z.pos ma) 53).
  rewrite Z.shiftl_mul_pow2 by lia.
  pose proof (Z_div_mod (Z.pos ma * 2 ^ 53) 8589934592000000 ltac:(lia)) as Hdm.
  change (Z.div_eucl (Z.pos ma * 2 ^ 53) 8589934592000000)
    with (IntDef.Z.div_eucl (Z.pos ma * 2 ^ 53) 8589934592000000) in Hdm.
  destruct (IntDef.Z.div_eucl (Z.pos ma * 2 ^ 53) 8589934592000000) as [q r].
  pose proof (quotient_represents (Z.pos ma * 2 ^ 53) q r (proj1 Hdm) (proj2 Hdm)) as HR.
  unfold million_mantissa in *.
  assert (Hqb : 2 ^ 52 <= q < 2 ^ 54) by (change (2 ^ 53) with 9007199254740992 in *; lia).
  destruct (Z.ltb_spec q (2 ^ 53)) as [Hlt|Hge].
  - assert (Hdq : Zdigits2 q = 53).
    { destruct q as [|pq|pq]; try lia. apply digits2_pos_unique. lia. }
    destruct (binary_round_aux_normal (xorb s false) q (ea - 20)
                (new_location 8589934592000000 r))
      as (m & c & E & Hc & Hm & Hv & _ & Hn); try lia.
    specialize (Hn (Z.pos ma * 2 ^ 53) 8589934592000000 ltac:(lia) HR).
    rewrite E, Hdq. rewrite xorb_false_r.
    exists m, 0, c. rewrite Hdq in Hv, Hn.
    split; [f_equal; lia|]. split; [left; reflexivity|].
    split; [exact Hc|]. split; [exact Hm|].
    change (53 - 53) with 0 in Hv, Hn. split; [nia|exact Hn].
  - assert (Hdq : Zdigits2 q = 54).
    { destruct q as [|pq|pq]; try lia. apply digits2_pos_unique. lia. }
    destruct (binary_round_aux_normal (xorb s false) q (ea - 20)
                (new_location 8589934592000000 r))
      as (m & c & E & Hc & Hm & Hv & _ & Hn); try lia.
    specialize (Hn (Z.pos ma * 2 ^ 53) 8589934592000000 ltac:(lia) HR).
    rewrite E, Hdq. rewrite xorb_false_r.
    exists m, 1, c. rewrite Hdq in Hv, Hn.
    split; [f_equal; lia|]. split; [right; reflexivity|].
    split; [exact Hc|]. split; [exact Hm|].
    change (54 - 53) with 1 in Hv, Hn. split; [nia|exact Hn].
Qed.

(** Multiplying a 53-bit number by a million. *)
Lemma mul_million_normal :
  forall s my ey,
    2 ^ 52 <= Z.pos my < 2 ^ 53 -> -900 <= ey <= 900 ->
    exists m p c,
      mul (S754_finite s my ey) million = S754_finite s m (ey - 33 + p + c) /\
      (p = 52 \/ p = 53) /\ (c = 0 \/ c = 1) /\
      2 ^ 52 <= Z.pos m < 2 ^ 53 /\
      (Z.pos m * 2 ^ c - 1) * 2 ^ p <= Z.pos my * million_mantissa
        < (Z.pos m * 2 ^ c + 1) * 2 ^ p /\
      - 2 ^ p <= 2 * (Z.pos m * 2 ^ c * 2 ^ p - Z.pos my * million_mantissa)
        <= 2 ^ p.
Proof.
  intros s my ey Hmy Hey.
  unfold mul, SFmul. rewrite million_eq.
  change (Z.pos (my * 8589934592000000)) with (Z.pos my * million_mantissa).
  assert (Hb : 2 ^ 104 <= Z.pos my * million_mantissa < 2 ^ 106)
    by (unfold million_mantissa; change (2 ^ 52) with 4503599627370496 in *;
        change (2 ^ 53) with 9007199254740992 in *;
        change (2 ^ 104) with 20282409603651670423947251286016;
        change (2 ^ 106) with 81129638414606681695789005144064; lia).
  destruct (Z.ltb_spec (Z.pos my * million_mantissa) (2 ^ 105)) as [Hlt|Hge].
  - assert (Hd : Zdigits2 (Z.pos my * million_mantissa) = 105).
    { change (Z.pos my * million_mantissa) with (Z.pos (my * 8589934592000000)) in *.
      apply digits2_pos_unique. change (105 - 1) with 104. lia. }
    destruct (binary_round_aux_normal (xorb s false) (Z.pos my * million_mantissa) (ey + -33) loc_Exact)
      as (m & c & E & Hc & Hm & Hv & _ & Hn); try lia.
    specialize (Hn (Z.pos my * million_mantissa) 1 ltac:(lia) (exact_represents _)).
    rewrite E, Hd, xorb_false_r. rewrite Hd in Hv, Hn.
    change (105 - 53) with 52 in Hn. rewrite !Z.mul_1_l in Hn.
    exists m, 52, c.
    split; [f_equal; lia|]. split; [left; reflexivity|].
    split; [exact Hc|]. split; [exact Hm|]. split; [exact Hv|exact Hn].
  - assert (Hd : Zdigits2 (Z.pos my * million_mantissa) = 106).
    { change (Z.pos my * million_mantissa) with (Z.pos (my * 8589934592000000)) in *.
      apply digits2_pos_unique. change (106 - 1) with 105. lia. }
    destruct (binary_round_aux_normal (xorb s false) (Z.pos my * million_mantissa) (ey + -33) loc_Exact)
      as (m & c & E & Hc & Hm & Hv & _ & Hn); try lia.
    specialize (Hn (Z.pos my * million_mantissa) 1 ltac:(lia) (exact_represents _)).
    rewrite E, Hd, xorb_false_r. rewrite Hd in Hv, Hn.
    change (106 - 53) with 53 in Hn. rewrite !Z.mul_1_l in Hn.
    exists m, 53, c.
    split; [f_equal; lia|]. split; [right; reflexivity|].
    split; [exact Hc|]. split; [exact Hm|]. split; [exact Hv|exact Hn].
Qed.

Lemma pow2_consts :
  2 ^ 0 = 1 /\ 2 ^ 1 = 2 /\ 2 ^ 2 = 4 /\
  2 ^ 52 = 4503599627370496 /\ 2 ^ 53 = 9007199254740992.
Proof. repeat split. Qed.

(** The integer [n = (-1)^s * p] with [p < 2^32 * 10^6], divided by a
    million and multiplied by a million again, rounds back to [n]: the
    quotient is within half a unit in the last place of [n / 10^6], the
    product within half a unit of the exact product, and below
    [2^32 * 10^6] the two errors add up to less than one half. *)
Lemma round_trip_core :
  forall (s : bool) (p : positive),
    Z.pos p < 2 ^ 32 * 10 ^ 6 ->
    Math_round (mul (div (binary_round prec emax s p 0) million) million) =
    binary_round prec emax s p 0.
Proof.
  intros s p Hp.
  change (2 ^ 32 * 10 ^ 6) with 4294967296000000 in Hp.
  destruct (num_of_Z_exact s p) as (ma & ea & Ea & Hma & Hea & Eva);
    [change (2 ^ 53) with 9007199254740992; lia|].
  assert (Hea1 : ea <= -1).
  { destruct (Z.leb_spec ea (-1)) as [|Hgt]; [assumption|].
    assert (E0 : ea = 0) by lia. rewrite E0 in Eva.
    change (2 ^ (- 0)) with 1 in Eva.
    change (2 ^ 52) with 4503599627370496 in Hma. lia. }
  set (G := 2 ^ (- ea - 1)).
  assert (HG : 1 <= G) by (subst G; pose proof (Z.pow_pos_nonneg 2 (- ea - 1)); lia).
  assert (EG : 2 ^ (- ea) = 2 * G).
  { subst G. replace (- ea) with (1 + (- ea - 1)) at 1 by lia.
    rewrite Z.pow_add_r by lia. reflexivity. }
  rewrite EG in Eva.
  destruct (div_million_normal s ma ea Hma ltac:(lia))
    as (my & p1 & c1 & Ey & Hp1 & Hc1 & Hmy & _ & Hny).
  destruct (mul_million_normal s my (ea - 20 + p1 + c1) Hmy ltac:(lia))
    as (mz & p2 & c2 & Ez & Hp2 & Hc2 & Hmz & _ & Hnz).
  rewrite Ea at 1. rewrite Ey, Ez.
  set (j := p1 + c1 + p2 + c2 - 53).
  replace (ea - 20 + p1 + c1 - 33 + p2 + c2) with (ea + j) by (subst j; lia).
  assert (HP : exists P, P = Z.pos p * G) by (eexists; reflexivity).
  destruct HP as (P & EP).
  assert (HPl : G <= P) by (rewrite EP; nia).
  assert (HPu : P <= 4294967295999999 * G) by (rewrite EP; nia).
  assert (Eva' : Z.pos ma = 2 * P) by (rewrite EP, Eva; ring).
  destruct (pow2_consts) as (E0 & E1 & E2 & E52 & E53).
  unfold million_mantissa in *.
  assert (Hj : -1 <= j <= 1 /\
               (j = -1 -> - 4 * G < 2 * (Z.pos mz - 4 * P) < 4 * G) /\
               (j = 0 -> - 2 * G < 2 * (Z.pos mz - 2 * P) < 2 * G) /\
               (j = 1 -> - G < 2 * (Z.pos mz - P) < G)).
  { subst j. rewrite E52, E53 in *.
    clear Ea Ey Ez Eva EG EP.
    destruct Hp1 as [-> | ->], Hc1 as [-> | ->], Hp2 as [-> | ->], Hc2 as [-> | ->];
      rewrite ?E0, ?E1, ?E52, ?E53 in *; lia. }
  destruct Hj as (Hjr & Hm1 & H0 & H1).
  assert (Hlt : ea + j < 0).
  { destruct (Z.ltb_spec (ea + j) 0) as [|Hge]; [assumption|].
    assert (Ee : ea = -1) by lia. assert (Ej : j = 1) by lia.
    assert (EG1 : G = 1) by (subst G; rewrite Ee; reflexivity).
    specialize (H1 Ej). rewrite E52 in Hmz. lia. }
  unfold Math_round.
  assert (Hneg : (0 <=? ea + j) = false) by (apply Z.leb_gt; exact Hlt).
  rewrite Hneg.
  assert (ED : 2 ^ (- (ea + j)) = G * 2 ^ (1 - j)).
  { subst G. rewrite <- Z.pow_add_r by lia. f_equal. lia. }
  rewrite ED.
  assert (En : (2 * cond_Zopp s (Z.pos mz) + G * 2 ^ (1 - j)) / (2 * (G * 2 ^ (1 - j)))
               = cond_Zopp s (Z.pos p)).
  { symmetry.
    assert (Ej : j = -1 \/ j = 0 \/ j = 1) by lia.
    assert (Ecp : cond_Zopp s (Z.pos p) * G = cond_Zopp s P)
      by (rewrite EP; destruct s; unfold cond_Zopp;
          [rewrite Z.mul_opp_l|]; reflexivity).
    apply Z.div_unique with
      (r := 2 * cond_Zopp s (Z.pos mz) + G * 2 ^ (1 - j)
            - 2 * 2 ^ (1 - j) * cond_Zopp s P).
    - left. clear Ea Ey Ez Eva EG EP ED Ecp Hny Hnz.
      destruct s; simpl cond_Zopp;
        destruct Ej as [Ej|[Ej|Ej]]; rewrite Ej;
        [ specialize (Hm1 Ej) | specialize (H0 Ej) | specialize (H1 Ej)
        | specialize (Hm1 Ej) | specialize (H0 Ej) | specialize (H1 Ej) ];
        simpl (1 - _); rewrite ?E0, ?E1, ?E2; lia.
    - rewrite <- Ecp. ring. }
  rewrite En.
  assert (Hnz0 : (cond_Zopp s (Z.pos p) =? 0) = false)
    by (apply Z.eqb_neq; destruct s; simpl; lia).
  rewrite Hnz0.
  destruct s; reflexivity.
Qed.

End RoundTrip.

(** ** Finite results

    The mantissa of a rounded number has at most 53 bits, so [Math.round]
    of a product that did not overflow is an integer below 2^53 or the
    product itself, and dividing it by a million cannot overflow. *)

Section Finiteness.

Lemma Zdigits2_bound : forall m, 0 <= m -> m < 2 ^ Zdigits2 m.
Proof.
  intros [|p|p] H; try lia; [reflexivity|].
  apply digits2_pos_bounds.
Qed.

Lemma fexp_lower : forall e, e - 53 <= fexp prec emax e.
Proof. intros e. unfold fexp, emin, prec, emax. lia. Qed.

Lemma shr_fexp_bounded :
  forall m e l, 0 <= m -> shr_m (fst (shr_fexp prec emax m e l)) < 2 ^ 53.
Proof.
  intros m e l H. unfold shr_fexp.
  pose proof (fexp_lower (Zdigits2 m + e)) as Hf.
  pose proof (Zdigits2_bound m H) as Hd.
  set (n := fexp prec emax (Zdigits2 m + e) - e) in *.
  destruct (Z.leb_spec n 0) as [Hn|Hn].
  - assert (E : shr (shr_record_of_loc m l) e n = (shr_record_of_loc m l, e))
      by (destruct n; try lia; reflexivity).
    rewrite E. simpl fst. rewrite shr_record_of_loc_m.
    assert (2 ^ Zdigits2 m <= 2 ^ 53) by (apply Z.pow_le_mono_r; lia). lia.
  - destruct (shr_div (shr_record_of_loc m l) e n) as [_ Em];
      [rewrite shr_record_of_loc_m; lia | lia |].
    rewrite Em, shr_record_of_loc_m.
    apply Z.div_lt_upper_bound; [apply Z.pow_pos_nonneg; lia|].
    rewrite <- Z.pow_add_r by lia.
    assert (2 ^ Zdigits2 m <= 2 ^ (n + 53)).
    { destruct (Z.leb_spec 0 (Zdigits2 m)) as [H0|H0].
      - apply Z.pow_le_mono_r; lia.
      - rewrite (Z.pow_neg_r 2 (Zdigits2 m)) by lia.
        apply Z.pow_nonneg; lia. }
    lia.
Qed.

(** A finite result of a rounding carries at most 53 bits and an
    exponent of at most 971. *)
Lemma binary_round_aux_bounded :
  forall s mx ex lx s' m e,
    0 <= mx ->
    binary_round_aux prec emax s mx ex lx = S754_finite s' m e ->
    Z.pos m < 2 ^ 53 /\ e <= 971.
Proof.
  intros s mx ex lx s' m e H. unfold binary_round_aux.
  pose proof (shr_fexp_nonneg mx ex lx H) as H1.
  destruct (shr_fexp prec emax mx ex lx) as [mrs' e'] eqn:E1. simpl in H1.
  pose proof (round_nearest_even_nonneg _ (loc_of_shr_record mrs') H1) as H2.
  pose proof (shr_fexp_bounded _ e' loc_Exact H2) as H3.
  destruct (shr_fexp prec emax
              (round_nearest_even (shr_m mrs') (loc_of_shr_record mrs')) e' loc_Exact)
    as [mrs'' e''] eqn:E2. simpl in H3.
  destruct (shr_m mrs'') as [|p|p]; try discriminate.
  destruct (Z.leb_spec e'' (emax - prec)) as [Hle|Hgt]; try discriminate.
  intros E. inversion E; subst. unfold emax, prec in Hle. split; lia.
Qed.

(** [Math.round] of such a number is the number itself, a zero, or an
    integer below 2^53. *)
Lemma Math_round_cases :
  forall s m e,
    Z.pos m < 2 ^ 53 ->
    (0 <= e /\ Math_round (S754_finite s m e) = S754_finite s m e) \/
    Math_round (S754_finite s m e) = S754_zero s \/
    (exists t p, Z.pos p < 2 ^ 53 /\
                 Math_round (S754_finite s m e) = binary_round prec emax t p 0).
Proof.
  intros s m e Hm. unfold Math_round.
  destruct (Z.leb_spec 0 e) as [He|He]; [left; split; [assumption|reflexivity]|].
  right.
  assert (Hk : 2 <= 2 ^ (- e)).
  { change 2 with (2 ^ 1) at 1. apply Z.pow_le_mono_r; lia. }
  set (k := 2 ^ (- e)) in *.
  set (n := (2 * cond_Zopp s (Z.pos m) + k) / (2 * k)).
  assert (Hn : - 2 ^ 53 < n < 2 ^ 53).
  { subst n. change (2 ^ 53) with 9007199254740992 in *. split.
    - apply Z.lt_le_trans with (-9007199254740991); [lia|].
      apply Z.div_le_lower_bound; [lia|]. destruct s; simpl cond_Zopp; lia.
    - apply Z.div_lt_upper_bound; [lia|]. destruct s; simpl cond_Zopp; lia. }
  destruct (Z.eqb_spec n 0) as [E|E]; [left; reflexivity|].
  right. destruct n as [|p|p]; try congruence.
  - exists false, p. split; [lia|reflexivity].
  - exists true, p. split; [lia|reflexivity].
Qed.

(** Dividing a number of at most 53 bits by a million gives a finite
    number. *)
Lemma div_million_finite :
  forall s m e,
    Z.pos m < 2 ^ 53 -> -900 <= e <= 971 ->
    is_finite (div (S754_finite s m e) million) = true.
Proof.
  intros s m e Hm He.
  pose proof (digits2_pos_bounds m) as Hb.
  remember (Z.pos (digits2_pos m)) as d eqn:Ed.
  assert (Hd : 1 <= d <= 53).
  { split; [subst d; lia|].
    destruct (Z.leb_spec d 53) as [|Hgt]; [assumption|].
    assert (2 ^ 53 <= 2 ^ (d - 1)) by (apply Z.pow_le_mono_r; lia). lia. }
  unfold div, SFdiv. rewrite million_eq.
  unfold SFdiv_core_binary.
  change (Zdigits2 (Z.pos m)) with (Z.pos (digits2_pos m)). rewrite <- Ed.
  change (Zdigits2 (Z.pos 8589934592000000)) with 53.
  replace (d + e - (53 + -33)) with (d + e - 20) by lia.
  rewrite (fexp_normal (d + e - 20)) by lia.
  replace (IntDef.Z.min (d + e - 20 - 53) (e - -33)) with (d + e - 73)
    by (change IntDef.Z.min with Z.min; lia).
  replace (e - -33 - (d + e - 73)) with (106 - d) by lia.
  destruct (106 - d) as [|k|k] eqn:Ek; try lia.
  change (IntDef.Z.shiftl (Z.pos m) (Z.pos k)) with (Z.shiftl (Z.pos m) (Z.pos k)).
  rewrite Z.shiftl_mul_pow2 by lia. rewrite <- Ek.
  assert (Hm' : 2 ^ 105 <= Z.pos m * 2 ^ (106 - d) < 2 ^ 106).
  { assert (Hp : 0 < 2 ^ (106 - d)) by (apply Z.pow_pos_nonneg; lia).
    assert (E105 : 2 ^ 105 = 2 ^ (d - 1) * 2 ^ (106 - d))
      by (rewrite <- Z.pow_add_r by lia; f_equal; lia).
    assert (E106 : 2 ^ 106 = 2 ^ d * 2 ^ (106 - d))
      by (rewrite <- Z.pow_add_r by lia; f_equal; lia).
    rewrite E105, E106. nia. }
  pose proof (Z_div_mod (Z.pos m * 2 ^ (106 - d)) 8589934592000000 ltac:(lia)) as Hdm.
  change (Z.div_eucl (Z.pos m * 2 ^ (106 - d)) 8589934592000000)
    with (IntDef.Z.div_eucl (Z.pos m * 2 ^ (106 - d)) 8589934592000000) in Hdm.
  destruct (IntDef.Z.div_eucl (Z.pos m * 2 ^ (106 - d)) 8589934592000000) as [q r].
  change (2 ^ 105) with 40564819207303340847894502572032 in Hm'.
  change (2 ^ 106) with 81129638414606681695789005144064 in Hm'.
  assert (Hqb : 2 ^ 52 <= q < 2 ^ 54)
    by (change (2 ^ 52) with 4503599627370496;
        change (2 ^ 54) with 18014398509481984; lia).
  assert (Hdq : Zdigits2 q = 53 \/ Zdigits2 q = 54).
  { destruct q as [|pq|pq]; try lia.
    destruct (Z.ltb_spec (Z.pos pq) (2 ^ 53)).
    - left. apply digits2_pos_unique. lia.
    - right. apply digits2_pos_unique. lia. }
  destruct (binary_round_aux_normal (xorb s false) q (d + e - 73)
              (new_location 8589934592000000 r))
    as (m1 & c & E & _); try lia.
  rewrite E. reflexivity.
Qed.

Lemma div_million_integer_finite :
  forall s p, Z.pos p < 2 ^ 53 ->
    is_finite (div (binary_round prec emax s p 0) million) = true.
Proof.
  intros s p Hp.
  destruct (num_of_Z_exact s p Hp) as (ma & ea & Ea & Hma & Hea & _).
  rewrite Ea. apply div_million_finite; lia.
Qed.

(** The result of the rounding to six decimals is finite exactly when
    the product with a million is: it did not overflow and the number
    itself is finite. *)
Lemma round6_finite :
  forall x, is_finite (round6 x) = is_finite (mul x million).
Proof.
  intros x. unfold round6.
  destruct (mul x million) as [s|s| |s m e] eqn:E; try reflexivity.
  assert (Hb : Z.pos m < 2 ^ 53 /\ e <= 971).
  { destruct x as [t|t| |t mx ex]; try discriminate.
    unfold mul, SFmul in E. rewrite million_eq in E.
    apply (binary_round_aux_bounded _ _ _ _ _ _ _ (Pos2Z.is_nonneg _) E). }
  destruct Hb as [Hm He].
  destruct (Math_round_cases s m e Hm) as [[H0 ->]|[->|(t & p & Hp & ->)]].
  - apply div_million_finite; lia.
  - reflexivity.
  - apply div_million_integer_finite, Hp.
Qed.

End Finiteness.

Section NumberEquality.

Lemma num_eqb_refl : forall x, is_nan x = false -> num_eqb x x = true.
Proof.
  intros [s|s| |s m e] H; try discriminate; unfold num_eqb, SFeqb; simpl.
  - reflexivity.
  - destruct s; reflexivity.
  - destruct s; rewrite Z.compare_refl;
      change (Pos.compare_cont Eq m m) with (Pos.compare m m);
      rewrite Pos.compare_refl; reflexivity.
Qed.

Lemma num_eqb_zero : forall s t, num_eqb (S754_zero s) (S754_zero t) = true.
Proof. reflexivity. Qed.

(** Two numbers that compare equal are the same number, or two zeros. *)
Lemma num_eqb_true :
  forall x y, num_eqb x y = true ->
    x = y \/ exists s t, x = S754_zero s /\ y = S754_zero t.
Proof.
  intros [s|s| |s m e] [t|t| |t n f]; unfold num_eqb, SFeqb; simpl;
    intros H; try discriminate;
    try (destruct s; discriminate); try (destruct t; discriminate).
  - right; eauto.
  - left. destruct s, t; try discriminate; reflexivity.
  - left.
    assert (E : e = f /\ m = n).
    { destruct s, t; try discriminate;
        destruct (e ?= f) eqn:Ec; try discriminate;
        apply Z.compare_eq in Ec; split; try assumption;
        change (Pos.compare_cont Eq m n) with (Pos.compare m n) in H;
        destruct (Pos.compare m n) eqn:Em; try discriminate;
        apply Pos.compare_eq in Em; assumption. }
    destruct E as [-> ->].
    destruct s, t; try discriminate; reflexivity.
Qed.

Lemma div_million_eqb :
  forall a b, is_nan a = false -> num_eqb a b = true ->
    num_eqb (div a million) (div b million) = true.
Proof.
  intros a b Ha H. destruct (num_eqb_true a b H) as [->|(s & t & -> & ->)].
  - apply num_eqb_refl, div_million_not_nan, Ha.
  - reflexivity.
Qed.

End NumberEquality.

(* ================================================================== *)
(** * The validator *)
(* ================================================================== *)

Section Validator.

Lemma parseFloat_spec :
  forall v, parseFloat v =
    if convertible v then Normal (parse_value v) else Throw TypeError.
Proof.
  intros v. unfold parseFloat, convertible.
  destruct (ToString_throws v); reflexivity.
Qed.

(** [sanitizeFloatValue] throws exactly on the values that cannot be
    converted, and returns [sanitized] on the others. *)
Lemma sanitizeFloatValue_spec :
  forall v, sanitizeFloatValue v =
    if convertible v then Normal (sanitized v) else Throw TypeError.
Proof.
  intros v. unfold sanitizeFloatValue, sanitized, template.
  rewrite parseFloat_spec. unfold convertible.
  destruct v; try reflexivity;
    match goal with
    | |- context [ToString_throws ?x] => destruct (ToString_throws x) eqn:E
    end; simpl; try reflexivity;
    match goal with
    | |- context [isNaN ?x] => destruct (isNaN x)
    end; reflexivity.
Qed.

Lemma sanitizeFloatValue_number :
  forall x, sanitizeFloatValue (JNum x) = Normal (sanitized (JNum x)).
Proof. intros x. rewrite sanitizeFloatValue_spec. reflexivity. Qed.

Lemma sanitize_missing :
  forall v, missing v = true -> sanitized v = pos_zero.
Proof. intros [] H; try discriminate; reflexivity. Qed.

Lemma sanitize_unparseable :
  forall v, isNaN (parse_value v) = true -> sanitized v = pos_zero.
Proof.
  intros v H. unfold sanitized.
  destruct v; try reflexivity; rewrite H; reflexivity.
Qed.

Lemma sanitize_parsed :
  forall v, missing v = false -> isNaN (parse_value v) = false ->
    sanitized v = round6 (parse_value v).
Proof.
  intros v Hm H. unfold sanitized.
  destruct v; try discriminate; rewrite H; reflexivity.
Qed.

Lemma sanitize_not_nan : forall v, is_nan (sanitized v) = false.
Proof.
  intros v. destruct (missing v) eqn:Hm.
  - rewrite sanitize_missing by assumption. reflexivity.
  - destruct (isNaN (parse_value v)) eqn:Hp.
    + rewrite sanitize_unparseable by assumption. reflexivity.
    + rewrite sanitize_parsed by assumption. apply round6_not_nan, Hp.
Qed.

Lemma round6_zero : forall s, round6 (S754_zero s) = S754_zero s.
Proof. intros []; reflexivity. Qed.

Lemma round6_infinity : forall s, round6 (S754_infinity s) = S754_infinity s.
Proof. intros []; reflexivity. Qed.

Lemma get_keyed_mapping :
  forall v k, is_keyed_mapping v = true -> get v k = Normal (field v k).
Proof.
  intros [] k H; try discriminate; simpl; try reflexivity.
  destruct (lookup k fields); reflexivity.
Qed.

Lemma not_an_object_keyed_mapping :
  forall v, not_an_object v = negb (is_keyed_mapping v).
Proof.
  intros [| |b|x|s|l|l]; try reflexivity.
  - destruct b; reflexivity.
  - destruct x; reflexivity.
  - destruct s; reflexivity.
Qed.

Lemma sanitized_field_keyed_mapping :
  forall v k, is_keyed_mapping v = true ->
    sanitized_field v k =
      if convertible (field v k) then Normal (k, JNum (sanitized (field v k)))
      else Throw TypeError.
Proof.
  intros v k H. unfold sanitized_field. rewrite get_keyed_mapping by assumption.
  simpl. rewrite sanitizeFloatValue_spec.
  destruct (convertible (field v k)); reflexivity.
Qed.

(** A validator throws its structural error on a value that is not a
    keyed mapping, a TypeError on a keyed mapping with a value that cannot
    be converted at one of its keys, and returns the record otherwise. *)
Lemma validateSensorData_spec :
  forall v, validateSensorData v =
    if is_keyed_mapping v then
      if forallb (fun k => convertible (field v k)) sensor_keys
      then Normal (sanitized_record sensor_keys v)
      else Throw TypeError
    else Throw (Error "Invalid sensors data structure").
Proof.
  intros v. unfold validateSensorData.
  rewrite not_an_object_keyed_mapping.
  destruct (is_keyed_mapping v) eqn:H; simpl; [|reflexivity].
  rewrite !sanitized_field_keyed_mapping by assumption.
  repeat match goal with
         | |- context [convertible ?x] => destruct (convertible x); simpl; try reflexivity
         end.
Qed.

Lemma validateSensorErrors_spec :
  forall v, validateSensorErrors v =
    if is_keyed_mapping v then
      if forallb (fun k => convertible (field v k)) sensor_error_keys
      then Normal (sanitized_record sensor_error_keys v)
      else Throw TypeError
    else Throw (Error "Invalid sensor_errors data structure").
Proof.
  intros v. unfold validateSensorErrors.
  rewrite not_an_object_keyed_mapping.
  destruct (is_keyed_mapping v) eqn:H; simpl; [|reflexivity].
  rewrite !sanitized_field_keyed_mapping by assumption.
  repeat match goal with
         | |- context [convertible ?x] => destruct (convertible x); simpl; try reflexivity
         end.
Qed.

Lemma validateActuatorData_spec :
  forall v, validateActuatorData v =
    if is_keyed_mapping v then
      if forallb (fun k => convertible (field v k)) actuator_keys
      then Normal (sanitized_record actuator_keys v)
      else Throw TypeError
    else Throw (Error "Invalid actuators data structure").
Proof.
  intros v. unfold validateActuatorData.
  rewrite not_an_object_keyed_mapping.
  destruct (is_keyed_mapping v) eqn:H; simpl; [|reflexivity].
  rewrite !sanitized_field_keyed_mapping by assumption.
  repeat match goal with
         | |- context [convertible ?x] => destruct (convertible x); simpl; try reflexivity
         end.
Qed.

Lemma validateSensorData_valid :
  forall v, valid_section sensor_keys v = true ->
    validateSensorData v = Normal (sanitized_record sensor_keys v).
Proof.
  intros v H. unfold valid_section in H. rewrite validateSensorData_spec.
  destruct (is_keyed_mapping v); [|discriminate].
  cbn [andb] in H. rewrite H. reflexivity.
Qed.

Lemma validateSensorData_invalid :
  forall v, valid_section sensor_keys v = false ->
    exists e, validateSensorData v = Throw e.
Proof.
  intros v H. unfold valid_section in H. rewrite validateSensorData_spec.
  destruct (is_keyed_mapping v); [|eexists; reflexivity].
  cbn [andb] in H. rewrite H. eexists; reflexivity.
Qed.

Lemma validateSensorErrors_valid :
  forall v, valid_section sensor_error_keys v = true ->
    validateSensorErrors v = Normal (sanitized_record sensor_error_keys v).
Proof.
  intros v H. unfold valid_section in H. rewrite validateSensorErrors_spec.
  destruct (is_keyed_mapping v); [|discriminate].
  cbn [andb] in H. rewrite H. reflexivity.
Qed.

Lemma validateSensorErrors_invalid :
  forall v, valid_section sensor_error_keys v = false ->
    exists e, validateSensorErrors v = Throw e.
Proof.
  intros v H. unfold valid_section in H. rewrite validateSensorErrors_spec.
  destruct (is_keyed_mapping v); [|eexists; reflexivity].
  cbn [andb] in H. rewrite H. eexists; reflexivity.
Qed.

Lemma validateActuatorData_valid :
  forall v, valid_section actuator_keys v = true ->
    validateActuatorData v = Normal (sanitized_record actuator_keys v).
Proof.
  intros v H. unfold valid_section in H. rewrite validateActuatorData_spec.
  destruct (is_keyed_mapping v); [|discriminate].
  cbn [andb] in H. rewrite H. reflexivity.
Qed.

Lemma validateActuatorData_invalid :
  forall v, valid_section actuator_keys v = false ->
    exists e, validateActuatorData v = Throw e.
Proof.
  intros v H. unfold valid_section in H. rewrite validateActuatorData_spec.
  destruct (is_keyed_mapping v); [|eexists; reflexivity].
  cbn [andb] in H. rewrite H. eexists; reflexivity.
Qed.

(** A section of numbers, strings and missing values is valid. *)
Lemma valid_section_keyed_mapping :
  forall ks v, valid_section ks v = true -> is_keyed_mapping v = true.
Proof.
  intros ks v H. unfold valid_section in H. apply andb_prop in H. tauto.
Qed.

Lemma lookup_map_key :
  forall (f : string -> JsValue) (ks : list string) (k : string),
    In k ks -> lookup k (map (fun k' => (k', f k')) ks) = Some (f k).
Proof.
  intros f ks k. induction ks as [|k0 ks IH]; intros H; [destruct H|].
  simpl. destruct (String.eqb_spec k k0) as [->|Hn]; [reflexivity|].
  destruct H as [->|H]; [congruence|]. apply IH, H.
Qed.

Lemma field_sanitized_record :
  forall ks v k, In k ks ->
    field (sanitized_record ks v) k = JNum (sanitized (field v k)).
Proof.
  intros ks v k H. unfold sanitized_record. simpl.
  rewrite (lookup_map_key (fun k' => JNum (sanitized (field v k'))) ks k H).
  reflexivity.
Qed.

Lemma keys_of_sanitized_record :
  forall ks v, keys_of (sanitized_record ks v) = ks.
Proof.
  intros ks v. unfold sanitized_record, keys_of.
  rewrite map_map. simpl. apply map_id.
Qed.

Lemma sanitized_record_never_nan :
  forall ks v,
    Forall (fun kv => exists x, snd kv = JNum x /\ is_nan x = false)
           (spread (sanitized_record ks v)).
Proof.
  intros ks v. unfold sanitized_record, spread.
  apply Forall_forall. intros [k x] Hin.
  apply in_map_iff in Hin. destruct Hin as (k' & E & _).
  inversion E; subst. simpl. eexists; split; [reflexivity|apply sanitize_not_nan].
Qed.

End Validator.

(** Every number [n / 10^6] with [n] an integer of magnitude below
    2^32 * 10^6 is a fixed point of [sanitizeFloatValue]. *)
Lemma sanitize_scaled_integer :
  forall n : Z,
    Z.abs n < 2 ^ 32 * 10 ^ 6 ->
    num_eqb (sanitized (JNum (div (num_of_Z n) million)))
            (div (num_of_Z n) million) = true.
Proof.
  intros n Hn.
  assert (Hs : (exists s p, n = cond_Zopp s (Z.pos p) /\ Z.pos p < 2 ^ 32 * 10 ^ 6 /\
                            num_of_Z n = binary_round prec emax s p 0) \/ n = 0).
  { destruct n as [|p|p].
    - right; reflexivity.
    - left. exists false, p. repeat split; lia.
    - left. exists true, p. repeat split. change (Z.abs (Z.neg p)) with (Z.pos p) in Hn.
      exact Hn. }
  destruct Hs as [(s & p & -> & Hp & E)| ->]; [|reflexivity].
  rewrite E.
  destruct (num_of_Z_exact s p) as (ma & ea & Ea & Hma & Hea & _).
  { change (2 ^ 32 * 10 ^ 6) with 4294967296000000 in Hp.
    change (2 ^ 53) with 9007199254740992. lia. }
  destruct (div_million_normal s ma ea Hma ltac:(lia))
    as (my & p1 & c1 & Ey & _).
  rewrite <- Ea in Ey.
  pose proof (round_trip_core s p Hp) as Hrt.
  rewrite Ey in Hrt |- *.
  rewrite sanitize_parsed by reflexivity.
  unfold round6. simpl parse_value. rewrite Hrt, Ey.
  apply num_eqb_refl. reflexivity.
Qed.

(** C4, as stated, fails twice.  [sanitizeFloatValue] throws on an object
    that has a key ["toString"] of its own, because [parseFloat] converts
    its argument to a string first.  And it is not idempotent: it maps
    4294967296.000011 to 4294967296.000012 and that number to
    4294967296.000013. *)
Lemma sanitize_not_idempotent :
  sanitizeFloatValue (JObj [("toString", JNum (num_of_Z 1))]) = Throw TypeError /\
  sanitizeFloatValue (JStr "4294967296.000011") = Normal (lit "4294967296.000012") /\
  sanitizeFloatValue (JNum (lit "4294967296.000012")) = Normal (lit "4294967296.000013") /\
  num_eqb (lit "4294967296.000013") (lit "4294967296.000012") = false.
Proof. vm_compute. repeat split. Qed.

(** C4 (amended): [sanitizeFloatValue] throws exactly on the values that
    cannot be converted to a string (an object with a key ["toString"] of
    its own, an array that holds one) and returns a number on every other
    value: 0 when the value is missing ([undefined] or [null]) or does not
    parse as a number, and [Math.round(x * 10^6) / 10^6] when it parses
    to [x]; so on a finite number the result equals that formula applied
    to the number.  Sanitising twice gives the same number as sanitising
    once for the values replaced by 0 and whenever the first pass rounds
    the scaled value to an integer of magnitude below 2^32 * 10^6, that is
    for results of magnitude below 4294967296. *)
Theorem sanitize_contract :
  forall v : JsValue,
    (sanitizeFloatValue v = Throw TypeError <-> ToString_throws v = true) /\
    (ToString_throws v = false -> exists y, sanitizeFloatValue v = Normal y) /\
    (ToString_throws v = false ->
     (missing v = true \/ isNaN (parse_value v) = true) ->
       sanitizeFloatValue v = Normal pos_zero) /\
    (ToString_throws v = false ->
     missing v = false -> isNaN (parse_value v) = false ->
       sanitizeFloatValue v = Normal (round6 (parse_value v))) /\
    (forall x, v = JNum x -> is_finite x = true ->
       exists y, sanitizeFloatValue v = Normal y /\ num_eqb y (round6 x) = true) /\
    (forall y,
       sanitizeFloatValue v = Normal y ->
       (missing v = true \/ isNaN (parse_value v) = true \/
        exists n : Z,
          Z.abs n < 2 ^ 32 * 10 ^ 6 /\
          num_eqb (Math_round (mul (parse_value v) million)) (num_of_Z n) = true) ->
       exists y', sanitizeFloatValue (JNum y) = Normal y' /\ num_eqb y' y = true).
Proof.
  intros v. rewrite sanitizeFloatValue_spec. unfold convertible.
  split; [|split; [|split; [|split; [|split]]]].
  - destruct (ToString_throws v); simpl; split; intros H;
      try reflexivity; discriminate.
  - intros ->. eexists. reflexivity.
  - intros -> H. simpl. f_equal.
    destruct H; [apply sanitize_missing|apply sanitize_unparseable]; assumption.
  - intros -> Hm Hp. simpl. f_equal. apply sanitize_parsed; assumption.
  - intros x -> Hx. cbn [ToString_throws negb]. eexists. split; [reflexivity|].
    destruct x as [s|s| |s m e]; try discriminate.
    + destruct s; reflexivity.
    + rewrite sanitize_parsed by reflexivity.
      apply num_eqb_refl, round6_not_nan. reflexivity.
  - intros y Hy H. rewrite sanitizeFloatValue_number.
    eexists. split; [reflexivity|].
    destruct (ToString_throws v); [discriminate|]. cbn [negb] in Hy.
    injection Hy as <-.
    destruct (missing v) eqn:Hm;
      [rewrite (sanitize_missing v Hm); reflexivity|].
    destruct (isNaN (parse_value v)) eqn:Hp;
      [rewrite (sanitize_unparseable v Hp); reflexivity|].
    destruct H as [H|[H|(n & Hn & H)]]; try discriminate.
    rewrite (sanitize_parsed v Hm Hp). unfold round6.
    destruct (num_eqb_true _ _ H) as [->|(s & t & -> & _)].
    + apply sanitize_scaled_integer, Hn.
    + destruct s; reflexivity.
Qed.

Lemma sanitize_contract_witness :
  sanitizeFloatValue (JArr [JStr "7"; JObj [("toString", JNull)]]) = Throw TypeError /\
  sanitizeFloatValue JNull = Normal pos_zero /\
  sanitizeFloatValue (JStr "abc") = Normal pos_zero /\
  sanitizeFloatValue (JStr "0.1234565") = Normal (round6 (lit "0.1234565")) /\
  (exists y, sanitizeFloatValue (JNum (lit "30.2")) = Normal y /\
             num_eqb y (round6 (lit "30.2")) = true) /\
  (exists y', sanitizeFloatValue (JNum (lit "4294967295.999999")) = Normal y' /\
              num_eqb y' (lit "4294967295.999999") = true).
Proof.
  split; [|split; [|split; [|split; [|split]]]].
  - apply (proj1 (sanitize_contract (JArr [JStr "7"; JObj [("toString", JNull)]]))).
    reflexivity.
  - apply (proj1 (proj2 (proj2 (sanitize_contract JNull)))); [reflexivity|].
    left. reflexivity.
  - apply (proj1 (proj2 (proj2 (sanitize_contract (JStr "abc"))))); [reflexivity|].
    right. vm_compute. reflexivity.
  - apply (proj1 (proj2 (proj2 (proj2 (sanitize_contract (JStr "0.1234565"))))));
      vm_compute; reflexivity.
  - apply (proj1 (proj2 (proj2 (proj2 (proj2 (sanitize_contract (JNum (lit "30.2")))))))
             (lit "30.2")); vm_compute; reflexivity.
  - apply (proj2 (proj2 (proj2 (proj2 (proj2
             (sanitize_contract (JStr "4294967295.999999"))))))
             (lit "4294967295.999999")).
    + vm_compute. reflexivity.
    + right. right. exists 4294967295999999. split.
      * vm_compute. reflexivity.
      * vm_compute. reflexivity.
Defined.

(** C9, as stated, fails: the sensors [{ph: {toString: 1}}] are a keyed
    mapping, yet [validateSensorData] neither returns a record nor fails
    with its structural error: the conversion of [ph] throws a TypeError,
    which the validator lets through.  An array, which has no keys to
    read, is an object for the guard of the validators: it is not rejected
    and gives the record of zeros. *)
Lemma validator_throws_type_error :
  let sensors := JObj [("ph", JObj [("toString", JNum (num_of_Z 1))])] in
  is_keyed_mapping sensors = true /\
  validateSensorData sensors = Throw TypeError /\
  validateSensorErrors (JObj [("temp_error", JArr [JObj [("toString", JNull)]])])
    = Throw TypeError /\
  validateActuatorData (JObj [("stirrer", JObj [("toString", JStr "on")])])
    = Throw TypeError /\
  validateSensorData (JArr [JNum (num_of_Z 7)]) =
    Normal (JObj [("ph", JNum pos_zero); ("temp", JNum pos_zero);
                  ("ch4", JNum pos_zero); ("pressure", JNum pos_zero)]).
Proof. vm_compute. repeat split. Qed.

(** C9 (amended): each of [validateSensorData], [validateSensorErrors] and
    [validateActuatorData] throws its structural error exactly when the
    input is not a keyed mapping (a JavaScript object, arrays included;
    [null], [undefined] and every primitive are rejected).  For a keyed
    mapping whose values at the fixed keys can all be converted to a
    string it returns the record with exactly its fixed keys, each one the
    sanitised value read at that key; a missing key gives 0 and no other
    key of the input appears.  For a keyed mapping with a value at a
    fixed key that cannot be converted (an object with a key ["toString"]
    of its own, an array that holds one) it throws a TypeError.  In
    particular [validateSensorData({})] is [{ph:0, temp:0, ch4:0,
    pressure:0}] and [validateActuatorData(null)] throws. *)
Theorem validators_contract :
  forall v : JsValue,
    validateSensorData v =
      (if is_keyed_mapping v then
         if forallb (fun k => negb (ToString_throws (field v k))) sensor_keys
         then Normal (sanitized_record sensor_keys v)
         else Throw TypeError
       else Throw (Error "Invalid sensors data structure")) /\
    validateSensorErrors v =
      (if is_keyed_mapping v then
         if forallb (fun k => negb (ToString_throws (field v k))) sensor_error_keys
         then Normal (sanitized_record sensor_error_keys v)
         else Throw TypeError
       else Throw (Error "Invalid sensor_errors data structure")) /\
    validateActuatorData v =
      (if is_keyed_mapping v then
         if forallb (fun k => negb (ToString_throws (field v k))) actuator_keys
         then Normal (sanitized_record actuator_keys v)
         else Throw TypeError
       else Throw (Error "Invalid actuators data structure")) /\
    (forall ks k, In k ks ->
       ToString_throws (field v k) = false ->
       sanitizeFloatValue (field v k) =
         Normal (match field (sanitized_record ks v) k with
                 | JNum x => x
                 | _ => NaN
                 end)) /\
    keys_of (sanitized_record sensor_keys v) = ["ph"; "temp"; "ch4"; "pressure"] /\
    keys_of (sanitized_record sensor_error_keys v) =
      ["ph_error"; "ph_delta_error"; "temp_error"; "temp_delta_error"] /\
    keys_of (sanitized_record actuator_keys v) =
      ["pump_base"; "pump_acid"; "heater"; "solenoid"; "stirrer"] /\
    (forall k, field v k = JUndefined ->
       sanitizeFloatValue (field v k) = Normal pos_zero) /\
    is_keyed_mapping JNull = false /\
    validateSensorData (JObj []) =
      Normal (JObj [("ph", JNum pos_zero); ("temp", JNum pos_zero);
                    ("ch4", JNum pos_zero); ("pressure", JNum pos_zero)]) /\
    validateActuatorData JNull = Throw (Error "Invalid actuators data structure").
Proof.
  intros v.
  repeat match goal with |- _ /\ _ => split end;
    auto using validateSensorData_spec, validateSensorErrors_spec,
      validateActuatorData_spec, keys_of_sanitized_record.
  - intros ks k Hk Hc. rewrite sanitizeFloatValue_spec. unfold convertible.
    rewrite Hc. cbn [negb]. rewrite (field_sanitized_record ks v k Hk). reflexivity.
  - intros k ->. reflexivity.
Qed.

Lemma validators_contract_witness :
  validateSensorData
    (JObj [("temp", JStr "30.2"); ("ph", JNum (lit "6.8000004"));
           ("device", JStr "esp32"); ("ch4", JStr "n/a")])
  = Normal (JObj [("ph", JNum (lit "6.8")); ("temp", JNum (lit "30.2"));
                  ("ch4", JNum pos_zero); ("pressure", JNum pos_zero)]) /\
  validateActuatorData (JObj [("heater", JObj [("toString", JNull)])])
  = Throw TypeError /\
  validateSensorErrors (JStr "ph_error") = Throw (Error "Invalid sensor_errors data structure") /\
  sanitizeFloatValue (field (JObj [("ph", JStr "7")]) "temp") = Normal pos_zero.
Proof.
  split; [|split; [|split]].
  - rewrite (proj1 (validators_contract
                      (JObj [("temp", JStr "30.2"); ("ph", JNum (lit "6.8000004"));
                             ("device", JStr "esp32"); ("ch4", JStr "n/a")]))).
    vm_compute. reflexivity.
  - rewrite (proj1 (proj2 (proj2 (validators_contract
                      (JObj [("heater", JObj [("toString", JNull)])]))))).
    reflexivity.
  - rewrite (proj1 (proj2 (validators_contract (JStr "ph_error")))). reflexivity.
  - apply (validators_contract (JObj [("ph", JStr "7")])). reflexivity.
Defined.

(* ================================================================== *)
(** * The gateway operations *)
(* ================================================================== *)

Ltac run_handler :=
  unfold try_catch, bind, ret, lift, gets, modify, throw, await, now,
    exec, eval, record_call in *;
  simpl in *.

Section PersistenceFacts.
Context {G : Type}.
Variable supabase : Client.

Lemma template_caught :
  forall (v : JsValue) (w : World G),
    try_catch (lift (template v)) (fun _ => ret tt) w = (Normal tt, w).
Proof.
  intros v w. unfold try_catch, lift, template, ret.
  destruct (ToString_throws v); reflexivity.
Qed.

Lemma insertSensorData_run :
  forall (sensors : JsValue) (w : World G),
    valid_section sensor_keys sensors = true ->
    let q := insert_returning "sensors" (sanitized_record sensor_keys sensors) "id" in
    insertSensorData supabase sensors w =
      (Normal (returned_id (supabase (calls w) q)), record_call q w).
Proof.
  intros sensors w H q. unfold insertSensorData.
  rewrite validateSensorData_valid by assumption. run_handler. fold q.
  unfold returned_id.
  destruct (supabase (calls w) q) as [r|e]; [|reflexivity].
  destruct (truthy (error r)); [reflexivity|].
  destruct (get0 (data r)) as [row|e]; simpl; [|reflexivity].
  destruct (get row "id") as [id|e]; [|reflexivity].
  unfold template, convertible.
  destruct (ToString_throws id); reflexivity.
Qed.

Lemma insertSensorData_invalid :
  forall (sensors : JsValue) (w : World G),
    valid_section sensor_keys sensors = false ->
    insertSensorData supabase sensors w = (Normal JNull, w).
Proof.
  intros sensors w H. unfold insertSensorData.
  destruct (validateSensorData_invalid sensors H) as [e E].
  rewrite E. reflexivity.
Qed.

Lemma insertSensorErrors_run :
  forall (sensorId sensorErrors : JsValue) (w : World G),
    valid_section sensor_error_keys sensorErrors = true ->
    insertSensorErrors supabase sensorId sensorErrors w =
      (Normal tt,
       record_call
         (insert_into "sensor_errors"
            (JObj (("sensor_id", sensorId) ::
                   spread (sanitized_record sensor_error_keys sensorErrors)))) w).
Proof.
  intros sensorId sensorErrors w H. unfold insertSensorErrors.
  rewrite validateSensorErrors_valid by assumption. run_handler.
  match goal with |- context [supabase ?h ?q] => destruct (supabase h q) as [r|e] end;
    [|reflexivity].
  destruct (truthy (error r)); [reflexivity|].
  unfold template. destruct (ToString_throws sensorId); reflexivity.
Qed.

Lemma insertSensorErrors_invalid :
  forall (sensorId sensorErrors : JsValue) (w : World G),
    valid_section sensor_error_keys sensorErrors = false ->
    insertSensorErrors supabase sensorId sensorErrors w = (Normal tt, w).
Proof.
  intros sensorId sensorErrors w H. unfold insertSensorErrors.
  destruct (validateSensorErrors_invalid sensorErrors H) as [e E].
  rewrite E. reflexivity.
Qed.

(** The two inserts of a sensor message never throw and never touch the
    module variables; they only add queries to the trace. *)
Lemma insertSensorData_total :
  forall (sensors : JsValue) (w : World G),
    exists id qs,
      insertSensorData supabase sensors w =
        (Normal id,
         {| globals := globals w; calls := calls w ++ qs; clock := clock w |}).
Proof.
  intros sensors [g cs ck]. destruct (valid_section sensor_keys sensors) eqn:H.
  - rewrite insertSensorData_run by assumption. eexists. eexists. reflexivity.
  - rewrite insertSensorData_invalid by assumption.
    exists JNull, []. simpl. rewrite app_nil_r. reflexivity.
Qed.

Lemma insertSensorErrors_total :
  forall (sensorId sensorErrors : JsValue) (w : World G),
    exists qs,
      insertSensorErrors supabase sensorId sensorErrors w =
        (Normal tt,
         {| globals := globals w; calls := calls w ++ qs; clock := clock w |}).
Proof.
  intros sensorId sensorErrors [g cs ck].
  destruct (valid_section sensor_error_keys sensorErrors) eqn:H.
  - rewrite insertSensorErrors_run by assumption. eexists. reflexivity.
  - rewrite insertSensorErrors_invalid by assumption.
    exists []. simpl. rewrite app_nil_r. reflexivity.
Qed.

Lemma insertActuatorData_run :
  forall (sensorId actuators : JsValue) (w : World G),
    valid_section actuator_keys actuators = true ->
    insertActuatorData supabase sensorId actuators w =
      (Normal tt,
       record_call
         (insert_into "actuators" (sanitized_record actuator_keys actuators)) w).
Proof.
  intros sensorId actuators w H. unfold insertActuatorData.
  rewrite validateActuatorData_valid by assumption. run_handler.
  match goal with |- context [supabase ?h ?q] => destruct (supabase h q) as [r|e] end;
    [|reflexivity].
  destruct (truthy (error r)); [reflexivity|].
  unfold template. destruct (ToString_throws sensorId); reflexivity.
Qed.

Lemma insertActuatorData_invalid :
  forall (sensorId actuators : JsValue) (w : World G),
    valid_section actuator_keys actuators = false ->
    insertActuatorData supabase sensorId actuators w = (Normal tt, w).
Proof.
  intros sensorId actuators w H. unfold insertActuatorData.
  destruct (validateActuatorData_invalid actuators H) as [e E].
  rewrite E. reflexivity.
Qed.

Lemma getLatestSensorId_run :
  forall w : World G,
    getLatestSensorId supabase w =
      (Normal (latest_id (supabase (calls w) latest_sensor_query)),
       record_call latest_sensor_query w).
Proof.
  intros w. unfold getLatestSensorId, latest_id. run_handler.
  destruct (supabase (calls w) latest_sensor_query) as [r|e]; [|reflexivity].
  destruct (truthy (error r) || negb (truthy (data r))); [reflexivity|].
  destruct (get (data r) "id"); reflexivity.
Qed.

(** A section with a value that cannot be converted at one of the keys
    is not valid. *)
Lemma unconvertible_field_invalid :
  forall ks v k, In k ks -> ToString_throws (field v k) = true ->
    valid_section ks v = false.
Proof.
  intros ks v k Hk Ht. unfold valid_section.
  destruct (forallb (fun k0 => convertible (field v k0)) ks) eqn:F;
    [|apply andb_false_r].
  rewrite forallb_forall in F. specialize (F k Hk).
  unfold convertible in F. rewrite Ht in F. discriminate.
Qed.

End PersistenceFacts.

(** C5, as stated, fails in two ways.  On non-finite inputs: the string
    ["Infinity"], the number [Infinity] and the JSON number [1e999] are
    returned as [Infinity], and the finite number 1e305 overflows to
    [Infinity] when it is scaled; only [NaN] is replaced by 0.  And for a
    value that cannot be converted to a string there is no result at all:
    [sanitizeFloatValue] throws. *)
Lemma sanitize_keeps_infinity :
  sanitizeFloatValue (JStr "Infinity") = Normal Infinity /\
  sanitizeFloatValue (JNum Infinity) = Normal Infinity /\
  sanitizeFloatValue (JNum (lit "1e999")) = Normal Infinity /\
  sanitizeFloatValue (JNum (lit "1e305")) = Normal Infinity /\
  is_finite Infinity = false /\
  validateSensorData (JObj [("ph", JStr "Infinity")]) =
    Normal (JObj [("ph", JNum Infinity); ("temp", JNum pos_zero);
                  ("ch4", JNum pos_zero); ("pressure", JNum pos_zero)]) /\
  sanitizeFloatValue (JObj [("toString", JNum (num_of_Z 1))]) = Throw TypeError.
Proof. vm_compute. repeat split. Qed.

(** C5 (amended): for every input value that can be converted to a string
    the result of [sanitizeFloatValue] is a number that is never NaN:
    0 for missing and unparseable values, and otherwise the parsed value
    rounded to six decimals, [Math.round(x * 10^6) / 10^6]; it is finite
    exactly when the parsed value multiplied by 10^6 is finite, that is
    when the value is finite and its scaling does not overflow, and it is
    plus or minus [Infinity] otherwise.  Hence every field of a record
    built by one of the three validators is a number other than NaN.  For
    a value that cannot be converted [sanitizeFloatValue] throws, and a
    section that holds such a value at one of its keys is never persisted:
    the insert function sends nothing. *)
Theorem sanitize_never_nan :
  forall v : JsValue,
    (ToString_throws v = false ->
       exists x,
         sanitizeFloatValue v = Normal x /\ is_nan x = false /\
         ((missing v = true \/ isNaN (parse_value v) = true) -> x = pos_zero) /\
         (missing v = false -> isNaN (parse_value v) = false ->
            x = round6 (parse_value v) /\
            is_finite x = is_finite (mul (parse_value v) million)) /\
         (is_finite x = false -> exists s, x = S754_infinity s)) /\
    (ToString_throws v = true -> sanitizeFloatValue v = Throw TypeError) /\
    (forall row,
       (validateSensorData v = Normal row \/
        validateSensorErrors v = Normal row \/
        validateActuatorData v = Normal row) ->
       Forall (fun kv => exists x, snd kv = JNum x /\ is_nan x = false)
              (spread row)) /\
    (forall (G : Type) (supabase : Client) (w : World G) (id : JsValue) (k : string),
       ToString_throws (field v k) = true ->
       (In k sensor_keys -> insertSensorData supabase v w = (Normal JNull, w)) /\
       (In k sensor_error_keys ->
          insertSensorErrors supabase id v w = (Normal tt, w)) /\
       (In k actuator_keys ->
          insertActuatorData supabase id v w = (Normal tt, w))).
Proof.
  intros v. split; [|split; [|split]].
  - intros Hc. rewrite sanitizeFloatValue_spec. unfold convertible. rewrite Hc.
    cbn [negb]. eexists. split; [reflexivity|].
    split; [apply sanitize_not_nan|]. split; [|split].
    + intros [H|H]; [apply sanitize_missing|apply sanitize_unparseable]; assumption.
    + intros Hm Hp. rewrite (sanitize_parsed v Hm Hp).
      split; [reflexivity|apply round6_finite].
    + intros Hf. pose proof (sanitize_not_nan v) as Hn.
      destruct (sanitized v) as [s|s| |s m e]; try discriminate.
      exists s. reflexivity.
  - intros Hc. rewrite sanitizeFloatValue_spec. unfold convertible. rewrite Hc.
    reflexivity.
  - intros row H.
    rewrite validateSensorData_spec, validateSensorErrors_spec,
      validateActuatorData_spec in H.
    destruct (is_keyed_mapping v);
      destruct H as [H|[H|H]]; try discriminate;
      match type of H with
      | (if ?c then _ else _) = _ => destruct c; try discriminate
      end;
      inversion H; subst; apply sanitized_record_never_nan.
  - intros G supabase w id k Hk. repeat split; intros Hin.
    + apply insertSensorData_invalid, (unconvertible_field_invalid _ _ k); assumption.
    + apply insertSensorErrors_invalid, (unconvertible_field_invalid _ _ k); assumption.
    + apply insertActuatorData_invalid, (unconvertible_field_invalid _ _ k); assumption.
Qed.

Lemma sanitize_never_nan_witness :
  (exists x, sanitizeFloatValue (JBool true) = Normal x /\ x = pos_zero) /\
  (exists x, sanitizeFloatValue (JStr "1000000000.1234567") = Normal x /\
             x = lit "1000000000.123457" /\ is_finite x = true) /\
  (exists x, sanitizeFloatValue (JStr "-1e305") = Normal x /\
             x = S754_infinity true) /\
  sanitizeFloatValue (JArr [JObj [("toString", JNull)]]) = Throw TypeError /\
  Forall (fun kv => exists x, snd kv = JNum x /\ is_nan x = false)
    (spread (sanitized_record sensor_keys (JObj [("ph", JStr "x")]))) /\
  insertSensorData gateway_ok
    (JObj [("ph", JNum (lit "6.8")); ("temp", JObj [("toString", JNull)])])
    (idle false) = (Normal JNull, idle false).
Proof.
  split; [|split; [|split; [|split; [|split]]]].
  - destruct (proj1 (sanitize_never_nan (JBool true)) eq_refl)
      as (x & E & _ & Z & _).
    exists x. split; [exact E|]. apply Z. right. reflexivity.
  - destruct (proj1 (sanitize_never_nan (JStr "1000000000.1234567")) eq_refl)
      as (x & E & _ & _ & R & _).
    exists x. split; [exact E|].
    destruct R as [R F]; [reflexivity | vm_compute; reflexivity |].
    split; [rewrite R; vm_compute; reflexivity|].
    rewrite F. vm_compute. reflexivity.
  - destruct (proj1 (sanitize_never_nan (JStr "-1e305")) eq_refl)
      as (x & E & _ & _ & R & _).
    exists x. split; [exact E|].
    destruct R as [R F]; [reflexivity | vm_compute; reflexivity |].
    rewrite R. vm_compute. reflexivity.
  - apply (proj1 (proj2 (sanitize_never_nan (JArr [JObj [("toString", JNull)]])))).
    reflexivity.
  - apply (proj1 (proj2 (proj2 (sanitize_never_nan (JObj [("ph", JStr "x")]))))).
    left. vm_compute. reflexivity.
  - apply (proj2 (proj2 (proj2 (sanitize_never_nan
             (JObj [("ph", JNum (lit "6.8")); ("temp", JObj [("toString", JNull)])]))))
             _ gateway_ok (idle false) JNull "temp" eq_refl).
    simpl. auto.
Defined.


(* ================================================================== *)
(** * The MQTT handler: warmup gating and correlation *)
(* ================================================================== *)

Section MqttHandlerFacts.
Import MqttHandler.
Variable supabase : Client.

Lemma truthy_keyed_mapping :
  forall v, is_keyed_mapping v = true -> truthy v = true.
Proof. intros [] H; try discriminate; reflexivity. Qed.

Lemma warmup_update_run :
  forall payload cur warm cs ck,
    let w := {| globals := {| currentSensorId := cur; isWarmupActive := warm |};
                calls := cs; clock := ck |} in
    let w1 := {| globals := {| currentSensorId := cur;
                               isWarmupActive := warmup_after (globals w) payload |};
                 calls := cs; clock := ck |} in
    warmup_update payload w = (Normal tt, w1) \/
    (warmup_update payload w = (Throw TypeError, w) /\
     get payload "system" = Throw TypeError /\
     warmup_after (globals w) payload = warm).
Proof.
  intros payload cur warm cs ck w w1. subst w w1.
  unfold warmup_update, warmup_after, warmup_field. run_handler.
  destruct (get payload "system") as [system|e] eqn:Es.
  - left. destruct (truthy system) eqn:Ts; [|reflexivity].
    destruct system; try discriminate; simpl;
      try reflexivity;
      try (destruct (lookup "warmup_active" fields) as [v|]; simpl; try reflexivity;
           destruct (strict_equals v JUndefined); simpl; try reflexivity;
           destruct (strict_equals v (JNum one)), warm; reflexivity).
  - right. destruct payload; try discriminate; simpl in *;
      try (destruct (lookup "system" fields); discriminate);
      inversion Es; subst; repeat split; reflexivity.
Qed.

Lemma processControlData_unfold :
  forall payload (w : World Globals),
    processControlData supabase payload w =
    try_catch
      (warmup_update payload ;;
       warmup <- gets isWarmupActive ;;
       if warmup then ret tt
       else
         actuators <- lift (get payload "actuators") ;;
         if truthy actuators then
           current <- gets currentSensorId ;;
           sensorId <- (if truthy current then ret current
                        else getLatestSensorId supabase) ;;
           if truthy sensorId then insertActuatorData supabase sensorId actuators
           else ret tt
         else ret tt)
      (fun err => throw err) w.
Proof.
  intros payload w.
  unfold processControlData, warmup_update, try_catch, bind at 1 5 6, lift at 1 4.
  destruct (get payload "system"); reflexivity.
Qed.

Lemma insertActuatorData_calls :
  forall sensorId actuators (w : World Globals),
    insertActuatorData supabase sensorId actuators w =
      (Normal tt,
       {| globals := globals w;
          calls := calls w ++ actuator_insert actuators;
          clock := clock w |}).
Proof.
  intros sensorId actuators [g cs ck]. unfold actuator_insert.
  destruct (valid_section actuator_keys actuators) eqn:H.
  - rewrite insertActuatorData_run by assumption. reflexivity.
  - rewrite insertActuatorData_invalid by assumption. simpl.
    rewrite app_nil_r. reflexivity.
Qed.

(** What [processControlData] does to the world. *)
Lemma processControlData_run :
  forall payload (w : World Globals),
    exec (processControlData supabase payload) w =
      {| globals := {| currentSensorId := currentSensorId (globals w);
                       isWarmupActive := warmup_after (globals w) payload |};
         calls := calls w ++ control_queries supabase (globals w) (calls w) payload;
         clock := clock w |}.
Proof.
  intros payload [[cur warm] cs ck].
  unfold exec. rewrite processControlData_unfold.
  unfold try_catch, bind at 1.
  destruct (warmup_update_run payload cur warm cs ck) as [E|(E & Ep & Ew)];
    rewrite E; unfold control_queries; simpl globals in *; simpl calls; simpl clock.
  - unfold bind at 1, gets at 1. simpl.
    destruct (warmup_after _ payload) eqn:Hw; simpl.
    + rewrite app_nil_r. reflexivity.
    + unfold bind at 1, lift at 1.
      destruct (get payload "actuators") as [actuators|e]; simpl;
        [|rewrite app_nil_r; reflexivity].
      destruct (truthy actuators); simpl; [|rewrite app_nil_r; reflexivity].
      unfold bind at 1, gets at 1. simpl.
      destruct (truthy cur) eqn:Hc; simpl.
      * unfold bind at 1, ret at 1. rewrite Hc.
        rewrite insertActuatorData_calls. reflexivity.
      * unfold bind at 1. rewrite getLatestSensorId_run. simpl.
        destruct (truthy (latest_id _)); simpl.
        -- rewrite insertActuatorData_calls. simpl.
           rewrite <- app_assoc. reflexivity.
        -- reflexivity.
  - simpl. rewrite Ew.
    destruct payload; try discriminate; simpl in *;
      try (destruct (lookup "system" fields); discriminate);
      destruct warm; simpl; rewrite app_nil_r; reflexivity.
Qed.

Lemma exec_try_catch_ignore :
  forall (A : Type) (m : M Globals A) (a : A) (w : World Globals),
    exec (try_catch m (fun _ => ret a)) w = exec m w.
Proof.
  intros A m a w. unfold exec, try_catch, ret.
  destruct (m w) as [[x|e] w']; reflexivity.
Qed.

Lemma onMessage_control :
  forall payload (w : World Globals),
    exec (onMessage supabase "biogas/data/control" (Some payload)) w =
    exec (processControlData supabase payload) w.
Proof.
  intros payload w. unfold onMessage. rewrite exec_try_catch_ignore. reflexivity.
Qed.

Lemma onMessage_sensors :
  forall payload (w : World Globals),
    exec (onMessage supabase "biogas/data/sensors" (Some payload)) w =
    exec (processSensorData supabase payload) w.
Proof.
  intros payload w. unfold onMessage. rewrite exec_try_catch_ignore. reflexivity.
Qed.

Lemma onMessage_unparsed :
  forall topic (w : World Globals), exec (onMessage supabase topic None) w = w.
Proof. reflexivity. Qed.

Lemma processSensorData_warmup :
  forall payload (w : World Globals),
    isWarmupActive (globals w) = true ->
    processSensorData supabase payload w = (Normal tt, w).
Proof.
  intros payload w H. unfold processSensorData. run_handler.
  rewrite H. reflexivity.
Qed.


(** [processSensorData] never assigns the warmup flag. *)
Lemma processSensorData_flag :
  forall payload (w : World Globals),
    isWarmupActive (globals (exec (processSensorData supabase payload) w)) =
    isWarmupActive (globals w).
Proof.
  intros payload [[cur warm] cs ck].
  unfold exec, processSensorData, try_catch, bind at 1, gets at 1. simpl.
  destruct warm; [reflexivity|].
  unfold bind at 1, lift at 1.
  destruct (get payload "sensors") as [sensors|e]; [|reflexivity].
  unfold bind at 1.
  destruct (truthy sensors) eqn:Ts; [|reflexivity].
  unfold lift at 1.
  destruct (get payload "sensor_errors") as [sensor_errors|e]; [|reflexivity].
  destruct (truthy sensor_errors); cbn [andb].
  - unfold bind at 1. cbv beta.
    match goal with
    | |- context [insertSensorData supabase sensors ?w0] =>
        destruct (insertSensorData_total supabase sensors w0) as (id & qs & E)
    end.
    rewrite E. destruct (truthy id); [|reflexivity].
    unfold bind at 1, modify at 1. cbv beta iota.
    match goal with
    | |- context [insertSensorErrors supabase id sensor_errors ?w0] =>
        destruct (insertSensorErrors_total supabase id sensor_errors w0) as (qs' & E')
    end.
    rewrite E'. reflexivity.
  - unfold bind at 1. cbv beta.
    match goal with
    | |- context [insertSensorData supabase sensors ?w0] =>
        destruct (insertSensorData_total supabase sensors w0) as (id & qs & E)
    end.
    rewrite E. destruct (truthy id); reflexivity.
Qed.

Lemma processSensorData_both :
  forall (payload sensors sensor_errors : JsValue) (w : World Globals),
    isWarmupActive (globals w) = false ->
    get payload "sensors" = Normal sensors ->
    truthy sensors = true ->
    get payload "sensor_errors" = Normal sensor_errors ->
    truthy sensor_errors = true ->
    processSensorData supabase payload w =
      (Normal tt,
       if valid_section sensor_keys sensors then
         let id := returned_id (supabase (calls w) (sensor_insert sensors)) in
         if truthy id then
           {| globals := set_currentSensorId id (globals w);
              calls := (calls w ++ [sensor_insert sensors]) ++
                       (if valid_section sensor_error_keys sensor_errors
                        then [sensor_errors_insert id sensor_errors]
                        else []);
              clock := clock w |}
         else record_call (sensor_insert sensors) w
       else w).
Proof.
  intros payload sensors sensor_errors [[cur warm] cs ck] Hw Hs Ts He Te.
  simpl in Hw. subst warm.
  unfold processSensorData, try_catch, bind at 1, gets at 1. simpl.
  unfold bind at 1, lift at 1. rewrite Hs.
  unfold bind at 1. rewrite Ts.
  unfold lift at 1. rewrite He.
  rewrite Te. simpl.
  unfold bind at 1.
  destruct (valid_section sensor_keys sensors) eqn:Vs.
  - rewrite insertSensorData_run by assumption.
    simpl calls. fold (sensor_insert sensors). cbv zeta.
    destruct (truthy (returned_id _)) eqn:Hid.
    + unfold bind at 1, modify at 1. cbv beta iota.
      destruct (valid_section sensor_error_keys sensor_errors) eqn:Ve.
      * rewrite insertSensorErrors_run by assumption. reflexivity.
      * rewrite insertSensorErrors_invalid by assumption.
        simpl. rewrite app_nil_r. reflexivity.
    + reflexivity.
  - rewrite insertSensorData_invalid by assumption. reflexivity.
Qed.

(** A control message that carries [warmup_active] is handled as if the
    flag had the value it carries. *)
Lemma processControlData_flag_irrelevant :
  forall payload v (w : World Globals) (flag : bool),
    warmup_field payload = Some v ->
    exec (processControlData supabase payload) w =
    exec (processControlData supabase payload)
         {| globals := set_isWarmupActive flag (globals w);
            calls := calls w; clock := clock w |}.
Proof.
  intros payload v w flag Hf. rewrite !processControlData_run.
  unfold control_queries, warmup_after. rewrite Hf. reflexivity.
Qed.

(** C1 (amended): while the warmup flag is true, a sensor-topic message
    leaves the whole world as it was: no SensorReading and no
    SensorErrorMargin insert.  A control-topic message first applies its
    own [system.warmup_active] to the flag.  When the message does not end
    the warmup (it carries no [warmup_active], or the number 1) the
    handler sends nothing, in particular no ActuatorState insert, and the
    flag is still true afterwards.  When it ends the warmup (it carries
    a [warmup_active] other than 1), it is handled as a message that
    arrives outside warmup.  For every topic and message: if the flag is
    true when the listener is done, the listener has sent nothing. *)
Theorem warmup_blocks_persistence :
  forall (w : World Globals) (payload : JsValue),
    isWarmupActive (globals w) = true ->
    (exec (processSensorData supabase payload) w = w /\
     exec (onMessage supabase "biogas/data/sensors" (Some payload)) w = w) /\
    (ends_warmup ("biogas/data/control", Some payload) = false ->
       calls (exec (processControlData supabase payload) w) = calls w /\
       calls (exec (onMessage supabase "biogas/data/control" (Some payload)) w)
         = calls w /\
       isWarmupActive (globals (exec (processControlData supabase payload) w))
         = true) /\
    (ends_warmup ("biogas/data/control", Some payload) = true ->
       exec (onMessage supabase "biogas/data/control" (Some payload)) w =
       exec (onMessage supabase "biogas/data/control" (Some payload))
            {| globals := set_isWarmupActive false (globals w);
               calls := calls w; clock := clock w |}) /\
    (forall topic message,
       isWarmupActive (globals (exec (onMessage supabase topic message) w)) = true ->
       calls (exec (onMessage supabase topic message) w) = calls w).
Proof.
  intros w payload H. split; [|split; [|split]].
  - rewrite onMessage_sensors. unfold exec.
    rewrite processSensorData_warmup by assumption. split; reflexivity.
  - intros He. rewrite onMessage_control, processControlData_run.
    assert (Hw : warmup_after (globals w) payload = true).
    { unfold ends_warmup in He. simpl in He. unfold warmup_after.
      destruct (warmup_field payload) as [v|]; [|exact H].
      destruct (strict_equals v (JNum one)); [reflexivity|discriminate]. }
    unfold control_queries. rewrite Hw. simpl.
    rewrite app_nil_r. repeat split; reflexivity.
  - intros He. rewrite !onMessage_control.
    unfold ends_warmup in He. simpl in He.
    destruct (warmup_field payload) as [v|] eqn:Hf; [|discriminate].
    apply (processControlData_flag_irrelevant payload v w false Hf).
  - intros topic [body|]; [|reflexivity].
    unfold onMessage. rewrite exec_try_catch_ignore.
    destruct (String.eqb topic "biogas/data/sensors").
    + rewrite processSensorData_flag. intros _. unfold exec.
      rewrite processSensorData_warmup by assumption. reflexivity.
    + destruct (String.eqb topic "biogas/data/control"); [|reflexivity].
      rewrite processControlData_run. simpl. intros Hf.
      unfold control_queries. rewrite Hf. apply app_nil_r.
Qed.

(** C2 (amended): for a sensor-topic message whose payload carries both
    [sensors] and [sensor_errors] while warmup is not active.  When
    [sensors] is a valid section (an object whose values at the four keys
    can be converted), the handler sends the SensorReading insert first;
    when that insert returns an id (a truthy, convertible one), it records
    the id and, if [sensor_errors] is a valid section too, sends exactly
    one more query, the SensorErrorMargin insert whose [sensor_id] is that
    id, and nothing more otherwise; when the insert fails (no id comes
    back) nothing else is sent.  When [sensors] is not a valid section
    nothing is sent at all. *)
Theorem sensor_message_inserts :
  forall (w : World Globals) (payload sensors sensor_errors : JsValue),
    isWarmupActive (globals w) = false ->
    get payload "sensors" = Normal sensors ->
    truthy sensors = true ->
    get payload "sensor_errors" = Normal sensor_errors ->
    truthy sensor_errors = true ->
    let id := returned_id (supabase (calls w) (sensor_insert sensors)) in
    let w' := exec (processSensorData supabase payload) w in
    (valid_section sensor_keys sensors = true ->
       (truthy id = true ->
          calls w' = calls w ++
            sensor_insert sensors ::
              (if valid_section sensor_error_keys sensor_errors
               then [sensor_errors_insert id sensor_errors]
               else []) /\
          sensor_id_of (sensor_errors_insert id sensor_errors) = id /\
          currentSensorId (globals w') = id) /\
       (truthy id = false ->
          calls w' = calls w ++ [sensor_insert sensors] /\
          currentSensorId (globals w') = currentSensorId (globals w))) /\
    (valid_section sensor_keys sensors = false -> w' = w).
Proof.
  intros w payload sensors sensor_errors Hw Hs Ts He Te id w'.
  subst w' id. unfold exec.
  rewrite (processSensorData_both payload sensors sensor_errors w) by assumption.
  cbv zeta. split.
  - intros ->.
    destruct (truthy (returned_id _)) eqn:Hid; simpl.
    + split; [|intros; discriminate]. intros _.
      rewrite <- app_assoc. repeat split; reflexivity.
    + split; [intros; discriminate|]. intros _. split; reflexivity.
  - intros ->. reflexivity.
Qed.

(** C3: for a control-topic message that carries [actuators] while
    warmup is not active: when [currentSensorId] is set the handler sends
    no look-up, only the ActuatorState insert (the one insert of the
    validated actuators, none when the validator throws); when it is not
    set the handler first asks the gateway for the id of the newest sensor
    row (ordered by [created_at] descending, limit 1) and sends the insert
    after it only if that query yields an id; with no id from either
    source no insert is sent. *)
Theorem control_message_resolves_sensor_id :
  forall (w : World Globals) (payload actuators : JsValue),
    warmup_after (globals w) payload = false ->
    get payload "actuators" = Normal actuators ->
    truthy actuators = true ->
    let insert := insert_into "actuators" (sanitized_record actuator_keys actuators) in
    let sent := if valid_section actuator_keys actuators then [insert] else [] in
    let found := latest_id (supabase (calls w) latest_sensor_query) in
    let w' := exec (processControlData supabase payload) w in
    (truthy (currentSensorId (globals w)) = true -> calls w' = calls w ++ sent) /\
    (truthy (currentSensorId (globals w)) = false -> truthy found = true ->
       calls w' = calls w ++ latest_sensor_query :: sent) /\
    (truthy (currentSensorId (globals w)) = false -> truthy found = false ->
       calls w' = calls w ++ [latest_sensor_query]) /\
    latest_sensor_query =
      {| q_from := "sensors"; q_insert := None; q_select := Some "id";
         q_order := Some ("created_at", false); q_limit := Some 1;
         q_single := true |}.
Proof.
  intros w payload actuators Hw Ha Ta insert sent found w'. subst w'.
  rewrite processControlData_run. unfold control_queries.
  rewrite Hw, Ha, Ta. unfold actuator_insert.
  fold insert. fold sent. fold found. simpl calls.
  repeat split.
  - intros ->. reflexivity.
  - intros -> ->. reflexivity.
  - intros -> ->. reflexivity.
Qed.

(** C10: [processControlData] leaves the warmup flag at its previous value
    when [payload.system] or [payload.system.warmup_active] is absent
    ([undefined]); it assigns the flag only when the field is present, and
    the flag is then true exactly when the field is the number 1. *)
Theorem warmup_flag_update :
  forall (w : World Globals) (payload : JsValue),
    let w' := exec (processControlData supabase payload) w in
    (forall system,
       get payload "system" = Normal system ->
       system = JUndefined \/ get system "warmup_active" = Normal JUndefined ->
       isWarmupActive (globals w') = isWarmupActive (globals w)) /\
    (forall system v,
       get payload "system" = Normal system -> truthy system = true ->
       get system "warmup_active" = Normal v -> v <> JUndefined ->
       (isWarmupActive (globals w') = true <-> v = JNum one)) /\
    (isWarmupActive (globals w') <> isWarmupActive (globals w) ->
       exists v, warmup_field payload = Some v) /\
    currentSensorId (globals w') = currentSensorId (globals w).
Proof.
  intros w payload w'. subst w'. rewrite processControlData_run. simpl.
  unfold warmup_after, warmup_field.
  split; [|split; [|split]].
  - intros system Hs [->|Hv]; rewrite Hs; simpl; [reflexivity|].
    destruct (truthy system); [|reflexivity].
    rewrite Hv. reflexivity.
  - intros system v Hs Ts Hv Hn. rewrite Hs, Ts, Hv.
    assert (E : strict_equals v JUndefined = false)
      by (destruct v; try reflexivity; congruence).
    rewrite E. split.
    + intros H. destruct v; try discriminate. simpl in H.
      destruct (num_eqb_true _ _ H) as [->|(s & t & _ & Ht)];
        [reflexivity|discriminate].
    + intros ->. reflexivity.
  - intros H.
    destruct (get payload "system") as [system|e]; [|congruence].
    destruct (truthy system); [|congruence].
    destruct (get system "warmup_active") as [v|e]; [|congruence].
    destruct (strict_equals v JUndefined); [congruence|].
    eexists. reflexivity.
  - reflexivity.
Qed.
End MqttHandlerFacts.

(** C1, as stated, fails: with the flag set, a control message that
    carries [warmup_active: 0] and actuators ends the warmup first, and
    the handler then looks up the latest reading and inserts the
    actuators. *)
Lemma warmup_ended_by_control_message :
  let payload := control_payload_warmup (JNum (num_of_Z 0)) in
  MqttHandler.isWarmupActive (globals (idle true)) = true /\
  calls (exec (MqttHandler.onMessage gateway_ok "biogas/data/control" (Some payload))
              (idle true))
    = [latest_sensor_query;
       insert_into "actuators" (sanitized_record actuator_keys sample_actuators)].
Proof. vm_compute. split; reflexivity. Qed.

Lemma warmup_blocks_persistence_witness :
  (exec (MqttHandler.processSensorData gateway_ok sensor_payload) (idle true)
     = idle true /\
   exec (MqttHandler.onMessage gateway_ok "biogas/data/sensors" (Some sensor_payload))
        (idle true) = idle true) /\
  calls (exec (MqttHandler.processControlData gateway_ok
                 (control_payload_warmup (JNum MqttHandler.one))) (idle true)) = [] /\
  calls (exec (MqttHandler.onMessage gateway_ok "biogas/data/control"
                 (Some control_payload)) (idle true)) = [] /\
  exec (MqttHandler.onMessage gateway_ok "biogas/data/control"
          (Some (control_payload_warmup (JNum (num_of_Z 0))))) (idle true)
    = exec (MqttHandler.onMessage gateway_ok "biogas/data/control"
              (Some (control_payload_warmup (JNum (num_of_Z 0))))) (idle false).
Proof.
  split; [|split; [|split]].
  - apply (proj1 (warmup_blocks_persistence gateway_ok (idle true) sensor_payload
                    eq_refl)).
  - apply (proj1 (proj2 (warmup_blocks_persistence gateway_ok (idle true)
                           (control_payload_warmup (JNum MqttHandler.one)) eq_refl))).
    reflexivity.
  - apply (proj1 (proj2 (warmup_blocks_persistence gateway_ok (idle true)
                           control_payload eq_refl))).
    reflexivity.
  - apply (proj1 (proj2 (proj2 (warmup_blocks_persistence gateway_ok (idle true)
                                  (control_payload_warmup (JNum (num_of_Z 0)))
                                  eq_refl)))).
    reflexivity.
Defined.

(** C2, as stated, fails: when a value of [sensors] cannot be converted
    the validator throws and no insert is sent, although the payload
    carries both sections; when a value of [sensor_errors] cannot be
    converted the SensorReading insert is not followed by a
    SensorErrorMargin insert, although it returned an id; and an id that
    is returned but falsy (the number 0) counts as no id. *)
Lemma sensor_message_without_inserts :
  let unconvertible := JObj [("toString", JNum (num_of_Z 1))] in
  calls (exec (MqttHandler.onMessage gateway_ok "biogas/data/sensors"
                 (Some (JObj [("sensors", JObj [("ph", unconvertible)]);
                              ("sensor_errors", sample_errors)])))
              (idle false)) = [] /\
  calls (exec (MqttHandler.onMessage gateway_ok "biogas/data/sensors"
                 (Some (JObj [("sensors", sample_sensors);
                              ("sensor_errors", JObj [("ph_error", unconvertible)])])))
              (idle false)) = [sensor_insert sample_sensors] /\
  eval (insertSensorData (gateway_returning (JNum (num_of_Z 0))) sample_sensors)
       (idle false) = Normal (JNum (num_of_Z 0)) /\
  calls (exec (MqttHandler.onMessage (gateway_returning (JNum (num_of_Z 0)))
                 "biogas/data/sensors" (Some sensor_payload))
              (idle false)) = [sensor_insert sample_sensors].
Proof. vm_compute. repeat split. Qed.

Lemma sensor_message_inserts_witness :
  calls (exec (MqttHandler.processSensorData gateway_ok sensor_payload) (idle false))
    = [sensor_insert sample_sensors;
       sensor_errors_insert (JNum (num_of_Z 42)) sample_errors] /\
  calls (exec (MqttHandler.processSensorData gateway_down sensor_payload) (idle false))
    = [sensor_insert sample_sensors] /\
  exec (MqttHandler.processSensorData gateway_ok
          (JObj [("sensors", JObj [("ph", JObj [("toString", JNull)])]);
                 ("sensor_errors", sample_errors)])) (idle false)
    = idle false.
Proof.
  split; [|split].
  - apply (proj1 (proj1 (sensor_message_inserts gateway_ok (idle false) sensor_payload
                    sample_sensors sample_errors
                    eq_refl eq_refl eq_refl eq_refl eq_refl) eq_refl)).
    reflexivity.
  - apply (proj2 (proj1 (sensor_message_inserts gateway_down (idle false) sensor_payload
                    sample_sensors sample_errors
                    eq_refl eq_refl eq_refl eq_refl eq_refl) eq_refl)).
    reflexivity.
  - apply (proj2 (sensor_message_inserts gateway_ok (idle false)
                    (JObj [("sensors", JObj [("ph", JObj [("toString", JNull)])]);
                           ("sensor_errors", sample_errors)])
                    (JObj [("ph", JObj [("toString", JNull)])]) sample_errors
                    eq_refl eq_refl eq_refl eq_refl eq_refl)).
    reflexivity.
Defined.

Lemma control_message_resolves_sensor_id_witness :
  calls (exec (MqttHandler.processControlData gateway_ok control_payload) (idle false))
    = [latest_sensor_query;
       insert_into "actuators" (sanitized_record actuator_keys sample_actuators)] /\
  calls (exec (MqttHandler.processControlData gateway_down control_payload) (idle false))
    = [latest_sensor_query] /\
  calls (exec (MqttHandler.processControlData gateway_down control_payload)
           (correlated (JNum (num_of_Z 7))))
    = [insert_into "actuators" (sanitized_record actuator_keys sample_actuators)] /\
  calls (exec (MqttHandler.processControlData gateway_ok
                 (JObj [("actuators", JObj [("heater", JObj [("toString", JNull)])])]))
           (correlated (JNum (num_of_Z 7))))
    = [].
Proof.
  split; [|split; [|split]].
  - apply (proj1 (proj2 (control_message_resolves_sensor_id gateway_ok (idle false)
                           control_payload sample_actuators eq_refl eq_refl eq_refl)));
      reflexivity.
  - apply (proj1 (proj2 (proj2 (control_message_resolves_sensor_id gateway_down
                                  (idle false) control_payload sample_actuators
                                  eq_refl eq_refl eq_refl))));
      reflexivity.
  - apply (proj1 (control_message_resolves_sensor_id gateway_down
                    (correlated (JNum (num_of_Z 7)))
                    control_payload sample_actuators eq_refl eq_refl eq_refl)).
    reflexivity.
  - apply (proj1 (control_message_resolves_sensor_id gateway_ok
                    (correlated (JNum (num_of_Z 7)))
                    (JObj [("actuators", JObj [("heater", JObj [("toString", JNull)])])])
                    (JObj [("heater", JObj [("toString", JNull)])])
                    eq_refl eq_refl eq_refl)).
    reflexivity.
Defined.

Lemma warmup_flag_update_witness :
  MqttHandler.isWarmupActive
    (globals (exec (MqttHandler.processControlData gateway_ok control_payload)
                (idle true))) = true /\
  MqttHandler.isWarmupActive
    (globals (exec (MqttHandler.processControlData gateway_ok
                      (control_payload_warmup (JNum MqttHandler.one)))
                (idle false))) = true /\
  (exists v,
     MqttHandler.warmup_field (control_payload_warmup (JNum (num_of_Z 0))) = Some v).
Proof.
  split; [|split].
  - apply (proj1 (warmup_flag_update gateway_ok (idle true) control_payload)
             JUndefined); [reflexivity | left; reflexivity].
  - apply (proj1 (proj2 (warmup_flag_update gateway_ok (idle false)
                           (control_payload_warmup (JNum MqttHandler.one))))
             (JObj [("warmup_active", JNum MqttHandler.one)]) (JNum MqttHandler.one));
      try reflexivity. discriminate.
  - apply (proj1 (proj2 (proj2 (warmup_flag_update gateway_ok (idle true)
                                  (control_payload_warmup (JNum (num_of_Z 0))))))).
    vm_compute. discriminate.
Defined.

(* ================================================================== *)
(** * The calibration routes *)
(* ================================================================== *)

Section CalibrationFacts.

Lemma truthy_not_missing : forall v, truthy v = true -> missing v = false.
Proof. intros [] H; try discriminate; reflexivity. Qed.

Lemma missing_not_truthy : forall v, missing v = true -> truthy v = false.
Proof. intros [] H; try discriminate; reflexivity. Qed.

(** [Server.calibrate_ph], once the two inputs are read from the body. *)
Lemma server_calibrate_run :
  forall (body referencePh currentPh : JsValue) (w : World Server.Globals),
    get body "referencePh" = Normal referencePh ->
    get body "currentPh" = Normal currentPh ->
    Server.calibrate_ph body w =
      if negb (truthy referencePh) || negb (truthy currentPh) then
        (Normal (Some (Http.failure 400 "referencePh dan currentPh diperlukan")), w)
      else if ToString_throws referencePh || ToString_throws currentPh then
        (Normal (Some (Http.failure 500 "Internal server error")),
         calibration_cancelled w)
      else if isNaN (parse_value referencePh) || isNaN (parse_value currentPh) then
        (Normal (Some (Http.failure 400 "Nilai pH harus berupa angka yang valid")), w)
      else if negb (Server.connected (globals w)) then
        (Normal (Some (Http.failure 503 "MQTT client tidak terhubung")), w)
      else if Server.isCalibrating (Server.phCalibrationStatus (globals w)) then
        (Normal (Some (Http.failure 409 "Kalibrasi pH sedang dalam proses")), w)
      else
        (Normal None,
         calibration_started (parse_value referencePh) (parse_value currentPh) w).
Proof.
  intros body referencePh currentPh w Hr Hc.
  unfold Server.calibrate_ph, try_catch, bind at 1, lift at 1. rewrite Hr.
  unfold bind at 1, lift at 1. rewrite Hc.
  destruct (negb (truthy referencePh) || negb (truthy currentPh)); [reflexivity|].
  unfold bind at 1, lift at 1, parseFloat at 1.
  destruct (ToString_throws referencePh); [reflexivity|]. cbn [orb].
  unfold bind at 1, lift at 1, parseFloat at 1.
  destruct (ToString_throws currentPh); [reflexivity|].
  destruct (isNaN (parse_value referencePh) || isNaN (parse_value currentPh));
    [reflexivity|].
  unfold bind at 1, lift at 1. rewrite sanitizeFloatValue_number.
  unfold bind at 1, gets at 1. cbv beta iota.
  destruct (negb (Server.connected (globals w))); [reflexivity|].
  unfold bind at 1, gets at 1. cbv beta iota.
  destruct (Server.isCalibrating (Server.phCalibrationStatus (globals w)));
    reflexivity.
Qed.

(** [Index.calibrate_ph], once the two inputs are read from the body. *)
Lemma index_calibrate_run :
  forall (body referencePh currentPh : JsValue) (w : World Index.Globals),
    get body "referencePh" = Normal referencePh ->
    get body "currentPh" = Normal currentPh ->
    exists response,
      eval (Index.calibrate_ph body) w = Normal response /\
      Http.status response =
        if negb (truthy referencePh) || negb (truthy currentPh) then 400
        else if ToString_throws referencePh || ToString_throws currentPh then 500
        else if isNaN (parse_value referencePh) || isNaN (parse_value currentPh) then 400
        else if negb (Index.connected (globals w)) then 503
        else 200.
Proof.
  intros body referencePh currentPh w Hr Hc.
  unfold eval, Index.calibrate_ph, try_catch, bind at 1, lift at 1. rewrite Hr.
  unfold bind at 1, lift at 1. rewrite Hc.
  destruct (negb (truthy referencePh) || negb (truthy currentPh));
    [eexists; split; reflexivity|].
  unfold bind at 1, lift at 1, parseFloat at 1.
  destruct (ToString_throws referencePh); [eexists; split; reflexivity|]. cbn [orb].
  unfold bind at 1, lift at 1, parseFloat at 1.
  destruct (ToString_throws currentPh); [eexists; split; reflexivity|].
  destruct (isNaN (parse_value referencePh) || isNaN (parse_value currentPh));
    [eexists; split; reflexivity|].
  unfold bind at 1, gets at 1. cbv beta iota.
  destruct (negb (Index.connected (globals w))); eexists; split; reflexivity.
Qed.

Lemma index_calibrate_status :
  forall (body referencePh currentPh : JsValue) (w : World Index.Globals),
    get body "referencePh" = Normal referencePh ->
    get body "currentPh" = Normal currentPh ->
    ToString_throws referencePh || ToString_throws currentPh = false ->
    index_validation_error (eval (Index.calibrate_ph body) w) =
      negb (passes_validation referencePh && passes_validation currentPh).
Proof.
  intros body referencePh currentPh w Hr Hc Ht.
  unfold passes_validation, convertible.
  destruct (index_calibrate_run body referencePh currentPh w Hr Hc) as (r & E & S).
  rewrite E. unfold index_validation_error, is_validation_error. rewrite S, Ht.
  destruct (orb_false_elim _ _ Ht) as [Tr Tc]. rewrite Tr, Tc.
  destruct (truthy referencePh), (truthy currentPh); simpl;
    try (rewrite ?andb_false_r; reflexivity).
  destruct (isNaN (parse_value referencePh)), (isNaN (parse_value currentPh));
    simpl; try reflexivity.
  destruct (Index.connected (globals w)); reflexivity.
Qed.

Lemma server_calibrate_status :
  forall (body referencePh currentPh : JsValue) (w : World Server.Globals),
    get body "referencePh" = Normal referencePh ->
    get body "currentPh" = Normal currentPh ->
    ToString_throws referencePh || ToString_throws currentPh = false ->
    server_validation_error (eval (Server.calibrate_ph body) w) =
      negb (passes_validation referencePh && passes_validation currentPh).
Proof.
  intros body referencePh currentPh w Hr Hc Ht.
  unfold passes_validation, convertible, eval.
  rewrite (server_calibrate_run body referencePh currentPh w Hr Hc), Ht.
  destruct (orb_false_elim _ _ Ht) as [Tr Tc]. rewrite Tr, Tc.
  destruct (truthy referencePh), (truthy currentPh); simpl;
    try (rewrite ?andb_false_r; reflexivity).
  destruct (isNaN (parse_value referencePh)), (isNaN (parse_value currentPh));
    simpl; try reflexivity.
  destruct (Server.connected (globals w)); simpl; [|reflexivity].
  destruct (Server.isCalibrating _); reflexivity.
Qed.

Lemma passes_validation_fails :
  forall v, missing v = true \/ isNaN (parse_value v) = true ->
    passes_validation v = false.
Proof.
  intros v [H|H]; unfold passes_validation.
  - rewrite (missing_not_truthy v H). reflexivity.
  - rewrite H. apply andb_false_r.
Qed.

Lemma missing_convertible : forall v, missing v = true -> ToString_throws v = false.
Proof. intros [] H; try discriminate; reflexivity. Qed.

End CalibrationFacts.

(** C8, as stated, fails.  The string ["Infinity"] does not parse as a
    finite number, yet a request that carries it passes validation: the
    server hands the offset to the MQTT client, and the stateless route
    answers with status 200.  And a request whose first input is not a
    number is answered with status 500, not with the validation error,
    when its second input cannot be converted to a string: both inputs
    are parsed before the first is tested. *)
Lemma calibrate_accepts_infinity :
  let body := calibration_body (JStr "Infinity") (JStr "7") in
  let unparsed := calibration_body (JStr "abc") (JObj [("toString", JNum (num_of_Z 1))]) in
  parseFloat (JStr "Infinity") = Normal Infinity /\
  is_finite Infinity = false /\
  Server.calibrate_ph body (server_world false JNull true) =
    (Normal None,
     calibration_started Infinity (num_of_Z 7) (server_world false JNull true)) /\
  server_validation_error
    (eval (Server.calibrate_ph body) (server_world false JNull true)) = false /\
  Http.status
    (match eval (Index.calibrate_ph body) (index_world true) with
     | Normal r => r
     | Throw _ => Http.failure 500 "thrown"
     end) = 200 /\
  isNaN (parse_value (JStr "abc")) = true /\
  eval (Server.calibrate_ph unparsed) (server_world false JNull true) =
    Normal (Some (Http.failure 500 "Internal server error")) /\
  Http.status
    (match eval (Index.calibrate_ph unparsed) (index_world true) with
     | Normal r => r
     | Throw _ => Http.failure 400 "thrown"
     end) = 500.
Proof. vm_compute. repeat split. Qed.

(** The presence check of the route is a truthiness test, so the number 0
    is answered with status 400 although it is present and finite. *)
Lemma calibrate_rejects_zero :
  let body := calibration_body (JNum pos_zero) (JNum (num_of_Z 7)) in
  server_validation_error
    (eval (Server.calibrate_ph body) (server_world false JNull true)) = true /\
  index_validation_error (eval (Index.calibrate_ph body) (index_world true)) = true.
Proof. vm_compute. split; reflexivity. Qed.

(** C8 (amended): both calibration routes answer with the validation error
    (status 400) whenever an input is missing ([undefined] or [null]), and
    whenever both inputs can be converted to a string and one of them
    parses to NaN; they go past validation whenever both inputs are
    truthy, can be converted and parse to a number other than NaN, finite
    or not.  When both inputs are truthy and one of them cannot be
    converted (an object with a key ["toString"] of its own, an array that
    holds one) the conversion throws and both routes answer with status
    500. *)
Theorem calibrate_validation :
  forall (body referencePh currentPh : JsValue)
         (ws : World Server.Globals) (wi : World Index.Globals),
    get body "referencePh" = Normal referencePh ->
    get body "currentPh" = Normal currentPh ->
    ((missing referencePh = true \/ missing currentPh = true) ->
       server_validation_error (eval (Server.calibrate_ph body) ws) = true /\
       index_validation_error (eval (Index.calibrate_ph body) wi) = true) /\
    (ToString_throws referencePh = false -> ToString_throws currentPh = false ->
     (isNaN (parse_value referencePh) = true \/ isNaN (parse_value currentPh) = true) ->
       server_validation_error (eval (Server.calibrate_ph body) ws) = true /\
       index_validation_error (eval (Index.calibrate_ph body) wi) = true) /\
    (ToString_throws referencePh = false -> ToString_throws currentPh = false ->
     (truthy referencePh = true /\ isNaN (parse_value referencePh) = false /\
      truthy currentPh = true /\ isNaN (parse_value currentPh) = false) ->
       server_validation_error (eval (Server.calibrate_ph body) ws) = false /\
       index_validation_error (eval (Index.calibrate_ph body) wi) = false) /\
    (truthy referencePh = true -> truthy currentPh = true ->
     (ToString_throws referencePh = true \/ ToString_throws currentPh = true) ->
       eval (Server.calibrate_ph body) ws =
         Normal (Some (Http.failure 500 "Internal server error")) /\
       exists response,
         eval (Index.calibrate_ph body) wi = Normal response /\
         Http.status response = 500).
Proof.
  intros body referencePh currentPh ws wi Hr Hc.
  split; [|split; [|split]].
  - intros H.
    assert (Hf : negb (truthy referencePh) || negb (truthy currentPh) = true).
    { destruct H as [H|H]; rewrite (missing_not_truthy _ H);
        [reflexivity|apply orb_true_r]. }
    unfold eval at 1. rewrite (server_calibrate_run body referencePh currentPh ws Hr Hc).
    destruct (index_calibrate_run body referencePh currentPh wi Hr Hc) as (r & E & S).
    rewrite E, Hf. unfold index_validation_error, is_validation_error.
    rewrite S, Hf. split; reflexivity.
  - intros Tr Tc H.
    rewrite (server_calibrate_status body referencePh currentPh ws Hr Hc)
      by (rewrite Tr, Tc; reflexivity).
    rewrite (index_calibrate_status body referencePh currentPh wi Hr Hc)
      by (rewrite Tr, Tc; reflexivity).
    assert (E : passes_validation referencePh && passes_validation currentPh = false).
    { destruct H as [H|H].
      - rewrite (passes_validation_fails referencePh) by (right; exact H). reflexivity.
      - rewrite (passes_validation_fails currentPh) by (right; exact H).
        apply andb_false_r. }
    rewrite E. split; reflexivity.
  - intros Tr Tc (Hr1 & Nr & Hc1 & Nc).
    rewrite (server_calibrate_status body referencePh currentPh ws Hr Hc)
      by (rewrite Tr, Tc; reflexivity).
    rewrite (index_calibrate_status body referencePh currentPh wi Hr Hc)
      by (rewrite Tr, Tc; reflexivity).
    unfold passes_validation, convertible.
    rewrite Tr, Tc, Hr1, Nr, Hc1, Nc. split; reflexivity.
  - intros Tr Tc H.
    assert (Ht : ToString_throws referencePh || ToString_throws currentPh = true)
      by (destruct H as [-> | ->]; [reflexivity|apply orb_true_r]).
    split.
    + unfold eval. rewrite (server_calibrate_run body referencePh currentPh ws Hr Hc).
      rewrite Tr, Tc, Ht. reflexivity.
    + destruct (index_calibrate_run body referencePh currentPh wi Hr Hc) as (r & E & S).
      exists r. split; [exact E|]. rewrite S, Tr, Tc, Ht. reflexivity.
Qed.

Lemma calibrate_validation_witness :
  (server_validation_error
     (eval (Server.calibrate_ph (calibration_body (JStr "abc") (JStr "6.5")))
           (server_world false JNull true)) = true /\
   index_validation_error
     (eval (Index.calibrate_ph (calibration_body (JStr "abc") (JStr "6.5")))
           (index_world true)) = true) /\
  (server_validation_error
     (eval (Server.calibrate_ph (calibration_body (JStr "7.0") (JStr "6.5")))
           (server_world false JNull true)) = false /\
   index_validation_error
     (eval (Index.calibrate_ph (calibration_body (JStr "7.0") (JStr "6.5")))
           (index_world true)) = false) /\
  (server_validation_error
     (eval (Server.calibrate_ph (calibration_body JNull (JObj [("toString", JNull)])))
           (server_world false JNull true)) = true /\
   index_validation_error
     (eval (Index.calibrate_ph (calibration_body JNull (JObj [("toString", JNull)])))
           (index_world true)) = true) /\
  eval (Server.calibrate_ph
          (calibration_body (JStr "7.0") (JArr [JObj [("toString", JNull)]])))
       (server_world false JNull true)
    = Normal (Some (Http.failure 500 "Internal server error")).
Proof.
  split; [|split; [|split]].
  - apply (proj1 (proj2 (calibrate_validation (calibration_body (JStr "abc") (JStr "6.5"))
                    (JStr "abc") (JStr "6.5")
                    (server_world false JNull true) (index_world true)
                    eq_refl eq_refl)) eq_refl eq_refl).
    left. reflexivity.
  - apply (proj1 (proj2 (proj2 (calibrate_validation
                    (calibration_body (JStr "7.0") (JStr "6.5"))
                    (JStr "7.0") (JStr "6.5")
                    (server_world false JNull true) (index_world true)
                    eq_refl eq_refl))) eq_refl eq_refl).
    repeat split; vm_compute; reflexivity.
  - apply (proj1 (calibrate_validation
                    (calibration_body JNull (JObj [("toString", JNull)]))
                    JNull (JObj [("toString", JNull)])
                    (server_world false JNull true) (index_world true)
                    eq_refl eq_refl)).
    left. reflexivity.
  - apply (proj2 (proj2 (proj2 (calibrate_validation
                    (calibration_body (JStr "7.0") (JArr [JObj [("toString", JNull)]]))
                    (JStr "7.0") (JArr [JObj [("toString", JNull)]])
                    (server_world false JNull true) (index_world true)
                    eq_refl eq_refl))) eq_refl eq_refl).
    right. reflexivity.
Defined.




(* ================================================================== *)
(** * The calibration response *)
(* ================================================================== *)

Section CalibrationResponseFacts.
Variable supabase : Client.

Lemma success_flag_readable :
  forall payload, missing payload = false ->
    Server.success_flag payload = Normal (success_of payload).
Proof.
  intros payload H. unfold Server.success_flag, success_of, or_else, field.
  destruct payload; try discriminate; simpl; try reflexivity.
  destruct (lookup "success" fields) as [s|]; simpl.
  - destruct (truthy s); [reflexivity|].
    destruct (lookup "status" fields); reflexivity.
  - destruct (lookup "status" fields); reflexivity.
Qed.

Lemma success_flag_missing :
  forall payload, missing payload = true ->
    Server.success_flag payload = Throw TypeError.
Proof. intros [] H; try discriminate; reflexivity. Qed.

(** What processing a calibration response does when the payload can be
    read: the flag is cleared, the outcome is stored in
    [lastCalibration], one row goes to [calibration_logs], whatever the
    gateway answers nothing is thrown, and [pendingCalibration] stays. *)
Lemma calibration_response_run :
  forall (payload : JsValue) (w : World Server.Globals),
    missing payload = false ->
    Server.processPhCalibrationResponse supabase payload w =
      (Normal tt,
       record_call
         (insert_into "calibration_logs"
            (calibration_log
               (Server.pendingCalibration (Server.phCalibrationStatus (globals w)))
               payload (clock w)))
         {| globals :=
              Server.set_status (calibration_answered payload (clock w)) (globals w);
            calls := calls w;
            clock := clock w |}).
Proof.
  intros payload w H.
  unfold Server.processPhCalibrationResponse, Server.logPhCalibration.
  rewrite (success_flag_readable payload H).
  unfold try_catch, bind, modify, now, lift, gets, await, ret, record_call. simpl.
  match goal with |- context [supabase ?h ?q] => destruct (supabase h q) end;
    reflexivity.
Qed.

Lemma calibration_response_unreadable :
  forall (payload : JsValue) (w : World Server.Globals),
    missing payload = true ->
    Server.processPhCalibrationResponse supabase payload w =
      (Normal tt,
       {| globals := Server.set_status (Server.set_isCalibrating false) (globals w);
          calls := calls w;
          clock := clock w |}).
Proof.
  intros payload w H.
  unfold Server.processPhCalibrationResponse.
  rewrite (success_flag_missing payload H). reflexivity.
Qed.

(** For every payload and every answer of the gateway, processing a
    calibration response returns normally, clears the in-progress flag and
    leaves [pendingCalibration] as it was. *)
Lemma calibration_response_frame :
  forall (payload : JsValue) (w : World Server.Globals),
    let w' := exec (Server.processPhCalibrationResponse supabase payload) w in
    eval (Server.processPhCalibrationResponse supabase payload) w = Normal tt /\
    Server.isCalibrating (Server.phCalibrationStatus (globals w')) = false /\
    Server.pendingCalibration (Server.phCalibrationStatus (globals w')) =
      Server.pendingCalibration (Server.phCalibrationStatus (globals w)).
Proof.
  intros payload w w'. subst w'. unfold eval, exec.
  destruct (missing payload) eqn:H.
  - rewrite calibration_response_unreadable by assumption. repeat split.
  - rewrite calibration_response_run by assumption. repeat split.
Qed.

(** The stored success flag is truthy exactly when [payload.success] is
    truthy or [payload.status] is the string ['success']. *)
Lemma success_of_truthy :
  forall payload,
    truthy (success_of payload) =
      truthy (field payload "success") ||
      strict_equals (field payload "status") (JStr "success").
Proof.
  intros payload. unfold success_of, or_else.
  destruct (truthy (field payload "success")) eqn:E; [exact E|reflexivity].
Qed.

End CalibrationResponseFacts.

(** The publish callback of the route ends a calibration on failure: it
    clears the in-progress flag and the pending request together. *)
Lemma publish_failure_clears_pending :
  forall (err : JsValue) (refPh curPh offset : Number) (w : World Server.Globals),
    truthy err = true ->
    let w' := exec (Server.publish_callback err refPh curPh offset) w in
    Server.isCalibrating (Server.phCalibrationStatus (globals w')) = false /\
    Server.pendingCalibration (Server.phCalibrationStatus (globals w')) = JNull /\
    eval (Server.publish_callback err refPh curPh offset) w =
      Normal (Http.failure 500 "Gagal mengirim offset ke ESP32").
Proof.
  intros err refPh curPh offset w H. unfold Server.publish_callback.
  rewrite H. repeat split.
Qed.

(** C7: the code clears the in-progress flag, stores the outcome with the
    derived success flag and logs it, but it still holds the pending
    calibration request after the response was processed.  Here a
    calibration of reference 7 against 6.5 is in flight and the response
    [{success: true}] arrives. *)
Theorem calibration_response_keeps_pending :
  let w := server_world true sample_pending true in
  let payload := JObj [("success", JBool true)] in
  let w' := exec (Server.processPhCalibrationResponse gateway_ok payload) w in
  eval (Server.processPhCalibrationResponse gateway_ok payload) w = Normal tt /\
  Server.isCalibrating (Server.phCalibrationStatus (globals w')) = false /\
  field (Server.lastCalibration (Server.phCalibrationStatus (globals w'))) "success"
    = JBool true /\
  calls w' = [insert_into "calibration_logs"
                (calibration_log sample_pending payload (clock w))] /\
  Server.pendingCalibration (Server.phCalibrationStatus (globals w')) = sample_pending /\
  sample_pending <> JNull.
Proof.
  vm_compute. repeat split. discriminate.
Qed.

(* ================================================================== *)
(** * Further properties of the validator *)
(* ================================================================== *)

Lemma sanitized_record_ext :
  forall (ks : list string) (a b : JsValue),
    (forall k, In k ks ->
       sanitized (field a k) = sanitized (field b k)) ->
    sanitized_record ks a = sanitized_record ks b.
Proof.
  intros ks a b H. unfold sanitized_record. f_equal.
  apply map_ext_in. intros k Hk. rewrite (H k Hk). reflexivity.
Qed.

Lemma sanitized_field_ext :
  forall (a b : JsValue) (k : string),
    is_keyed_mapping a = true -> is_keyed_mapping b = true ->
    sanitizeFloatValue (field a k) = sanitizeFloatValue (field b k) ->
    sanitized_field a k = sanitized_field b k.
Proof.
  intros a b k Ka Kb H. unfold sanitized_field.
  rewrite !get_keyed_mapping by assumption. simpl. rewrite H. reflexivity.
Qed.

(** X1: a validator reads nothing but its own keys, and each of them only
    through [sanitizeFloatValue]: two objects whose values at these keys
    sanitise to the same numbers give the same record, whatever other keys
    they carry, in whatever order, and whether a value comes as a number or
    as its string. *)
Theorem validators_read_only_their_keys :
  forall a b : JsValue,
    is_keyed_mapping a = true ->
    is_keyed_mapping b = true ->
    ((forall k, In k sensor_keys ->
        sanitizeFloatValue (field a k) = sanitizeFloatValue (field b k)) ->
     validateSensorData a = validateSensorData b) /\
    ((forall k, In k sensor_error_keys ->
        sanitizeFloatValue (field a k) = sanitizeFloatValue (field b k)) ->
     validateSensorErrors a = validateSensorErrors b) /\
    ((forall k, In k actuator_keys ->
        sanitizeFloatValue (field a k) = sanitizeFloatValue (field b k)) ->
     validateActuatorData a = validateActuatorData b).
Proof.
  intros a b Ka Kb.
  assert (Na : not_an_object a = false)
    by (rewrite not_an_object_keyed_mapping, Ka; reflexivity).
  assert (Nb : not_an_object b = false)
    by (rewrite not_an_object_keyed_mapping, Kb; reflexivity).
  repeat split; intros H.
  - unfold validateSensorData. rewrite Na, Nb.
    rewrite !(sanitized_field_ext a b) by (try assumption; apply H; simpl; auto 6).
    reflexivity.
  - unfold validateSensorErrors. rewrite Na, Nb.
    rewrite !(sanitized_field_ext a b) by (try assumption; apply H; simpl; auto 6).
    reflexivity.
  - unfold validateActuatorData. rewrite Na, Nb.
    rewrite !(sanitized_field_ext a b) by (try assumption; apply H; simpl; auto 7).
    reflexivity.
Qed.

Lemma validators_read_only_their_keys_witness :
  validateSensorData
    (JObj [("device", JStr "esp32"); ("pressure", JStr "1015"); ("ph", JStr "6.8");
           ("temp", JNum (lit "30.2")); ("ch4", JNum (num_of_Z 5042))])
  = validateSensorData sample_sensors.
Proof.
  apply (proj1 (validators_read_only_their_keys
                  (JObj [("device", JStr "esp32"); ("pressure", JStr "1015");
                         ("ph", JStr "6.8"); ("temp", JNum (lit "30.2"));
                         ("ch4", JNum (num_of_Z 5042))])
                  sample_sensors eq_refl eq_refl)).
  intros k Hk. simpl in Hk.
  destruct Hk as [<-|[<-|[<-|[<-|[]]]]]; vm_compute; reflexivity.
Defined.

(* ================================================================== *)
(** * Integers pass the validator unchanged *)
(* ================================================================== *)

Section ExactIntegers.

Lemma shr_1_double :
  forall x, 0 <= x ->
    shr_1 {| shr_m := 2 * x; shr_r := false; shr_s := false |} =
    {| shr_m := x; shr_r := false; shr_s := false |}.
Proof. intros [|p|p] H; try lia; reflexivity. Qed.

(** Shifting out bits that are all zero leaves an exact quotient. *)
Lemma iter_shr_1_exact :
  forall p q, 0 <= q ->
    iter_pos shr_1 p {| shr_m := q * 2 ^ Z.pos p; shr_r := false; shr_s := false |} =
    {| shr_m := q; shr_r := false; shr_s := false |}.
Proof.
  induction p as [p IH|p IH|]; intros q H; cbn [iter_pos].
  - assert (Hp : 0 < 2 ^ Z.pos p) by (apply Z.pow_pos_nonneg; lia).
    assert (E : 2 ^ Z.pos p~1 = 2 * (2 ^ Z.pos p * 2 ^ Z.pos p)).
    { rewrite <- Z.pow_add_r, <- Z.pow_succ_r by lia. f_equal. lia. }
    replace (q * 2 ^ Z.pos p~1) with (2 * ((q * 2 ^ Z.pos p) * 2 ^ Z.pos p))
      by (rewrite E; ring).
    rewrite shr_1_double by nia. rewrite IH by nia. apply IH, H.
  - assert (Hp : 0 < 2 ^ Z.pos p) by (apply Z.pow_pos_nonneg; lia).
    assert (E : 2 ^ Z.pos p~0 = 2 ^ Z.pos p * 2 ^ Z.pos p).
    { rewrite <- Z.pow_add_r by lia. f_equal. lia. }
    replace (q * 2 ^ Z.pos p~0) with ((q * 2 ^ Z.pos p) * 2 ^ Z.pos p)
      by (rewrite E; ring).
    rewrite IH by nia. apply IH, H.
  - change (2 ^ 1) with 2. replace (q * 2) with (2 * q) by ring.
    apply shr_1_double, H.
Qed.

(** Rounding a mantissa of 53 significant bits followed by zeros is
    exact. *)
Lemma binary_round_aux_exact :
  forall s q ex n,
    2 ^ 52 <= q < 2 ^ 53 -> 0 <= n -> -1074 <= ex + n <= 970 ->
    binary_round_aux prec emax s (q * 2 ^ n) ex loc_Exact =
      S754_finite s (Z.to_pos q) (ex + n).
Proof.
  intros s q ex n Hq Hn Hr.
  assert (Hp : 0 < 2 ^ n) by (apply Z.pow_pos_nonneg; lia).
  assert (H52 : 0 < 2 ^ 52) by reflexivity.
  assert (Hd : Zdigits2 (q * 2 ^ n) = 53 + n).
  { destruct (q * 2 ^ n) as [|px|px] eqn:E; try nia.
    apply digits2_pos_unique. rewrite <- E.
    replace (53 + n - 1) with (52 + n) by lia.
    rewrite !Z.pow_add_r by lia. nia. }
  unfold binary_round_aux, shr_fexp. rewrite Hd.
  rewrite (fexp_normal (53 + n + ex)) by lia.
  replace (53 + n + ex - 53 - ex) with n by lia.
  assert (Es : shr (shr_record_of_loc (q * 2 ^ n) loc_Exact) ex n =
               ({| shr_m := q; shr_r := false; shr_s := false |}, ex + n)).
  { unfold shr, shr_record_of_loc. destruct n as [|p|p]; try lia.
    - change (2 ^ 0) with 1. rewrite Z.mul_1_r, Z.add_0_r. reflexivity.
    - rewrite iter_shr_1_exact by lia. reflexivity. }
  rewrite Es. cbn [shr_m loc_of_shr_record round_nearest_even].
  destruct q as [|pq|pq]; try lia.
  assert (Hdq : Zdigits2 (Z.pos pq) = 53)
    by (apply digits2_pos_unique; change (53 - 1) with 52; exact Hq).
  rewrite Hdq. rewrite (fexp_normal (53 + (ex + n))) by lia.
  replace (53 + (ex + n) - 53 - (ex + n)) with 0 by lia.
  cbn [shr shr_record_of_loc shr_m Z.to_pos].
  assert (Hle : (ex + n <=? emax - prec) = true)
    by (apply Z.leb_le; unfold emax, prec; lia).
  rewrite Hle. reflexivity.
Qed.

(** The number of an integer of [d <= 53] bits. *)
Lemma binary_round_canonical :
  forall s p d,
    2 ^ (d - 1) <= Z.pos p < 2 ^ d -> d <= 53 ->
    binary_round prec emax s p 0 =
      S754_finite s (Z.to_pos (Z.pos p * 2 ^ (53 - d))) (d - 53).
Proof.
  intros s p d Hb Hd.
  assert (Ed : Z.pos (digits2_pos p) = d) by (apply digits2_pos_unique; exact Hb).
  assert (H1 : 1 <= d) by lia.
  unfold binary_round. rewrite Ed, Z.add_0_r.
  rewrite (fexp_normal d) by lia.
  assert (Hal : exists mz, shl_align p 0 (d - 53) = (mz, d - 53) /\
                           Z.pos mz = Z.pos p * 2 ^ (53 - d)).
  { unfold shl_align. rewrite Z.sub_0_r.
    destruct (d - 53) as [|k|k] eqn:Ek; try lia.
    - exists p. split; [reflexivity|].
      replace (53 - d) with 0 by lia. lia.
    - exists (Pos.iter xO p k). split; [reflexivity|].
      rewrite pos_iter_xO. f_equal. f_equal. lia. }
  destruct Hal as (mz & -> & Emz).
  assert (Hmz : 2 ^ 52 <= Z.pos mz < 2 ^ 53).
  { rewrite Emz. split.
    - replace 52 with ((d - 1) + (53 - d)) by lia.
      rewrite Z.pow_add_r by lia. apply Z.mul_le_mono_nonneg_r; [|lia].
      apply Z.pow_nonneg; lia.
    - replace 53 with (d + (53 - d)) at 2 by lia.
      rewrite Z.pow_add_r by lia. apply Z.mul_lt_mono_pos_r; [|lia].
      apply Z.pow_pos_nonneg; lia. }
  replace (Z.pos mz) with (Z.pos mz * 2 ^ 0) at 1 by (change (2 ^ 0) with 1; lia).
  rewrite (binary_round_aux_exact s (Z.pos mz) (d - 53) 0 Hmz) by lia.
  rewrite Z.add_0_r, <- Emz. reflexivity.
Qed.

(** An integer of at most 53 bits has a number of bits. *)
Lemma bits_of_positive :
  forall p : positive, Z.pos p < 2 ^ 53 ->
    exists d, 2 ^ (d - 1) <= Z.pos p < 2 ^ d /\ 1 <= d <= 53.
Proof.
  intros p Hp. exists (Z.pos (digits2_pos p)).
  pose proof (digits2_pos_bounds p) as Hb. split; [exact Hb|].
  split; [lia|].
  destruct (Z.leb_spec (Z.pos (digits2_pos p)) 53) as [|Hgt]; [assumption|].
  assert (2 ^ 53 <= 2 ^ (Z.pos (digits2_pos p) - 1)) by (apply Z.pow_le_mono_r; lia).
  lia.
Qed.

(** Multiplying an integer by a million is exact below 2^53. *)
Lemma mul_million_exact :
  forall s p,
    Z.pos p * 1000000 < 2 ^ 53 ->
    mul (binary_round prec emax s p 0) million =
      binary_round prec emax s (p * 1000000) 0.
Proof.
  intros s p HN.
  assert (Hp53 : Z.pos p < 2 ^ 53) by lia.
  destruct (bits_of_positive p Hp53) as (d & Hb & Hd).
  assert (HN' : Z.pos (p * 1000000) < 2 ^ 53) by (rewrite Pos2Z.inj_mul; exact HN).
  destruct (bits_of_positive (p * 1000000) HN') as (dN & HbN & HdN).
  rewrite (binary_round_canonical s p d Hb) by lia.
  rewrite (binary_round_canonical s (p * 1000000) dN HbN) by lia.
  rewrite Pos2Z.inj_mul in HbN |- *.
  assert (Hrel : d + 18 < dN).
  { apply (Z.pow_lt_mono_r_iff 2); [lia|lia|].
    replace (d + 18) with ((d - 1) + 19) by lia.
    rewrite Z.pow_add_r by lia. change (2 ^ 19) with 524288. lia. }
  assert (Hq : 2 ^ 52 <= Z.pos p * 1000000 * 2 ^ (53 - dN) < 2 ^ 53).
  { split.
    - replace 52 with ((dN - 1) + (53 - dN)) by lia.
      rewrite Z.pow_add_r by lia. apply Z.mul_le_mono_nonneg_r; [|lia].
      apply Z.pow_nonneg; lia.
    - replace 53 with (dN + (53 - dN)) at 2 by lia.
      rewrite Z.pow_add_r by lia. apply Z.mul_lt_mono_pos_r; [|lia].
      apply Z.pow_pos_nonneg; lia. }
  assert (Ha : 0 < Z.pos p * 2 ^ (53 - d)).
  { apply Z.mul_pos_pos; [lia|apply Z.pow_pos_nonneg; lia]. }
  unfold mul, SFmul. rewrite million_eq, xorb_false_r.
  rewrite Pos2Z.inj_mul, Z2Pos.id by exact Ha.
  replace (Z.pos p * 2 ^ (53 - d) * Z.pos 8589934592000000)
    with ((Z.pos p * 1000000 * 2 ^ (53 - dN)) * 2 ^ (33 - d + dN)).
  - rewrite (binary_round_aux_exact s _ (d - 53 + -33) (33 - d + dN) Hq) by lia.
    f_equal. lia.
  - change (Z.pos 8589934592000000) with (1000000 * 2 ^ 33).
    replace (Z.pos p * 1000000 * 2 ^ (53 - dN) * 2 ^ (33 - d + dN))
      with (Z.pos p * 1000000 * (2 ^ (53 - dN) * 2 ^ (33 - d + dN))) by ring.
    replace (Z.pos p * 2 ^ (53 - d) * (1000000 * 2 ^ 33))
      with (Z.pos p * 1000000 * (2 ^ (53 - d) * 2 ^ 33)) by ring.
    rewrite <- !Z.pow_add_r by lia. f_equal. f_equal. lia.
Qed.

(** Dividing a multiple of a million by a million is exact. *)
Lemma div_million_exact :
  forall s p,
    Z.pos p * 1000000 < 2 ^ 53 ->
    div (binary_round prec emax s (p * 1000000) 0) million =
      binary_round prec emax s p 0.
Proof.
  intros s p HN.
  assert (Hp53 : Z.pos p < 2 ^ 53) by lia.
  destruct (bits_of_positive p Hp53) as (d & Hb & Hd).
  assert (HN' : Z.pos (p * 1000000) < 2 ^ 53) by (rewrite Pos2Z.inj_mul; exact HN).
  destruct (bits_of_positive (p * 1000000) HN') as (dN & HbN & HdN).
  rewrite (binary_round_canonical s p d Hb) by lia.
  rewrite (binary_round_canonical s (p * 1000000) dN HbN) by lia.
  rewrite Pos2Z.inj_mul in HbN |- *.
  assert (Hrel : dN <= d + 20).
  { assert (dN - 1 < d + 20); [|lia].
    apply (Z.pow_lt_mono_r_iff 2); [lia|lia|].
    rewrite Z.pow_add_r by lia. change (2 ^ 20) with 1048576. nia. }
  assert (HqN : 2 ^ 52 <= Z.pos p * 1000000 * 2 ^ (53 - dN) < 2 ^ 53).
  { split.
    - replace 52 with ((dN - 1) + (53 - dN)) by lia.
      rewrite Z.pow_add_r by lia. apply Z.mul_le_mono_nonneg_r; [|lia].
      apply Z.pow_nonneg; lia.
    - replace 53 with (dN + (53 - dN)) at 2 by lia.
      rewrite Z.pow_add_r by lia. apply Z.mul_lt_mono_pos_r; [|lia].
      apply Z.pow_pos_nonneg; lia. }
  assert (Hq : 2 ^ 52 <= Z.pos p * 2 ^ (53 - d) < 2 ^ 53).
  { split.
    - replace 52 with ((d - 1) + (53 - d)) by lia.
      rewrite Z.pow_add_r by lia. apply Z.mul_le_mono_nonneg_r; [|lia].
      apply Z.pow_nonneg; lia.
    - replace 53 with (d + (53 - d)) at 2 by lia.
      rewrite Z.pow_add_r by lia. apply Z.mul_lt_mono_pos_r; [|lia].
      apply Z.pow_pos_nonneg; lia. }
  set (mN := Z.pos p * 1000000 * 2 ^ (53 - dN)) in *.
  unfold div, SFdiv. rewrite million_eq, xorb_false_r.
  assert (HmN : Z.pos (Z.to_pos mN) = mN) by (apply Z2Pos.id; lia).
  rewrite HmN.
  assert (Hda : Zdigits2 mN = 53).
  { rewrite <- HmN. apply digits2_pos_unique. rewrite HmN. exact HqN. }
  unfold SFdiv_core_binary. rewrite Hda.
  change (Zdigits2 (Z.pos 8589934592000000)) with 53.
  replace (53 + (dN - 53) - (53 + -33)) with (dN - 53 + 33) by lia.
  rewrite (fexp_normal (dN - 53 + 33)) by lia.
  replace (IntDef.Z.min (dN - 53 + 33 - 53) (dN - 53 - -33)) with (dN - 53 - 20)
    by (change IntDef.Z.min with Z.min; lia).
  replace (dN - 53 - -33 - (dN - 53 - 20)) with 53 by lia.
  change (IntDef.Z.shiftl mN 53) with (Z.shiftl mN 53).
  rewrite Z.shiftl_mul_pow2 by lia.
  assert (Eq : mN * 2 ^ 53 =
               (Z.pos p * 2 ^ (53 - d) * 2 ^ (20 - dN + d)) * 8589934592000000).
  { subst mN. change 8589934592000000 with (1000000 * 2 ^ 33).
    replace (Z.pos p * 1000000 * 2 ^ (53 - dN) * 2 ^ 53)
      with (Z.pos p * 1000000 * (2 ^ (53 - dN) * 2 ^ 53)) by ring.
    replace (Z.pos p * 2 ^ (53 - d) * 2 ^ (20 - dN + d) * (1000000 * 2 ^ 33))
      with (Z.pos p * 1000000 * (2 ^ (53 - d) * 2 ^ (20 - dN + d) * 2 ^ 33)) by ring.
    rewrite <- !Z.pow_add_r by lia. f_equal. f_equal. lia. }
  change (IntDef.Z.div_eucl (mN * 2 ^ 53) 8589934592000000)
    with (Z.div_eucl (mN * 2 ^ 53) 8589934592000000).
  assert (Ediv : Z.div_eucl (mN * 2 ^ 53) 8589934592000000 =
                 (Z.pos p * 2 ^ (53 - d) * 2 ^ (20 - dN + d), 0)).
  { pose proof (Z.div_eucl_eq (mN * 2 ^ 53) 8589934592000000 ltac:(lia)) as Heq.
    pose proof (Z.mod_pos_bound (mN * 2 ^ 53) 8589934592000000 ltac:(lia)) as Hmod.
    unfold Z.modulo in Hmod.
    destruct (Z.div_eucl (mN * 2 ^ 53) 8589934592000000) as [q r].
    rewrite Eq in Heq.
    assert (r = 0 /\ q = Z.pos p * 2 ^ (53 - d) * 2 ^ (20 - dN + d)) as [-> ->]; [|reflexivity].
    set (Q := Z.pos p * 2 ^ (53 - d) * 2 ^ (20 - dN + d)) in *. nia. }
  rewrite Ediv.
  change (new_location 8589934592000000 0) with loc_Exact.
  rewrite (binary_round_aux_exact s _ (dN - 53 - 20) (20 - dN + d) Hq) by lia.
  f_equal. lia.
Qed.

(** [Math.round] leaves the number of an integer as it is. *)
Lemma Math_round_integer :
  forall s p,
    Z.pos p < 2 ^ 53 ->
    Math_round (binary_round prec emax s p 0) = binary_round prec emax s p 0.
Proof.
  intros s p Hp.
  destruct (bits_of_positive p Hp) as (d & Hb & Hd).
  pose proof (binary_round_canonical s p d Hb ltac:(lia)) as E.
  rewrite E. unfold Math_round.
  destruct (Z.leb_spec 0 (d - 53)) as [H0|H0]; [reflexivity|].
  assert (Hk : 0 < 2 ^ (53 - d)) by (apply Z.pow_pos_nonneg; lia).
  rewrite Z2Pos.id by nia.
  replace (- (d - 53)) with (53 - d) by lia.
  set (k := 2 ^ (53 - d)) in *.
  assert (En : (2 * cond_Zopp s (Z.pos p * k) + k) / (2 * k) = cond_Zopp s (Z.pos p)).
  { destruct s; cbn [cond_Zopp]; symmetry.
    - apply Z.div_unique with (r := k); lia.
    - apply Z.div_unique with (r := k); lia. }
  rewrite En.
  destruct s; cbn [cond_Zopp Z.opp Z.eqb]; rewrite <- E; reflexivity.
Qed.

Lemma sanitize_integer_number :
  forall s p,
    Z.pos p * 1000000 < 2 ^ 53 ->
    sanitized (JNum (binary_round prec emax s p 0)) =
    binary_round prec emax s p 0.
Proof.
  intros s p HN.
  assert (Hp : Z.pos p < 2 ^ 53) by lia.
  destruct (bits_of_positive p Hp) as (d & Hb & Hd).
  pose proof (binary_round_canonical s p d Hb ltac:(lia)) as E.
  assert (Es : sanitized (JNum (binary_round prec emax s p 0)) =
               round6 (binary_round prec emax s p 0)).
  { rewrite E. reflexivity. }
  rewrite Es. unfold round6.
  rewrite (mul_million_exact s p HN).
  rewrite Math_round_integer by (rewrite Pos2Z.inj_mul; exact HN).
  apply div_million_exact, HN.
Qed.

End ExactIntegers.

Lemma sanitize_num_of_Z :
  forall k : Z,
    Z.abs k <= 9007199254 ->
    sanitized (JNum (num_of_Z k)) = num_of_Z k.
Proof.
  intros k Hk.
  destruct k as [|p|p]; [reflexivity| |].
  - apply (sanitize_integer_number false p).
    change (2 ^ 53) with 9007199254740992. lia.
  - apply (sanitize_integer_number true p).
    change (2 ^ 53) with 9007199254740992. lia.
Qed.

(** X2: [sanitizeFloatValue] returns every integer of magnitude at most
    9007199254 (the integers whose product with 10^6 stays below 2^53) as
    the number it was given: scaling by 10^6, [Math.round] and the division
    by 10^6 are all exact on it.  Counts such as 5042 ppm and the actuator
    levels 0..255 are stored unchanged. *)
Theorem sanitize_keeps_integers :
  forall k : Z,
    Z.abs k <= 9007199254 ->
    sanitizeFloatValue (JNum (num_of_Z k)) = Normal (num_of_Z k) /\
    is_finite (num_of_Z k) = true.
Proof.
  intros k Hk.
  split; [rewrite sanitizeFloatValue_number; f_equal; apply sanitize_num_of_Z, Hk|].
  destruct k as [|p|p]; [reflexivity| |].
  - destruct (bits_of_positive p ltac:(lia)) as (d & Hb & Hd).
    unfold num_of_Z, binary_normalize.
    rewrite (binary_round_canonical false p d Hb) by lia. reflexivity.
  - destruct (bits_of_positive p ltac:(lia)) as (d & Hb & Hd).
    unfold num_of_Z, binary_normalize.
    rewrite (binary_round_canonical true p d Hb) by lia. reflexivity.
Qed.

Lemma sanitize_keeps_integers_witness :
  sanitizeFloatValue (JNum (num_of_Z 5042)) = Normal (num_of_Z 5042) /\
  sanitizeFloatValue (JNum (num_of_Z (-255))) = Normal (num_of_Z (-255)).
Proof.
  split.
  - apply (proj1 (sanitize_keeps_integers 5042 ltac:(simpl; lia))).
  - apply (proj1 (sanitize_keeps_integers (-255) ltac:(simpl; lia))).
Defined.

Lemma same_number_eq : forall x y, same_number x y = true -> x = y.
Proof.
  intros [a|a| |s m e] [b|b| |t n f] H; simpl in H; try discriminate.
  - apply eqb_prop in H. congruence.
  - apply eqb_prop in H. congruence.
  - reflexivity.
  - apply andb_prop in H. destruct H as [H He]. apply andb_prop in H.
    destruct H as [Hs Hm]. apply eqb_prop in Hs. apply Pos.eqb_eq in Hm.
    apply Z.eqb_eq in He. congruence.
Qed.

Lemma all_below_iter :
  forall (check : Z -> bool) (n : positive),
    let r := Pos.iter (fun '(ok, k) => (ok && check k, k + 1)) (true, 0) n in
    snd r = Z.pos n /\
    (fst r = true -> forall k, 0 <= k < Z.pos n -> check k = true).
Proof.
  intros check n. induction n using Pos.peano_ind.
  - simpl. split; [reflexivity|]. intros H k Hk. assert (k = 0) by lia. subst k.
    exact H.
  - rewrite Pos.iter_succ. cbv zeta in IHn.
    destruct (Pos.iter _ (true, 0) n) as [ok k0]. simpl in *.
    destruct IHn as [E IH]. subst k0. split; [lia|].
    intros H k Hk. apply andb_prop in H. destruct H as [Hok Hc].
    destruct (Z.eq_dec k (Z.pos n)) as [->|Hne]; [exact Hc|].
    apply IH; [exact Hok|lia].
Qed.

Lemma all_below_spec :
  forall check n, all_below check n = true ->
    forall k, 0 <= k < Z.pos n -> check k = true.
Proof.
  intros check n H. apply (proj2 (all_below_iter check n)). exact H.
Qed.

Lemma two_decimals_checked :
  all_below (fun k => unchanged (decimal k 2) && unchanged (decimal (- k) 2)) 2001 = true.
Proof. vm_compute. reflexivity. Qed.

(** X3: [sanitizeFloatValue] returns every reading written with two
    decimals between -20.00 and 20.00 (the number [parseFloat] reads from
    such a literal; every pH value from 0.00 to 14.00 is one) as the number
    it was given: rounding to six decimals does not move it. *)
Theorem sanitize_keeps_two_decimals :
  forall k : Z,
    Z.abs k <= 2000 ->
    sanitizeFloatValue (JNum (decimal k 2)) = Normal (decimal k 2).
Proof.
  intros k Hk. rewrite sanitizeFloatValue_number. f_equal.
  apply same_number_eq.
  assert (Eu : forall x, unchanged x = same_number (sanitized (JNum x)) x)
    by (intros x; unfold unchanged; rewrite sanitizeFloatValue_number; reflexivity).
  rewrite <- Eu.
  destruct (Z.leb_spec 0 k) as [H0|H0].
  - pose proof (all_below_spec _ _ two_decimals_checked k ltac:(lia)) as H.
    apply andb_prop in H. exact (proj1 H).
  - pose proof (all_below_spec _ _ two_decimals_checked (- k) ltac:(lia)) as H.
    apply andb_prop in H. rewrite Z.opp_involutive in H. exact (proj2 H).
Qed.

Lemma sanitize_keeps_two_decimals_witness :
  decimal 680 2 = lit "6.80" /\
  sanitizeFloatValue (JNum (decimal 680 2)) = Normal (decimal 680 2).
Proof.
  split; [reflexivity|].
  apply (sanitize_keeps_two_decimals 680 ltac:(simpl; lia)).
Defined.

(* ================================================================== *)
(** * Sensor and control messages, one by one and in sequence *)
(* ================================================================== *)

Section SensorMessages.
Import MqttHandler.
Variable supabase : Client.

Lemma get_sensors_keyed :
  forall payload sensors k,
    get payload "sensors" = Normal sensors -> truthy sensors = true ->
    get payload k = Normal (field payload k).
Proof.
  intros payload sensors k H T.
  destruct payload; simpl in *; try discriminate;
    try (inversion H; subst; discriminate).
  destruct (lookup k fields); reflexivity.
Qed.

Lemma truthy_not_keyed_field :
  forall v, truthy v = false -> is_keyed_mapping v = false.
Proof. intros [] H; try discriminate; reflexivity. Qed.

Lemma not_keyed_not_valid :
  forall ks v, is_keyed_mapping v = false -> valid_section ks v = false.
Proof. intros ks v H. unfold valid_section. rewrite H. reflexivity. Qed.

Lemma truthy_not_valid :
  forall ks v, truthy v = false -> valid_section ks v = false.
Proof. intros ks v H. apply not_keyed_not_valid, truthy_not_keyed_field, H. Qed.

(** What [processSensorData] does to the world when warmup is off. *)
Lemma processSensorData_outcome :
  forall payload (w : World Globals),
    isWarmupActive (globals w) = false ->
    let out := sensor_outcome supabase (currentSensorId (globals w)) (calls w) payload in
    exec (processSensorData supabase payload) w =
      {| globals := {| currentSensorId := fst out; isWarmupActive := false |};
         calls := calls w ++ snd out;
         clock := clock w |}.
Proof.
  intros payload [[cur warm] cs ck] Hw out. simpl in Hw. subst warm. subst out.
  unfold sensor_outcome. simpl globals. simpl calls. simpl clock.
  simpl currentSensorId.
  unfold exec, processSensorData, try_catch, bind at 1, gets at 1. simpl.
  unfold bind at 1, lift at 1.
  destruct (get payload "sensors") as [sensors|e] eqn:Es;
    [|simpl; rewrite app_nil_r; reflexivity].
  unfold bind at 1.
  destruct (truthy sensors) eqn:Ts.
  - unfold lift at 1.
    rewrite (get_sensors_keyed payload sensors "sensor_errors" Es Ts).
    destruct (valid_section sensor_keys sensors) eqn:Ks.
    + destruct (truthy (field payload "sensor_errors")) eqn:Te; cbn [andb].
      * unfold bind at 1. rewrite insertSensorData_run by assumption.
        simpl calls. fold (sensor_insert sensors). cbv zeta.
        destruct (truthy (returned_id _)) eqn:Hid.
        -- unfold bind at 1, modify at 1. cbv beta iota.
           destruct (valid_section sensor_error_keys (field payload "sensor_errors")) eqn:Ke.
           ++ rewrite insertSensorErrors_run by assumption.
              unfold record_call. simpl. rewrite <- app_assoc. reflexivity.
           ++ rewrite insertSensorErrors_invalid by assumption. reflexivity.
        -- reflexivity.
      * unfold bind at 1. rewrite insertSensorData_run by assumption.
        simpl calls. fold (sensor_insert sensors). cbv zeta.
        rewrite (truthy_not_valid _ _ Te).
        destruct (truthy (returned_id _)) eqn:Hid; reflexivity.
    + destruct (truthy (field payload "sensor_errors")) eqn:Te; cbn [andb];
        unfold bind at 1; rewrite insertSensorData_invalid by assumption;
        simpl; rewrite app_nil_r; reflexivity.
  - rewrite (truthy_not_valid _ _ Ts). simpl. rewrite app_nil_r. reflexivity.
Qed.

Lemma processSensorData_completes :
  forall payload (w : World Globals),
    eval (processSensorData supabase payload) w =
      if isWarmupActive (globals w) then Normal tt
      else match get payload "sensors" with
           | Normal _ => Normal tt
           | Throw e => Throw e
           end.
Proof.
  intros payload [[cur warm] cs ck].
  unfold eval, processSensorData, try_catch, bind at 1, gets at 1. simpl.
  destruct warm; [reflexivity|].
  unfold bind at 1, lift at 1.
  destruct (get payload "sensors") as [sensors|e] eqn:Es; [|reflexivity].
  unfold bind at 1.
  destruct (truthy sensors) eqn:Ts; [|reflexivity].
  unfold lift at 1.
  rewrite (get_sensors_keyed payload sensors "sensor_errors" Es Ts).
  destruct (truthy (field payload "sensor_errors")); cbn [andb].
  - unfold bind at 1. cbv beta.
    match goal with
    | |- context [insertSensorData supabase sensors ?w0] =>
        destruct (insertSensorData_total supabase sensors w0) as (id & qs & E)
    end.
    rewrite E. destruct (truthy id); [|reflexivity].
    unfold bind at 1, modify at 1. cbv beta iota.
    match goal with
    | |- context [insertSensorErrors supabase id ?se ?w0] =>
        destruct (insertSensorErrors_total supabase id se w0) as (qs' & E')
    end.
    rewrite E'. reflexivity.
  - unfold bind at 1. cbv beta.
    match goal with
    | |- context [insertSensorData supabase sensors ?w0] =>
        destruct (insertSensorData_total supabase sensors w0) as (id & qs & E)
    end.
    rewrite E. destruct (truthy id); reflexivity.
Qed.


(** X4: with warmup off, a sensor message whose [sensors] section is
    valid (an object whose four values can be converted) and whose
    [sensor_errors] section is not (it is missing, [null] or a primitive,
    or it holds a value that cannot be converted) is stored as a reading
    alone: the trace grows by the one insert into [sensors], no row goes
    to [sensor_errors], and the correlation id becomes the returned id
    when the gateway returned one and stays as it was otherwise. *)
Theorem sensors_without_error_margins :
  forall (payload sensors : JsValue) (w : World Globals),
    isWarmupActive (globals w) = false ->
    get payload "sensors" = Normal sensors ->
    valid_section sensor_keys sensors = true ->
    valid_section sensor_error_keys (field payload "sensor_errors") = false ->
    let w' := exec (processSensorData supabase payload) w in
    let id := returned_id (supabase (calls w) (sensor_insert sensors)) in
    eval (processSensorData supabase payload) w = Normal tt /\
    calls w' = calls w ++ [sensor_insert sensors] /\
    currentSensorId (globals w') =
      (if truthy id then id else currentSensorId (globals w)) /\
    isWarmupActive (globals w') = false.
Proof.
  intros payload sensors w Hw Hs Ks Ke w' id. subst w' id.
  rewrite processSensorData_completes, Hw, Hs.
  rewrite (processSensorData_outcome payload w Hw).
  unfold sensor_outcome. rewrite Hs, Ks, Ke. cbv zeta.
  destruct (truthy (returned_id _)); repeat split.
Qed.

(** X5: a section that is not an object never reaches its table.  A
    sensor message whose [sensors] section is missing or is a primitive
    leaves the whole world as it was.  A control message (flag off at the
    gate) whose [actuators] section is truthy but not an object inserts
    nothing; the look-up of the latest reading is still sent when no
    correlation id is known, because the id is resolved before the section
    is validated. *)
Theorem invalid_sections_are_contained :
  forall (payload section : JsValue) (w : World Globals),
    is_keyed_mapping section = false ->
    (get payload "sensors" = Normal section ->
       exec (onMessage supabase "biogas/data/sensors" (Some payload)) w = w) /\
    (get payload "actuators" = Normal section ->
     truthy section = true ->
     warmup_after (globals w) payload = false ->
       let w' := exec (onMessage supabase "biogas/data/control" (Some payload)) w in
       calls w' = calls w ++
         (if truthy (currentSensorId (globals w)) then [] else [latest_sensor_query])).
Proof.
  intros payload section w K. split.
  - intros Hs. rewrite onMessage_sensors.
    destruct (isWarmupActive (globals w)) eqn:Hw.
    + unfold exec. rewrite processSensorData_warmup by assumption. reflexivity.
    + rewrite (processSensorData_outcome payload w Hw).
      unfold sensor_outcome. rewrite Hs, (not_keyed_not_valid _ _ K).
      simpl fst. simpl snd.
      destruct w as [[cur warm] cs ck]. simpl in *. subst warm.
      rewrite app_nil_r. reflexivity.
  - intros Ha Ta Hw w'. subst w'. rewrite onMessage_control.
    rewrite processControlData_run. simpl calls. f_equal.
    unfold control_queries. rewrite Hw, Ha, Ta.
    unfold actuator_insert. rewrite (not_keyed_not_valid _ _ K).
    destruct (truthy (currentSensorId (globals w))); [reflexivity|].
    destruct (truthy (latest_id _)); reflexivity.
Qed.



(** ** Runs of messages *)

Lemma numeric_row_sanitized :
  forall ks v, numeric_row ks (sanitized_record ks v).
Proof.
  intros ks v. split; [apply keys_of_sanitized_record|].
  intros k H. unfold sanitized_record. unfold field at 1.
  rewrite (lookup_map_key (fun k => JNum (sanitized (field v k))) ks k H).
  eexists. split; [reflexivity|apply sanitize_not_nan].
Qed.

Lemma handler_query_sensor_insert :
  forall sensors, handler_query (sensor_insert sensors).
Proof.
  intros sensors. right; left. eexists. split; [reflexivity|].
  apply numeric_row_sanitized.
Qed.

Lemma handler_query_errors_insert :
  forall id e, truthy id = true -> handler_query (sensor_errors_insert id e).
Proof.
  intros id e H. right; right; left. exists id, (sanitized_record sensor_error_keys e).
  split; [reflexivity|]. split; [exact H|apply numeric_row_sanitized].
Qed.

Lemma handler_query_actuator_insert :
  forall a, Forall handler_query (actuator_insert a).
Proof.
  intros a. unfold actuator_insert. destruct (valid_section actuator_keys a); constructor;
    [|constructor].
  right; right; right. eexists. split; [reflexivity|apply numeric_row_sanitized].
Qed.

Lemma latest_not_in_actuator_insert :
  forall a, ~ In latest_sensor_query (actuator_insert a).
Proof.
  intros a. unfold actuator_insert. destruct (valid_section actuator_keys a); simpl.
  - intros [H|[]]. discriminate.
  - intros [].
Qed.

(** One message: the trace grows by queries of the handler; a correlation
    id that is known stays known, and then the latest reading is not
    looked up. *)
Lemma deliver_step :
  forall (w : World Globals) (m : Run.Message),
    exists qs,
      calls (Run.deliver supabase w m) = calls w ++ qs /\
      Forall handler_query qs /\
      (truthy (currentSensorId (globals w)) = true ->
         truthy (currentSensorId (globals (Run.deliver supabase w m))) = true /\
         ~ In latest_sensor_query qs).
Proof.
  intros w [topic [payload|]]; unfold Run.deliver; simpl fst; simpl snd.
  2:{ exists []. rewrite onMessage_unparsed, app_nil_r.
      split; [reflexivity|]. split; [constructor|]. intros H. split; [exact H|intros []]. }
  destruct (String.eqb topic "biogas/data/sensors") eqn:Et.
  - apply String.eqb_eq in Et. subst topic. rewrite onMessage_sensors.
    destruct (isWarmupActive (globals w)) eqn:Hw.
    + unfold exec. rewrite processSensorData_warmup by assumption. simpl.
      exists []. rewrite app_nil_r. split; [reflexivity|]. split; [constructor|].
      intros H. split; [exact H|intros []].
    + rewrite (processSensorData_outcome payload w Hw). simpl.
      eexists. split; [reflexivity|].
      unfold sensor_outcome.
      destruct (get payload "sensors") as [sensors|e]; simpl.
      2:{ split; [constructor|]. intros H. split; [exact H|intros []]. }
      destruct (valid_section sensor_keys sensors); simpl.
      2:{ split; [constructor|]. intros H. split; [exact H|intros []]. }
      destruct (truthy (returned_id _)) eqn:Hid; simpl.
      * split.
        -- constructor; [apply handler_query_sensor_insert|].
           destruct (valid_section sensor_error_keys (field payload "sensor_errors"));
             constructor; [|constructor].
           apply handler_query_errors_insert, Hid.
        -- intros _. split; [exact Hid|].
           destruct (valid_section sensor_error_keys (field payload "sensor_errors")); simpl;
             intros H; repeat (destruct H as [H|H]; try discriminate); exact H.
      * split.
        -- constructor; [apply handler_query_sensor_insert|constructor].
        -- intros H. split; [exact H|]. intros [H'|[]]. discriminate.
  - destruct (String.eqb topic "biogas/data/control") eqn:Ec.
    + apply String.eqb_eq in Ec. subst topic. rewrite onMessage_control.
      rewrite processControlData_run. simpl.
      eexists. split; [reflexivity|].
      unfold control_queries.
      destruct (warmup_after (globals w) payload).
      { split; [constructor|]. intros H. split; [exact H|intros []]. }
      destruct (get payload "actuators") as [actuators|e].
      2:{ split; [constructor|]. intros H. split; [exact H|intros []]. }
      destruct (truthy actuators).
      2:{ split; [constructor|]. intros H. split; [exact H|intros []]. }
      destruct (truthy (currentSensorId (globals w))) eqn:Hc.
      * split; [apply handler_query_actuator_insert|].
        intros _. split; [reflexivity|apply latest_not_in_actuator_insert].
      * split; [|intros; discriminate].
        constructor; [left; reflexivity|].
        destruct (truthy (latest_id _));
          [apply handler_query_actuator_insert|constructor].
    + exists []. unfold onMessage, exec, try_catch. rewrite Et, Ec. simpl.
      rewrite app_nil_r. split; [reflexivity|]. split; [constructor|].
      intros H. split; [exact H|intros []].
Qed.

(** X8: whatever messages arrive, in whatever order and whatever the
    gateway answers, the listener only ever adds to the trace, and what it
    adds is the look-up of the latest reading or an insert into [sensors],
    [sensor_errors] or [actuators] of a row with exactly the keys of its
    validator, every value a number other than NaN; a row of
    [sensor_errors] always carries a truthy [sensor_id]. *)
Theorem runs_send_only_handler_queries :
  forall (ms : list Run.Message) (w : World Globals),
    exists qs,
      calls (Run.messages supabase ms w) = calls w ++ qs /\
      Forall handler_query qs.
Proof.
  intros ms. induction ms as [|m ms IH]; intros w.
  - exists []. simpl. rewrite app_nil_r. split; [reflexivity|constructor].
  - change (Run.messages supabase (m :: ms) w)
      with (Run.messages supabase ms (Run.deliver supabase w m)).
    destruct (deliver_step w m) as (qs1 & E1 & F1 & _).
    destruct (IH (Run.deliver supabase w m)) as (qs2 & E2 & F2).
    exists (qs1 ++ qs2). rewrite E2, E1, app_assoc.
    split; [reflexivity|]. apply Forall_app. split; assumption.
Qed.

(** X9: a correlation id that is known stays known: over any sequence of
    messages [currentSensorId] remains truthy once it is, and the look-up of
    the latest reading is never sent again. *)
Theorem known_sensor_id_is_never_looked_up :
  forall (ms : list Run.Message) (w : World Globals),
    truthy (currentSensorId (globals w)) = true ->
    truthy (currentSensorId (globals (Run.messages supabase ms w))) = true /\
    exists qs,
      calls (Run.messages supabase ms w) = calls w ++ qs /\
      ~ In latest_sensor_query qs.
Proof.
  intros ms. induction ms as [|m ms IH]; intros w H.
  - simpl. split; [exact H|]. exists []. rewrite app_nil_r.
    split; [reflexivity|intros []].
  - change (Run.messages supabase (m :: ms) w)
      with (Run.messages supabase ms (Run.deliver supabase w m)).
    destruct (deliver_step w m) as (qs1 & E1 & _ & K).
    destruct (K H) as [H1 N1].
    destruct (IH (Run.deliver supabase w m) H1) as (H2 & qs2 & E2 & N2).
    split; [exact H2|]. exists (qs1 ++ qs2).
    rewrite E2, E1, app_assoc.
    split; [reflexivity|]. intros Hin. apply in_app_or in Hin.
    destruct Hin; [apply N1|apply N2]; assumption.
Qed.

Lemma deliver_during_warmup :
  forall (w : World Globals) (m : Run.Message),
    isWarmupActive (globals w) = true ->
    ends_warmup m = false ->
    Run.deliver supabase w m = w.
Proof.
  intros w [topic [payload|]] Hw He; unfold Run.deliver; simpl fst; simpl snd;
    [|apply onMessage_unparsed].
  unfold ends_warmup in He. simpl in He.
  destruct (String.eqb topic "biogas/data/sensors") eqn:Et.
  - apply String.eqb_eq in Et. subst topic. rewrite onMessage_sensors.
    unfold exec. rewrite processSensorData_warmup by assumption. reflexivity.
  - destruct (String.eqb topic "biogas/data/control") eqn:Ec.
    + apply String.eqb_eq in Ec. subst topic. rewrite onMessage_control.
      rewrite processControlData_run.
      assert (Ha : warmup_after (globals w) payload = true).
      { unfold warmup_after. simpl in He.
        destruct (warmup_field payload) as [v|]; [|exact Hw].
        destruct (strict_equals v (JNum one)); [reflexivity|discriminate]. }
      unfold control_queries. rewrite Ha.
      destruct w as [[cur warm] cs ck]. simpl in *. subst warm.
      rewrite app_nil_r. reflexivity.
    + unfold onMessage, exec, try_catch. rewrite Et, Ec. reflexivity.
Qed.

Lemma deliver_ends_warmup :
  forall (w : World Globals) (m : Run.Message),
    ends_warmup m = true ->
    isWarmupActive (globals (Run.deliver supabase w m)) = false.
Proof.
  intros w [topic [payload|]] He; unfold ends_warmup in He; simpl in He;
    [|rewrite andb_false_r in He; discriminate].
  apply andb_prop in He. destruct He as [Et He].
  apply String.eqb_eq in Et. subst topic.
  unfold Run.deliver. simpl fst. simpl snd.
  rewrite onMessage_control, processControlData_run. simpl.
  unfold warmup_after.
  destruct (warmup_field payload) as [v|]; [|discriminate].
  destruct (strict_equals v (JNum one)); [discriminate|reflexivity].
Qed.

(** X10: warmup lasts until a control message ends it.  While the flag is
    set, any sequence of messages none of which is a control message
    carrying a [warmup_active] other than 1 (sensor messages, control
    messages without the field or with the value 1, other topics, texts
    that do not parse) leaves the world exactly as it was; the first
    control message that carries another value clears the flag. *)
Theorem warmup_lasts_until_it_is_ended :
  forall (ms : list Run.Message) (m : Run.Message) (w : World Globals),
    isWarmupActive (globals w) = true ->
    (forall m', In m' ms -> ends_warmup m' = false) ->
    Run.messages supabase ms w = w /\
    (ends_warmup m = true ->
     isWarmupActive (globals (Run.messages supabase (ms ++ [m]) w)) = false).
Proof.
  intros ms m w Hw H.
  assert (E : Run.messages supabase ms w = w).
  { clear m. revert w Hw H. induction ms as [|m ms IH]; intros w Hw H; [reflexivity|].
    change (Run.messages supabase (m :: ms) w)
      with (Run.messages supabase ms (Run.deliver supabase w m)).
    rewrite (deliver_during_warmup w m Hw) by (apply H; left; reflexivity).
    apply IH; [exact Hw|]. intros m' Hin. apply H. right. exact Hin. }
  split; [exact E|]. intros He.
  unfold Run.messages in *. rewrite fold_left_app, E. simpl.
  apply deliver_ends_warmup, He.
Qed.

(** X11: the listener returns normally for every topic and every message.
    For the payloads [null] and [undefined] both handlers throw a
    TypeError (they rethrow what they catch), and the listener absorbs it:
    the world is as it was. *)
Theorem listener_absorbs_failures :
  forall (topic : string) (message : option JsValue) (w : World Globals),
    eval (onMessage supabase topic message) w = Normal tt /\
    (forall payload,
       message = Some payload -> missing payload = true ->
       isWarmupActive (globals w) = false ->
       eval (processSensorData supabase payload) w = Throw TypeError /\
       eval (processControlData supabase payload) w = Throw TypeError /\
       exec (onMessage supabase topic message) w = w).
Proof.
  intros topic message w. split.
  - unfold eval, onMessage, try_catch.
    match goal with |- fst (match ?b with _ => _ end) = _ => destruct b as [[[]|e] w'] end;
      reflexivity.
  - intros payload -> Hm Hw.
    assert (Hs : forall k, get payload k = Throw TypeError)
      by (intros k; destruct payload; try discriminate; reflexivity).
    split; [|split].
    + rewrite processSensorData_completes, Hw, Hs. reflexivity.
    + unfold eval, processControlData, try_catch, bind at 1, lift at 1.
      rewrite Hs. reflexivity.
    + destruct (String.eqb topic "biogas/data/sensors") eqn:Et.
      * apply String.eqb_eq in Et. subst topic. rewrite onMessage_sensors.
        rewrite (processSensorData_outcome payload w Hw).
        unfold sensor_outcome. rewrite Hs. simpl.
        destruct w as [[cur warm] cs ck]. simpl in *. subst warm.
        rewrite app_nil_r. reflexivity.
      * destruct (String.eqb topic "biogas/data/control") eqn:Ec.
        -- apply String.eqb_eq in Ec. subst topic. rewrite onMessage_control.
           rewrite processControlData_run.
           unfold control_queries, warmup_after, warmup_field. rewrite !Hs, Hw.
           destruct w as [[cur warm] cs ck]. simpl in *. subst warm.
           rewrite app_nil_r. reflexivity.
        -- unfold onMessage, exec, try_catch. rewrite Et, Ec. reflexivity.
Qed.

End SensorMessages.

Lemma sensors_without_error_margins_witness :
  let payload :=
    JObj [("sensors", sample_sensors);
          ("sensor_errors", JObj [("ph_error", JObj [("toString", JNull)])])] in
  let w' := exec (MqttHandler.processSensorData gateway_ok payload) (idle false) in
  calls w' = [sensor_insert sample_sensors] /\
  MqttHandler.currentSensorId (globals w') = JNum (num_of_Z 42).
Proof.
  destruct (sensors_without_error_margins gateway_ok
              (JObj [("sensors", sample_sensors);
                     ("sensor_errors", JObj [("ph_error", JObj [("toString", JNull)])])])
              sample_sensors (idle false)
              eq_refl eq_refl eq_refl eq_refl) as (_ & Hc & Hi & _).
  split; [exact Hc|exact Hi].
Defined.

Lemma invalid_sections_are_contained_witness :
  exec (MqttHandler.onMessage gateway_ok "biogas/data/sensors"
          (Some (JObj [("sensors", JStr "offline")]))) (idle false) = idle false /\
  calls (exec (MqttHandler.onMessage gateway_ok "biogas/data/control"
                 (Some (JObj [("actuators", JStr "offline")]))) (idle false))
    = [latest_sensor_query].
Proof.
  split.
  - apply (proj1 (invalid_sections_are_contained gateway_ok
                    (JObj [("sensors", JStr "offline")]) (JStr "offline")
                    (idle false) eq_refl)).
    reflexivity.
  - apply (proj2 (invalid_sections_are_contained gateway_ok
                    (JObj [("actuators", JStr "offline")]) (JStr "offline")
                    (idle false) eq_refl));
      reflexivity.
Defined.



Lemma known_sensor_id_is_never_looked_up_witness :
  truthy (MqttHandler.currentSensorId
            (globals (Run.messages gateway_ok
                        [("biogas/data/control", Some control_payload);
                         ("biogas/data/sensors", Some sensor_payload);
                         ("biogas/data/control", Some control_payload)]
                        (correlated (JNum (num_of_Z 7)))))) = true.
Proof.
  apply (proj1 (known_sensor_id_is_never_looked_up gateway_ok
                  [("biogas/data/control", Some control_payload);
                   ("biogas/data/sensors", Some sensor_payload);
                   ("biogas/data/control", Some control_payload)]
                  (correlated (JNum (num_of_Z 7))) eq_refl)).
Defined.

Lemma warmup_lasts_until_it_is_ended_witness :
  let ms := [("biogas/data/sensors", Some sensor_payload);
             ("biogas/data/control", Some control_payload)] in
  let m := ("biogas/data/control",
            Some (control_payload_warmup (JNum (num_of_Z 0)))) in
  Run.messages gateway_ok ms (idle true) = idle true /\
  MqttHandler.isWarmupActive
    (globals (Run.messages gateway_ok (ms ++ [m]) (idle true))) = false.
Proof.
  destruct (warmup_lasts_until_it_is_ended gateway_ok
              [("biogas/data/sensors", Some sensor_payload);
               ("biogas/data/control", Some control_payload)]
              ("biogas/data/control",
               Some (control_payload_warmup (JNum (num_of_Z 0))))
              (idle true) eq_refl) as [H1 H2].
  - intros m' [<-|[<-|[]]]; reflexivity.
  - split; [exact H1|apply H2; reflexivity].
Defined.

Lemma listener_absorbs_failures_witness :
  eval (MqttHandler.processSensorData gateway_ok JNull) (idle false) = Throw TypeError /\
  exec (MqttHandler.onMessage gateway_ok "biogas/data/sensors" (Some JNull)) (idle false)
    = idle false.
Proof.
  destruct (proj2 (listener_absorbs_failures gateway_ok "biogas/data/sensors"
                     (Some JNull) (idle false))
              JNull eq_refl eq_refl eq_refl) as (H1 & _ & H3).
  split; [exact H1|exact H3].
Defined.

(* ================================================================== *)
(** * The server: telemetry, requests and responses in sequence *)
(* ================================================================== *)

Section ServerRuns.
Variable supabase : Client.

Lemma server_world_eta :
  forall (w : World Server.Globals) (qs : list Query),
    qs = [] ->
    {| globals := Server.set_currentSensorId (Server.currentSensorId (globals w)) (globals w);
       calls := calls w ++ qs; clock := clock w |} = w.
Proof.
  intros [[cur st con pub] cs ck] qs ->. simpl. rewrite app_nil_r. reflexivity.
Qed.

(** What [Server.processSensorData] does to the world. *)
Lemma server_processSensorData_outcome :
  forall payload (w : World Server.Globals),
    let out := sensor_outcome supabase (Server.currentSensorId (globals w)) (calls w) payload in
    exec (Server.processSensorData supabase payload) w =
      {| globals := Server.set_currentSensorId (fst out) (globals w);
         calls := calls w ++ snd out;
         clock := clock w |}.
Proof.
  intros payload w out. subst out.
  unfold sensor_outcome.
  unfold exec, Server.processSensorData, try_catch.
  unfold bind at 1, lift at 1.
  destruct (get payload "sensors") as [sensors|e] eqn:Es;
    [|simpl; symmetry; apply server_world_eta; reflexivity].
  unfold bind at 1.
  destruct (truthy sensors) eqn:Ts.
  - unfold lift at 1.
    rewrite (get_sensors_keyed payload sensors "sensor_errors" Es Ts).
    destruct (valid_section sensor_keys sensors) eqn:Ks.
    + destruct (truthy (field payload "sensor_errors")) eqn:Te; cbn [andb].
      * unfold bind at 1. rewrite insertSensorData_run by assumption.
        fold (sensor_insert sensors). cbv zeta.
        destruct (truthy (returned_id _)) eqn:Hid.
        -- unfold bind at 1, modify at 1. cbv beta iota.
           destruct (valid_section sensor_error_keys (field payload "sensor_errors")) eqn:Ke.
           ++ rewrite insertSensorErrors_run by assumption.
              unfold record_call. simpl. rewrite <- app_assoc. reflexivity.
           ++ rewrite insertSensorErrors_invalid by assumption. reflexivity.
        -- simpl. unfold record_call.
           destruct w as [[cur st con pub] cs ck]. reflexivity.
      * unfold bind at 1. rewrite insertSensorData_run by assumption.
        fold (sensor_insert sensors). cbv zeta.
        rewrite (truthy_not_valid _ _ Te).
        destruct (truthy (returned_id _)) eqn:Hid; simpl; unfold record_call;
          destruct w as [[cur st con pub] cs ck]; reflexivity.
    + destruct (truthy (field payload "sensor_errors")) eqn:Te; cbn [andb];
        unfold bind at 1; rewrite insertSensorData_invalid by assumption;
        simpl; symmetry; apply server_world_eta; reflexivity.
  - rewrite (truthy_not_valid _ _ Ts). simpl.
    symmetry; apply server_world_eta; reflexivity.
Qed.

Lemma server_insertActuatorData_calls :
  forall sensorId actuators (w : World Server.Globals),
    insertActuatorData supabase sensorId actuators w =
      (Normal tt,
       {| globals := globals w;
          calls := calls w ++ actuator_insert actuators;
          clock := clock w |}).
Proof.
  intros sensorId actuators [g cs ck]. unfold actuator_insert.
  destruct (valid_section actuator_keys actuators) eqn:H.
  - rewrite insertActuatorData_run by assumption. reflexivity.
  - rewrite insertActuatorData_invalid by assumption. simpl.
    rewrite app_nil_r. reflexivity.
Qed.

(** What [Server.processControlData] does to the world. *)
Lemma server_processControlData_run :
  forall payload (w : World Server.Globals),
    exec (Server.processControlData supabase payload) w =
      {| globals := globals w;
         calls := calls w ++
           server_control_queries supabase (Server.currentSensorId (globals w))
             (calls w) payload;
         clock := clock w |}.
Proof.
  intros payload [g cs ck].
  unfold exec, Server.processControlData, server_control_queries, try_catch.
  unfold bind at 1, lift at 1. simpl globals. simpl calls. simpl clock.
  destruct (get payload "actuators") as [actuators|e]; simpl;
    [|rewrite app_nil_r; reflexivity].
  destruct (truthy actuators); simpl; [|rewrite app_nil_r; reflexivity].
  unfold bind at 1, gets at 1. simpl.
  destruct (truthy (Server.currentSensorId g)) eqn:Hc; simpl.
  - unfold bind at 1, ret at 1. rewrite Hc.
    rewrite server_insertActuatorData_calls. reflexivity.
  - unfold bind at 1. rewrite getLatestSensorId_run. simpl.
    destruct (truthy (latest_id _)); simpl.
    + rewrite server_insertActuatorData_calls. simpl.
      rewrite <- app_assoc. reflexivity.
    + reflexivity.
Qed.

Lemma exec_try_catch_ret :
  forall (G A : Type) (m : M G A) (a : A) (w : World G),
    exec (try_catch m (fun _ => ret a)) w = exec m w.
Proof.
  intros G A m a w. unfold exec, try_catch, ret.
  destruct (m w) as [[x|e] w']; reflexivity.
Qed.

Lemma server_onMessage_exec :
  forall topic payload (w : World Server.Globals),
    exec (Server.onMessage supabase topic (Some payload)) w =
      if String.eqb topic "biogas/data/sensors"
      then exec (Server.processSensorData supabase payload) w
      else if String.eqb topic "biogas/data/control"
      then exec (Server.processControlData supabase payload) w
      else if String.eqb topic "biogas/ph_calibration/response"
      then exec (Server.processPhCalibrationResponse supabase payload) w
      else w.
Proof.
  intros topic payload w. unfold Server.onMessage.
  rewrite exec_try_catch_ret.
  destruct (String.eqb topic "biogas/data/sensors"); [reflexivity|].
  destruct (String.eqb topic "biogas/data/control"); [reflexivity|].
  destruct (String.eqb topic "biogas/ph_calibration/response"); reflexivity.
Qed.

Lemma control_queries_without_warmup :
  forall (g : MqttHandler.Globals) history payload,
    warmup_after g payload = false ->
    control_queries supabase g history payload =
    server_control_queries supabase (MqttHandler.currentSensorId g) history payload.
Proof.
  intros g history payload H. unfold control_queries, server_control_queries.
  rewrite H. reflexivity.
Qed.

(** X12: outside warmup the two variants of the handler do the same to the
    store.  Started from the same correlation id and the same trace, the
    server (which has no warmup flag) and the gated handler with its flag
    off send the same queries and end with the same correlation id, for
    every sensor message, every control message that leaves the flag off,
    every other topic and every text that does not parse; the server's
    calibration status is not touched by any of them. *)
Theorem variants_agree_outside_warmup :
  forall (topic : string) (message : option JsValue)
         (ws : World Server.Globals) (wm : World MqttHandler.Globals),
    same_view ws wm ->
    String.eqb topic "biogas/ph_calibration/response" = false ->
    (forall payload,
       topic = "biogas/data/control" -> message = Some payload ->
       warmup_after (globals wm) payload = false) ->
    same_view (exec (Server.onMessage supabase topic message) ws)
              (exec (MqttHandler.onMessage supabase topic message) wm) /\
    Server.phCalibrationStatus (globals (exec (Server.onMessage supabase topic message) ws))
      = Server.phCalibrationStatus (globals ws).
Proof.
  intros topic [payload|] ws wm (Hc & Hq & Hw) Ht Hp;
    [|split; [repeat split; assumption|reflexivity]].
  rewrite server_onMessage_exec, Ht.
  destruct (String.eqb topic "biogas/data/sensors") eqn:Es.
  - apply String.eqb_eq in Es. subst topic. rewrite onMessage_sensors.
    rewrite server_processSensorData_outcome.
    rewrite (processSensorData_outcome supabase payload wm Hw).
    rewrite Hc, Hq. unfold same_view. simpl. repeat split.
  - destruct (String.eqb topic "biogas/data/control") eqn:Ec.
    + apply String.eqb_eq in Ec. subst topic. rewrite onMessage_control.
      rewrite server_processControlData_run, processControlData_run.
      rewrite (control_queries_without_warmup _ _ _ (Hp payload eq_refl eq_refl)).
      rewrite Hq. unfold same_view. simpl. rewrite Hc.
      repeat split. exact (Hp payload eq_refl eq_refl).
    + unfold MqttHandler.onMessage, exec, try_catch. rewrite Es, Ec.
      split; [repeat split; assumption|reflexivity].
Qed.


Lemma get_readable :
  forall v k, missing v = false -> get v k = Normal (field v k).
Proof.
  intros [] k H; try discriminate; simpl; try reflexivity.
  destruct (lookup k fields); reflexivity.
Qed.

Lemma get_unreadable :
  forall v k, missing v = true -> get v k = Throw TypeError.
Proof. intros [] k H; try discriminate; reflexivity. Qed.

(** [Server.calibrate_ph] on a request without a body. *)
Lemma server_calibrate_unreadable :
  forall (body : JsValue) (w : World Server.Globals),
    missing body = true ->
    Server.calibrate_ph body w =
      (Normal (Some (Http.failure 500 "Internal server error")),
       {| globals :=
            Server.set_status (Server.set_pendingCalibration JNull)
              (Server.set_status (Server.set_isCalibrating false) (globals w));
          calls := calls w;
          clock := clock w |}).
Proof.
  intros body w H. unfold Server.calibrate_ph, try_catch, bind at 1, lift at 1.
  rewrite (get_unreadable body "referencePh" H). reflexivity.
Qed.

Lemma passes_validation_inv :
  forall v, passes_validation v = true ->
    truthy v = true /\ ToString_throws v = false /\ isNaN (parse_value v) = false.
Proof.
  intros v H. unfold passes_validation, convertible in H.
  destruct (truthy v); [|discriminate].
  destruct (ToString_throws v); [discriminate|].
  destruct (isNaN (parse_value v)); [discriminate|]. repeat split.
Qed.

(** An accepted request. *)
Lemma server_calibrate_accepted :
  forall (body referencePh currentPh : JsValue) (w : World Server.Globals),
    get body "referencePh" = Normal referencePh ->
    get body "currentPh" = Normal currentPh ->
    passes_validation referencePh = true ->
    passes_validation currentPh = true ->
    Server.connected (globals w) = true ->
    Server.isCalibrating (Server.phCalibrationStatus (globals w)) = false ->
    Server.calibrate_ph body w =
      (Normal None,
       calibration_started (parse_value referencePh) (parse_value currentPh) w).
Proof.
  intros body referencePh currentPh w Hr Hc Pr Pc Hcon Hidle.
  rewrite (server_calibrate_run body referencePh currentPh w Hr Hc).
  destruct (passes_validation_inv _ Pr) as (Tr & Cr & Nr).
  destruct (passes_validation_inv _ Pc) as (Tc & Cc & Nc).
  rewrite Tr, Tc, Cr, Cc, Nr, Nc, Hcon, Hidle. reflexivity.
Qed.

(** X13: an accepted calibration request (both inputs pass validation, the
    MQTT client is connected, no calibration is in progress) is answered by
    the publish callback, not by the route; it publishes exactly one
    message, on [biogas/ph_offset] with QoS 1, whose text is the JSON of
    [sanitizeFloatValue(refPh - curPh)] as [offset] with the two parsed
    inputs beside it: a number that is not finite is written [null] there.
    The offset itself is held in the pending request; it is never NaN;
    and the gateway is not used. *)
Theorem calibration_request_publishes_offset :
  forall (body referencePh currentPh : JsValue) (w : World Server.Globals),
    get body "referencePh" = Normal referencePh ->
    get body "currentPh" = Normal currentPh ->
    passes_validation referencePh = true ->
    passes_validation currentPh = true ->
    Server.connected (globals w) = true ->
    Server.isCalibrating (Server.phCalibrationStatus (globals w)) = false ->
    let w' := exec (Server.calibrate_ph body) w in
    exists refPh curPh offset,
      parseFloat referencePh = Normal refPh /\
      parseFloat currentPh = Normal curPh /\
      sanitizeFloatValue (JNum (sub refPh curPh)) = Normal offset /\
      eval (Server.calibrate_ph body) w = Normal None /\
      (exists p,
         Server.published (globals w') = Server.published (globals w) ++ [p] /\
         Mqtt.topic p = "biogas/ph_offset" /\ Mqtt.qos p = 1 /\
         field (Mqtt.payload p) "offset" = JSON_stringify (JNum offset) /\
         field (Mqtt.payload p) "reference_ph" = JSON_stringify (JNum refPh) /\
         field (Mqtt.payload p) "current_ph" = JSON_stringify (JNum curPh) /\
         (is_finite offset = false -> field (Mqtt.payload p) "offset" = JNull)) /\
      field (Server.pendingCalibration (Server.phCalibrationStatus (globals w'))) "offset"
        = JNum offset /\
      is_nan offset = false /\
      calls w' = calls w.
Proof.
  intros body referencePh currentPh w Hr Hc Pr Pc Hcon Hidle w'.
  subst w'. unfold eval, exec.
  rewrite (server_calibrate_accepted body referencePh currentPh w Hr Hc Pr Pc Hcon Hidle).
  destruct (passes_validation_inv _ Pr) as (Tr & Cr & Nr).
  destruct (passes_validation_inv _ Pc) as (Tc & Cc & Nc).
  exists (parse_value referencePh), (parse_value currentPh),
    (sanitized (JNum (sub (parse_value referencePh) (parse_value currentPh)))).
  split; [unfold parseFloat; rewrite Cr; reflexivity|].
  split; [unfold parseFloat; rewrite Cc; reflexivity|].
  split; [apply sanitizeFloatValue_number|].
  split; [reflexivity|]. split.
  - eexists. split; [reflexivity|].
    split; [reflexivity|]. split; [reflexivity|].
    cbn [calibration_started globals Server.publish Server.published Mqtt.payload].
    pose proof (sanitize_not_nan
                  (JNum (sub (parse_value referencePh) (parse_value currentPh)))) as Hn.
    destruct (sanitized (JNum (sub (parse_value referencePh) (parse_value currentPh))))
      as [s|s| |s m e];
      destruct (parse_value referencePh) as [sr|sr| |sr mr er];
      destruct (parse_value currentPh) as [sc|sc| |sc mc ec];
      try discriminate;
      repeat split; intros; try reflexivity; discriminate.
  - split; [reflexivity|]. split; [apply sanitize_not_nan|reflexivity].
Qed.

(** X14: a request without a body ([req.body] is [undefined] or [null])
    ends in the [catch] of the route: it is answered with status 500, and
    the in-progress flag and the pending request are reset whatever they
    were, also when a calibration started by another request is in
    progress; nothing is published. *)
Theorem unreadable_request_cancels_calibration :
  forall (body : JsValue) (w : World Server.Globals),
    missing body = true ->
    let w' := exec (Server.calibrate_ph body) w in
    eval (Server.calibrate_ph body) w =
      Normal (Some (Http.failure 500 "Internal server error")) /\
    Server.isCalibrating (Server.phCalibrationStatus (globals w')) = false /\
    Server.pendingCalibration (Server.phCalibrationStatus (globals w')) = JNull /\
    Server.published (globals w') = Server.published (globals w).
Proof.
  intros body w H w'. subst w'. unfold eval, exec.
  rewrite (server_calibrate_unreadable body w H). repeat split.
Qed.

Lemma response_exec :
  forall (payload : JsValue) (w : World Server.Globals),
    exists qs last,
      exec (Server.processPhCalibrationResponse supabase payload) w =
        {| globals :=
             Server.set_status
               (fun s => {| Server.isCalibrating := false;
                            Server.lastCalibration := last s;
                            Server.pendingCalibration := Server.pendingCalibration s |})
               (globals w);
           calls := calls w ++ qs;
           clock := clock w |}.
Proof.
  intros payload w. unfold exec. destruct (missing payload) eqn:H.
  - rewrite calibration_response_unreadable by assumption.
    exists [], Server.lastCalibration. simpl. rewrite app_nil_r. reflexivity.
  - rewrite calibration_response_run by assumption.
    eexists. exists (fun s => Server.lastCalibration (calibration_answered payload (clock w) s)).
    reflexivity.
Qed.

(** X15: the life of a calibration.  After a request was accepted a second
    valid request is answered with the conflict error 409.  Once a message
    on [biogas/ph_calibration/response] whose text parses was processed,
    whatever its payload and whatever the gateway answers to the log
    insert, a valid request is accepted again.  A response whose text does
    not parse changes nothing: requests are still answered with 409. *)
Theorem calibration_unlocks_after_response :
  forall (body next referencePh currentPh referencePh' currentPh' : JsValue)
         (message : option JsValue) (w : World Server.Globals),
    get body "referencePh" = Normal referencePh ->
    get body "currentPh" = Normal currentPh ->
    passes_validation referencePh = true ->
    passes_validation currentPh = true ->
    get next "referencePh" = Normal referencePh' ->
    get next "currentPh" = Normal currentPh' ->
    passes_validation referencePh' = true ->
    passes_validation currentPh' = true ->
    Server.connected (globals w) = true ->
    Server.isCalibrating (Server.phCalibrationStatus (globals w)) = false ->
    let busy := Http.failure 409 "Kalibrasi pH sedang dalam proses" in
    let w1 := exec (Server.calibrate_ph body) w in
    let w2 := exec (Server.onMessage supabase "biogas/ph_calibration/response" message) w1 in
    eval (Server.calibrate_ph next) w1 = Normal (Some busy) /\
    eval (Server.calibrate_ph next) w2 =
      match message with
      | Some _ => Normal None
      | None => Normal (Some busy)
      end.
Proof.
  intros body next referencePh currentPh referencePh' currentPh' message w
    Hr Hc Pr Pc Hr' Hc' Pr' Pc' Hcon Hidle busy w1 w2.
  destruct (passes_validation_inv _ Pr') as (Tr & Cr & Nr).
  destruct (passes_validation_inv _ Pc') as (Tc & Cc & Nc).
  assert (E1 : w1 = calibration_started (parse_value referencePh) (parse_value currentPh) w).
  { subst w1. unfold exec.
    rewrite (server_calibrate_accepted body referencePh currentPh w Hr Hc Pr Pc Hcon Hidle).
    reflexivity. }
  assert (B1 : eval (Server.calibrate_ph next) w1 = Normal (Some busy)).
  { unfold eval. rewrite (server_calibrate_run next referencePh' currentPh' w1 Hr' Hc').
    rewrite Tr, Tc, Cr, Cc, Nr, Nc, E1. simpl. rewrite Hcon. reflexivity. }
  split; [exact B1|].
  destruct message as [payload|].
  - subst w2. rewrite server_onMessage_exec. simpl.
    destruct (response_exec payload w1) as (qs & last & E2). rewrite E2.
    unfold eval.
    match goal with
    | |- fst (Server.calibrate_ph next ?w0) = _ =>
        rewrite (server_calibrate_accepted next referencePh' currentPh' w0 Hr' Hc' Pr' Pc')
    end.
    + reflexivity.
    + rewrite E1. simpl. exact Hcon.
    + reflexivity.
  - exact B1.
Qed.

Lemma sanitize_difference_self :
  forall x : Number, sanitized (JNum (sub x x)) = pos_zero.
Proof.
  intros [s|s| |s m e].
  - destruct s; reflexivity.
  - destruct s; reflexivity.
  - reflexivity.
  - unfold sub, SFsub. rewrite Z.sub_diag. reflexivity.
Qed.

(** X16: when the two inputs parse to the same number the offset 0 is
    published, and the row written to [calibration_logs] when the response
    arrives has [offset_value] [null], not 0: the log is built with
    [pendingCalibration?.offset || null], and 0 is falsy. *)
Theorem zero_offset_is_logged_as_null :
  forall (body referencePh currentPh payload : JsValue) (w : World Server.Globals),
    get body "referencePh" = Normal referencePh ->
    get body "currentPh" = Normal currentPh ->
    passes_validation referencePh = true ->
    passes_validation currentPh = true ->
    parseFloat referencePh = parseFloat currentPh ->
    Server.connected (globals w) = true ->
    Server.isCalibrating (Server.phCalibrationStatus (globals w)) = false ->
    missing payload = false ->
    let w1 := exec (Server.calibrate_ph body) w in
    let w2 :=
      exec (Server.onMessage supabase "biogas/ph_calibration/response" (Some payload)) w1 in
    (exists p,
       Server.published (globals w1) = Server.published (globals w) ++ [p] /\
       field (Mqtt.payload p) "offset" = JNum pos_zero) /\
    (exists row,
       calls w2 = calls w ++ [insert_into "calibration_logs" row] /\
       field row "offset_value" = JNull /\
       field row "calibration_type" = JStr "ph_offset" /\
       field row "response_data" = payload).
Proof.
  intros body referencePh currentPh payload w Hr Hc Pr Pc Heq Hcon Hidle Hm w1 w2.
  destruct (passes_validation_inv _ Pr) as (Tr & Cr & Nr).
  destruct (passes_validation_inv _ Pc) as (Tc & Cc & Nc).
  unfold parseFloat in Heq. rewrite Cr, Cc in Heq. injection Heq as Heq.
  assert (E1 : w1 = calibration_started (parse_value referencePh) (parse_value currentPh) w).
  { subst w1. unfold exec.
    rewrite (server_calibrate_accepted body referencePh currentPh w Hr Hc Pr Pc Hcon Hidle).
    reflexivity. }
  split.
  - rewrite E1. unfold calibration_started. rewrite Heq, sanitize_difference_self.
    eexists. split; reflexivity.
  - subst w2. rewrite server_onMessage_exec. simpl.
    unfold exec. rewrite (calibration_response_run supabase payload w1 Hm).
    rewrite E1. unfold calibration_started. rewrite Heq, sanitize_difference_self.
    eexists. split; [reflexivity|]. repeat split.
Qed.

(** X17: a failed publish undoes the request.  When the publish callback
    of an accepted request is called with an error, the request is answered
    with status 500 and the calibration status is that of an idle server
    (flag off, no pending request, [lastCalibration] as before the
    request); the same request is accepted when it is made again. *)
Theorem failed_publish_restores_idle_state :
  forall (body referencePh currentPh err : JsValue) (w : World Server.Globals),
    get body "referencePh" = Normal referencePh ->
    get body "currentPh" = Normal currentPh ->
    passes_validation referencePh = true ->
    passes_validation currentPh = true ->
    Server.connected (globals w) = true ->
    Server.isCalibrating (Server.phCalibrationStatus (globals w)) = false ->
    truthy err = true ->
    let refPh := parse_value referencePh in
    let curPh := parse_value currentPh in
    let offset := sanitized (JNum (sub refPh curPh)) in
    let w1 := exec (Server.calibrate_ph body) w in
    let w2 := exec (Server.publish_callback err refPh curPh offset) w1 in
    parseFloat referencePh = Normal refPh /\
    parseFloat currentPh = Normal curPh /\
    sanitizeFloatValue (JNum (sub refPh curPh)) = Normal offset /\
    Server.phCalibrationStatus (globals w2) =
      {| Server.isCalibrating := false;
         Server.lastCalibration :=
           Server.lastCalibration (Server.phCalibrationStatus (globals w));
         Server.pendingCalibration := JNull |} /\
    eval (Server.publish_callback err refPh curPh offset) w1 =
      Normal (Http.failure 500 "Gagal mengirim offset ke ESP32") /\
    eval (Server.calibrate_ph body) w2 = Normal None.
Proof.
  intros body referencePh currentPh err w Hr Hc Pr Pc Hcon Hidle Herr
    refPh curPh offset w1 w2.
  destruct (passes_validation_inv _ Pr) as (Tr & Cr & Nr).
  destruct (passes_validation_inv _ Pc) as (Tc & Cc & Nc).
  split; [unfold parseFloat; rewrite Cr; reflexivity|].
  split; [unfold parseFloat; rewrite Cc; reflexivity|].
  split; [apply sanitizeFloatValue_number|].
  subst refPh curPh offset.
  assert (E1 : w1 = calibration_started (parse_value referencePh)
                      (parse_value currentPh) w).
  { subst w1. unfold exec.
    rewrite (server_calibrate_accepted body referencePh currentPh w Hr Hc Pr Pc Hcon Hidle).
    reflexivity. }
  assert (E2 : w2 =
    {| globals :=
         Server.set_status (Server.set_pendingCalibration JNull)
           (Server.set_status (Server.set_isCalibrating false) (globals w1));
       calls := calls w1; clock := clock w1 |}).
  { subst w2. unfold exec, Server.publish_callback. rewrite Herr. reflexivity. }
  split; [rewrite E2, E1; reflexivity|]. split.
  - unfold eval, Server.publish_callback. rewrite Herr. reflexivity.
  - unfold eval.
    rewrite (server_calibrate_accepted body referencePh currentPh w2 Hr Hc Pr Pc).
    + reflexivity.
    + rewrite E2, E1. simpl. exact Hcon.
    + rewrite E2. reflexivity.
Qed.

(** One event keeps the request held while a calibration is in progress
    and only adds publications of an offset. *)
Lemma event_step :
  forall (e : Run.Event) (w : World Server.Globals),
    request_held (Server.phCalibrationStatus (globals w)) = true ->
    request_held (Server.phCalibrationStatus (globals (Run.step supabase w e))) = true /\
    exists ps,
      Server.published (globals (Run.step supabase w e)) =
        Server.published (globals w) ++ ps /\
      forallb offset_publication ps = true.
Proof.
  intros e w H. destruct e as [body|err refPh curPh offset|topic message|up];
    unfold Run.step.
  - destruct (missing body) eqn:Hm.
    + unfold exec. rewrite (server_calibrate_unreadable body w Hm). simpl.
      split; [reflexivity|]. exists []. rewrite app_nil_r. split; reflexivity.
    + unfold exec.
      rewrite (server_calibrate_run body (field body "referencePh")
                 (field body "currentPh") w
                 (get_readable body "referencePh" Hm)
                 (get_readable body "currentPh" Hm)).
      match goal with
      | |- context [if ?c then _ else _] => destruct c
      end; [simpl; split; [exact H|exists []; rewrite app_nil_r; split; reflexivity]|].
      match goal with
      | |- context [if ?c then _ else _] => destruct c
      end; [simpl; split; [reflexivity|exists []; rewrite app_nil_r; split; reflexivity]|].
      match goal with
      | |- context [if ?c then _ else _] => destruct c
      end; [simpl; split; [exact H|exists []; rewrite app_nil_r; split; reflexivity]|].
      match goal with
      | |- context [if ?c then _ else _] => destruct c
      end; [simpl; split; [exact H|exists []; rewrite app_nil_r; split; reflexivity]|].
      match goal with
      | |- context [if ?c then _ else _] => destruct c
      end; [simpl; split; [exact H|exists []; rewrite app_nil_r; split; reflexivity]|].
      unfold calibration_started.
      remember (sanitized _) as offset eqn:Eo.
      simpl. split; [reflexivity|]. eexists. split; [reflexivity|].
      unfold offset_publication. clear Eo.
      destruct offset as [s|s| |s m e]; reflexivity.
  - unfold exec, Server.publish_callback. destruct (truthy err); simpl.
    + split; [reflexivity|]. exists []. rewrite app_nil_r. split; reflexivity.
    + split; [exact H|]. exists []. rewrite app_nil_r. split; reflexivity.
  - destruct message as [payload|];
      [|simpl; split; [exact H|exists []; rewrite app_nil_r; split; reflexivity]].
    rewrite server_onMessage_exec.
    destruct (String.eqb topic "biogas/data/sensors").
    { rewrite server_processSensorData_outcome. simpl.
      split; [exact H|exists []; rewrite app_nil_r; split; reflexivity]. }
    destruct (String.eqb topic "biogas/data/control").
    { rewrite server_processControlData_run. simpl.
      split; [exact H|exists []; rewrite app_nil_r; split; reflexivity]. }
    destruct (String.eqb topic "biogas/ph_calibration/response");
      [|split; [exact H|exists []; rewrite app_nil_r; split; reflexivity]].
    destruct (response_exec payload w) as (qs & last & E). rewrite E. simpl.
    split; [reflexivity|exists []; rewrite app_nil_r; split; reflexivity].
  - simpl. split; [exact H|exists []; rewrite app_nil_r; split; reflexivity].
Qed.

Lemma JSON_stringify_keyed_mapping :
  forall v, is_keyed_mapping (JSON_stringify v) = is_keyed_mapping v.
Proof. intros [| |b|[s|s| |s m e]|s|l|l]; reflexivity. Qed.

(** [GET /api/calibration-status] changes nothing, and it reports a
    calibration in progress only with the request that is held. *)
Lemma calibration_status_run :
  forall w : World Server.Globals,
    request_held (Server.phCalibrationStatus (globals w)) = true ->
    exists r,
      Routes.calibration_status w = (Normal r, w) /\
      Http.status r = 200 /\
      (field (field (Http.body r) "data") "isCalibrating" = JBool true ->
       is_keyed_mapping (field (field (Http.body r) "data") "pendingCalibration") = true).
Proof.
  intros [[cur [calibrating last pending] con pub] cs ck] H.
  unfold request_held in H. simpl in H.
  eexists. split; [reflexivity|]. split; [reflexivity|].
  destruct calibrating; [|destruct last; simpl; intros E; discriminate E].
  simpl in H. intros _.
  destruct pending; try discriminate H; destruct last; reflexivity.
Qed.

(** X18: invariants of the server over any sequence of requests, publish
    callbacks, bus messages and connection changes, handled one after the
    other.  While a calibration is in progress the pending request is held
    (it is an object), and [GET /api/calibration-status], which changes
    nothing, never reports [isCalibrating: true] with a pending request
    that is not one.  The list of publications only grows, and every
    message published is on [biogas/ph_offset] with QoS 1 and carries as
    [offset] a finite number or [null], which is what the JSON text holds
    for an offset that is not finite. *)
Theorem calibration_state_invariants :
  forall (es : list Run.Event) (w : World Server.Globals),
    request_held (Server.phCalibrationStatus (globals w)) = true ->
    forallb offset_publication (Server.published (globals w)) = true ->
    let w' := Run.events supabase es w in
    request_held (Server.phCalibrationStatus (globals w')) = true /\
    forallb offset_publication (Server.published (globals w')) = true /\
    (exists ps, Server.published (globals w') = Server.published (globals w) ++ ps) /\
    (exists r,
       Routes.calibration_status w' = (Normal r, w') /\
       (field (field (Http.body r) "data") "isCalibrating" = JBool true ->
        is_keyed_mapping (field (field (Http.body r) "data") "pendingCalibration") = true)).
Proof.
  intros es. induction es as [|e es IH]; intros w H F w'; subst w'.
  - simpl. split; [exact H|]. split; [exact F|]. split.
    + exists []. rewrite app_nil_r. reflexivity.
    + destruct (calibration_status_run w H) as (r & E & _ & K).
      exists r. split; [exact E|exact K].
  - change (Run.events supabase (e :: es) w)
      with (Run.events supabase es (Run.step supabase w e)).
    destruct (event_step e w H) as (H1 & ps1 & E1 & F1).
    assert (F' : forallb offset_publication
                   (Server.published (globals (Run.step supabase w e))) = true)
      by (rewrite E1, forallb_app, F, F1; reflexivity).
    destruct (IH (Run.step supabase w e) H1 F') as (H2 & F2 & (ps2 & E2) & R).
    split; [exact H2|]. split; [exact F2|]. split; [|exact R].
    exists (ps1 ++ ps2). rewrite E2, E1, app_assoc. reflexivity.
Qed.

End ServerRuns.

Lemma variants_agree_outside_warmup_witness :
  same_view
    (exec (Server.onMessage gateway_ok "biogas/data/sensors" (Some sensor_payload))
          (server_loaded true))
    (exec (MqttHandler.onMessage gateway_ok "biogas/data/sensors" (Some sensor_payload))
          (idle false)).
Proof.
  apply (proj1 (variants_agree_outside_warmup gateway_ok "biogas/data/sensors"
                  (Some sensor_payload) (server_loaded true) (idle false)
                  (conj eq_refl (conj eq_refl eq_refl)) eq_refl
                  ltac:(intros payload H; discriminate H))).
Defined.

Lemma calibration_request_publishes_offset_witness :
  let body := calibration_body (JStr "7.0") (JStr "6.5") in
  let w' := exec (Server.calibrate_ph body) (server_loaded true) in
  eval (Server.calibrate_ph body) (server_loaded true) = Normal None /\
  field (Server.pendingCalibration (Server.phCalibrationStatus (globals w'))) "offset"
    = JNum (lit "0.5") /\
  (exists p, Server.published (globals w') = [p] /\
             field (Mqtt.payload p) "offset" = JNum (lit "0.5")) /\
  (exists p,
     Server.published
       (globals (exec (Server.calibrate_ph
                         (calibration_body (JStr "Infinity") (JNum (num_of_Z 7))))
                      (server_loaded true))) = [p] /\
     field (Mqtt.payload p) "offset" = JNull).
Proof.
  destruct (calibration_request_publishes_offset
              (calibration_body (JStr "7.0") (JStr "6.5")) (JStr "7.0") (JStr "6.5")
              (server_loaded true) eq_refl eq_refl eq_refl eq_refl eq_refl eq_refl)
    as (refPh & curPh & offset & Er & Ec & Eo & He & (p & Ep & _ & _ & Fo & _) & Hp & _).
  vm_compute in Er. injection Er as <-.
  vm_compute in Ec. injection Ec as <-.
  vm_compute in Eo. injection Eo as <-.
  split; [exact He|]. split; [exact Hp|]. split.
  - exists p. split; [exact Ep|exact Fo].
  - destruct (calibration_request_publishes_offset
                (calibration_body (JStr "Infinity") (JNum (num_of_Z 7)))
                (JStr "Infinity") (JNum (num_of_Z 7))
                (server_loaded true) eq_refl eq_refl eq_refl eq_refl eq_refl eq_refl)
      as (r2 & c2 & o2 & Er2 & Ec2 & Eo2 & _ & (p2 & Ep2 & _ & _ & _ & _ & _ & Fn) & _).
    vm_compute in Er2. injection Er2 as <-.
    vm_compute in Ec2. injection Ec2 as <-.
    vm_compute in Eo2. injection Eo2 as <-.
    exists p2. split; [exact Ep2|]. apply Fn. reflexivity.
Defined.

Lemma unreadable_request_cancels_calibration_witness :
  let w' := exec (Server.calibrate_ph JUndefined) (server_world true sample_pending true) in
  Server.isCalibrating (Server.phCalibrationStatus (globals w')) = false /\
  Server.pendingCalibration (Server.phCalibrationStatus (globals w')) = JNull.
Proof.
  destruct (unreadable_request_cancels_calibration JUndefined
              (server_world true sample_pending true) eq_refl) as (_ & H1 & H2 & _).
  split; [exact H1|exact H2].
Defined.

Lemma calibration_unlocks_after_response_witness :
  let body := calibration_body (JStr "7.0") (JStr "6.5") in
  let w1 := exec (Server.calibrate_ph body) (server_loaded true) in
  let w2 := exec (Server.onMessage gateway_down "biogas/ph_calibration/response"
                    (Some (JObj [("status", JStr "failed")]))) w1 in
  eval (Server.calibrate_ph body) w1 =
    Normal (Some (Http.failure 409 "Kalibrasi pH sedang dalam proses")) /\
  eval (Server.calibrate_ph body) w2 = Normal None.
Proof.
  exact (calibration_unlocks_after_response gateway_down
           (calibration_body (JStr "7.0") (JStr "6.5"))
           (calibration_body (JStr "7.0") (JStr "6.5"))
           (JStr "7.0") (JStr "6.5") (JStr "7.0") (JStr "6.5")
           (Some (JObj [("status", JStr "failed")])) (server_loaded true)
           eq_refl eq_refl eq_refl eq_refl eq_refl eq_refl eq_refl eq_refl
           eq_refl eq_refl).
Defined.

Lemma zero_offset_is_logged_as_null_witness :
  let body := calibration_body (JStr "7.0") (JNum (num_of_Z 7)) in
  let w1 := exec (Server.calibrate_ph body) (server_loaded true) in
  let w2 := exec (Server.onMessage gateway_ok "biogas/ph_calibration/response"
                    (Some (JObj [("success", JBool true)]))) w1 in
  exists row,
    calls w2 = [insert_into "calibration_logs" row] /\
    field row "offset_value" = JNull.
Proof.
  destruct (proj2 (zero_offset_is_logged_as_null gateway_ok
                     (calibration_body (JStr "7.0") (JNum (num_of_Z 7)))
                     (JStr "7.0") (JNum (num_of_Z 7))
                     (JObj [("success", JBool true)]) (server_loaded true)
                     eq_refl eq_refl eq_refl eq_refl eq_refl eq_refl eq_refl eq_refl))
    as (row & Hc & Hv & _).
  exists row. split; [exact Hc|exact Hv].
Defined.

Lemma failed_publish_restores_idle_state_witness :
  let body := calibration_body (JStr "7.0") (JStr "6.5") in
  let w1 := exec (Server.calibrate_ph body) (server_loaded true) in
  let w2 := exec (Server.publish_callback (JObj [("message", JStr "offline")])
                    (lit "7.0") (lit "6.5") (lit "0.5")) w1 in
  Server.phCalibrationStatus (globals w2) =
    Server.phCalibrationStatus (globals (server_loaded true)) /\
  eval (Server.calibrate_ph body) w2 = Normal None.
Proof.
  destruct (failed_publish_restores_idle_state
              (calibration_body (JStr "7.0") (JStr "6.5")) (JStr "7.0") (JStr "6.5")
              (JObj [("message", JStr "offline")]) (server_loaded true)
              eq_refl eq_refl eq_refl eq_refl eq_refl eq_refl eq_refl)
    as (_ & _ & _ & Hs & _ & He).
  split; [exact Hs|exact He].
Defined.

Lemma calibration_state_invariants_witness :
  let body := calibration_body (JStr "7.0") (JStr "6.5") in
  let w' :=
    Run.events gateway_ok
      [Run.Request body;
       Run.Delivered "biogas/ph_calibration/response" (Some (JObj [("success", JBool true)]));
       Run.Request body;
       Run.Published (JStr "offline") (lit "7.0") (lit "6.5") (lit "0.5");
       Run.Connection false;
       Run.Request JNull]
      (server_loaded true) in
  request_held (Server.phCalibrationStatus (globals w')) = true /\
  forallb offset_publication (Server.published (globals w')) = true.
Proof.
  destruct (calibration_state_invariants gateway_ok
              [Run.Request (calibration_body (JStr "7.0") (JStr "6.5"));
               Run.Delivered "biogas/ph_calibration/response"
                 (Some (JObj [("success", JBool true)]));
               Run.Request (calibration_body (JStr "7.0") (JStr "6.5"));
               Run.Published (JStr "offline") (lit "7.0") (lit "6.5") (lit "0.5");
               Run.Connection false;
               Run.Request JNull]
              (server_loaded true) eq_refl eq_refl) as (H1 & H2 & _).
  split; [exact H1|exact H2].
Defined.

(* ================================================================== *)
(** * The stateless route and the status routes of the entry point *)
(* ================================================================== *)

(** An accepted request of the stateless route. *)
Lemma index_calibrate_accepted :
  forall (body referencePh currentPh : JsValue) (w : World Index.Globals),
    get body "referencePh" = Normal referencePh ->
    get body "currentPh" = Normal currentPh ->
    passes_validation referencePh = true ->
    passes_validation currentPh = true ->
    Index.connected (globals w) = true ->
    let refPh := parse_value referencePh in
    let curPh := parse_value currentPh in
    Index.calibrate_ph body w =
      (Normal (Http.success "Kalibrasi pH berhasil dikirim"
                 (JObj [("referencePh", JNum refPh);
                        ("currentPh", JNum curPh);
                        ("offset", JNum (sub refPh curPh));
                        ("timestamp", JStr (clock w))])),
       {| globals :=
            {| Index.connected := true;
               Index.published :=
                 Index.published (globals w) ++
                 [ph_offset_publication (sub refPh curPh) (clock w)] |};
          calls := calls w;
          clock := clock w |}).
Proof.
  intros body referencePh currentPh w Hr Hc Pr Pc Hcon refPh curPh.
  destruct (passes_validation_inv _ Pr) as (Tr & Cr & Nr).
  destruct (passes_validation_inv _ Pc) as (Tc & Cc & Nc).
  unfold Index.calibrate_ph, try_catch, bind at 1, lift at 1. rewrite Hr.
  unfold bind at 1, lift at 1. rewrite Hc, Tr, Tc.
  unfold parseFloat. rewrite Cr, Cc.
  unfold bind at 1, lift at 1. unfold bind at 1, lift at 1.
  cbn [negb orb]. fold refPh. fold curPh. subst refPh curPh. rewrite Nr, Nc.
  destruct w as [[con pub] cs ck]. simpl in Hcon. subst con. reflexivity.
Qed.

(** X19: the stateless route keeps no calibration in progress: every
    request that passes validation while the MQTT client is connected is
    answered with status 200 and publishes one message on
    [biogas/ph_offset] with QoS 1, a second request as well as the first.
    The message is the JSON text of [{ph_offset, timestamp}], where the
    offset is the plain difference [refPh - curPh] of the parsed inputs
    (this route does not pass it through [sanitizeFloatValue]); a
    difference that is not finite is written [null], in the message and
    in the answer. *)
Theorem stateless_route_publishes_every_request :
  forall (first second r1 c1 r2 c2 : JsValue) (w : World Index.Globals),
    get first "referencePh" = Normal r1 ->
    get first "currentPh" = Normal c1 ->
    passes_validation r1 = true ->
    passes_validation c1 = true ->
    get second "referencePh" = Normal r2 ->
    get second "currentPh" = Normal c2 ->
    passes_validation r2 = true ->
    passes_validation c2 = true ->
    Index.connected (globals w) = true ->
    let w1 := exec (Index.calibrate_ph first) w in
    let w2 := exec (Index.calibrate_ph second) w1 in
    exists x1 y1 x2 y2 : Number,
      parseFloat r1 = Normal x1 /\ parseFloat c1 = Normal y1 /\
      parseFloat r2 = Normal x2 /\ parseFloat c2 = Normal y2 /\
      (exists answer,
         eval (Index.calibrate_ph second) w1 = Normal answer /\
         Http.status answer = 200 /\
         field (field (Http.body answer) "data") "offset" =
           JSON_stringify (JNum (sub x2 y2))) /\
      (exists p1 p2,
         Index.published (globals w2) = Index.published (globals w) ++ [p1; p2] /\
         Mqtt.topic p1 = "biogas/ph_offset" /\ Mqtt.qos p1 = 1 /\
         Mqtt.topic p2 = "biogas/ph_offset" /\ Mqtt.qos p2 = 1 /\
         Mqtt.payload p1 =
           JSON_stringify (JObj [("ph_offset", JNum (sub x1 y1));
                                 ("timestamp", JStr (clock w))]) /\
         Mqtt.payload p2 =
           JSON_stringify (JObj [("ph_offset", JNum (sub x2 y2));
                                 ("timestamp", JStr (clock w))]) /\
         field (Mqtt.payload p2) "ph_offset" = JSON_stringify (JNum (sub x2 y2)) /\
         (is_finite (sub x2 y2) = false -> field (Mqtt.payload p2) "ph_offset" = JNull)).
Proof.
  intros first second r1 c1 r2 c2 w H1r H1c P1r P1c H2r H2c P2r P2c Hcon w1 w2.
  assert (E1 : w1 =
    {| globals :=
         {| Index.connected := true;
            Index.published :=
              Index.published (globals w) ++
              [ph_offset_publication (sub (parse_value r1) (parse_value c1)) (clock w)] |};
       calls := calls w; clock := clock w |}).
  { subst w1. unfold exec.
    rewrite (index_calibrate_accepted first r1 c1 w H1r H1c P1r P1c Hcon).
    reflexivity. }
  assert (Hcon1 : Index.connected (globals w1) = true) by (rewrite E1; reflexivity).
  destruct (passes_validation_inv _ P1r) as (_ & C1r & _).
  destruct (passes_validation_inv _ P1c) as (_ & C1c & _).
  destruct (passes_validation_inv _ P2r) as (_ & C2r & _).
  destruct (passes_validation_inv _ P2c) as (_ & C2c & _).
  exists (parse_value r1), (parse_value c1), (parse_value r2), (parse_value c2).
  unfold parseFloat. rewrite C1r, C1c, C2r, C2c.
  repeat (split; [reflexivity|]).
  split.
  - eexists. unfold eval.
    rewrite (index_calibrate_accepted second r2 c2 w1 H2r H2c P2r P2c Hcon1).
    split; [reflexivity|]. split; [reflexivity|].
    cbn [fst Http.success Http.json Http.body].
    destruct (sub (parse_value r2) (parse_value c2)) as [s|s| |s m e];
      destruct (parse_value r2) as [sr|sr| |sr mr er];
      destruct (parse_value c2) as [sc|sc| |sc mc ec]; reflexivity.
  - exists (ph_offset_publication (sub (parse_value r1) (parse_value c1)) (clock w)),
      (ph_offset_publication (sub (parse_value r2) (parse_value c2)) (clock w)).
    split.
    { subst w2. unfold exec.
      rewrite (index_calibrate_accepted second r2 c2 w1 H2r H2c P2r P2c Hcon1).
      rewrite E1. simpl. rewrite <- app_assoc. reflexivity. }
    repeat (split; [reflexivity|]).
    unfold ph_offset_publication. cbn [Mqtt.payload].
    destruct (sub (parse_value r2) (parse_value c2)) as [s|s| |s m e];
      intros H; first [reflexivity | simpl in H; discriminate H].
Qed.

(** X20: the warmup status the entry point reports is the value the flag
    had when the handler module was loaded.  The entry point takes
    [isWarmupActive] out of [module.exports] once, and the handler assigns
    its own variable afterwards: after any messages that end with a control
    message carrying [warmup_active] 1 the handler's flag is true, while
    [GET /api/warmup-status] and [GET /health] still answer
    [warmup_active: false]. *)
Theorem warmup_routes_report_load_time_flag :
  forall (supabase : Client) (ms : list Run.Message) (m : Run.Message)
         (wi : World Index.Globals),
    starts_warmup m = true ->
    MqttHandler.isWarmupActive
      (globals (Run.messages supabase (ms ++ [m]) handler_loaded)) = true /\
    (exists r, Routes.warmup_status wi = (Normal r, wi) /\
               field (Http.body r) "warmup_active" = JBool false) /\
    (exists r, Routes.health wi = (Normal r, wi) /\
               field (Http.body r) "warmup_active" = JBool false).
Proof.
  intros supabase ms m wi H. split; [|split; eexists; split; reflexivity].
  unfold Run.messages. rewrite fold_left_app. simpl.
  destruct m as [topic [payload|]]; unfold starts_warmup in H; simpl in H;
    [|rewrite andb_false_r in H; discriminate].
  apply andb_prop in H. destruct H as [Et H].
  apply String.eqb_eq in Et. subst topic.
  unfold Run.deliver. simpl fst. simpl snd.
  rewrite onMessage_control, processControlData_run. simpl.
  unfold warmup_after.
  destruct (MqttHandler.warmup_field payload) as [v|]; [exact H|discriminate].
Qed.

Lemma stateless_route_publishes_every_request_witness :
  let body := calibration_body (JStr "7.0") (JStr "6.5") in
  let endless := calibration_body (JStr "Infinity") (JStr "6.5") in
  let w1 := exec (Index.calibrate_ph body) (index_world true) in
  let w2 := exec (Index.calibrate_ph endless) w1 in
  exists p1 p2,
    Index.published (globals w2) = [p1; p2] /\
    Mqtt.payload p1 = JObj [("ph_offset", JNum (lit "0.5"));
                            ("timestamp", JStr "2025-01-01T00:00:00.000Z")] /\
    Mqtt.payload p2 = JObj [("ph_offset", JNull);
                            ("timestamp", JStr "2025-01-01T00:00:00.000Z")].
Proof.
  destruct (stateless_route_publishes_every_request
              (calibration_body (JStr "7.0") (JStr "6.5"))
              (calibration_body (JStr "Infinity") (JStr "6.5"))
              (JStr "7.0") (JStr "6.5") (JStr "Infinity") (JStr "6.5")
              (index_world true)
              eq_refl eq_refl eq_refl eq_refl eq_refl eq_refl eq_refl eq_refl
              eq_refl)
    as (x1 & y1 & x2 & y2 & E1 & E2 & E3 & E4 & _ &
        (p1 & p2 & Ep & _ & _ & _ & _ & P1 & P2 & _)).
  vm_compute in E1. injection E1 as <-.
  vm_compute in E2. injection E2 as <-.
  vm_compute in E3. injection E3 as <-.
  vm_compute in E4. injection E4 as <-.
  exists p1, p2. split; [exact Ep|].
  split; [rewrite P1|rewrite P2]; vm_compute; reflexivity.
Defined.

Lemma warmup_routes_report_load_time_flag_witness :
  MqttHandler.isWarmupActive
    (globals (Run.messages gateway_ok
                [("biogas/data/control",
                  Some (control_payload_warmup (JNum MqttHandler.one)))]
                handler_loaded)) = true /\
  field (Http.body (match eval Routes.warmup_status (index_world true) with
                    | Normal r => r
                    | Throw _ => Http.failure 500 "thrown"
                    end)) "warmup_active" = JBool false.
Proof.
  destruct (warmup_routes_report_load_time_flag gateway_ok []
              ("biogas/data/control",
               Some (control_payload_warmup (JNum MqttHandler.one)))
              (index_world true) eq_refl) as (H1 & (r & E & H2) & _).
  split; [exact H1|]. unfold eval. rewrite E. exact H2.
Defined.

(* ================================================================== *)
(** * The earlier handlers *)
(* ================================================================== *)

Section EarlierHandlers.
Variable supabase : Client.

Lemma get_path_section :
  forall payload section name k,
    get payload name = Normal section -> truthy section = true ->
    get_path payload name k = Normal (field section k).
Proof.
  intros payload section name k H T. unfold get_path. rewrite H. simpl.
  apply get_readable, truthy_not_missing, T.
Qed.

Lemma legacy_handleSensorData_run :
  forall (payload sensors : JsValue) (w : World unit),
    get payload "sensors" = Normal sensors ->
    truthy sensors = true ->
    Legacy.handleSensorData supabase payload w =
      (Normal tt, record_call (legacy_sensor_insert sensors) w).
Proof.
  intros payload sensors w H T. unfold Legacy.handleSensorData.
  unfold try_catch, bind at 1, lift at 1.
  rewrite (get_path_section payload sensors "sensors" "ph" H T).
  unfold bind at 1, lift at 1.
  rewrite (get_path_section payload sensors "sensors" "temp" H T).
  unfold bind at 1, lift at 1.
  rewrite (get_path_section payload sensors "sensors" "ch4" H T).
  unfold bind at 1, lift at 1.
  rewrite (get_path_section payload sensors "sensors" "pressure" H T).
  unfold bind at 1, await at 1. cbv beta iota.
  fold (legacy_sensor_insert sensors).
  change {| q_from := "sensors";
            q_insert := Some (JObj [("ph", field sensors "ph");
                                    ("temp", field sensors "temp");
                                    ("ch4", field sensors "ch4");
                                    ("pressure", field sensors "pressure")]);
            q_select := Some "*"; q_order := None; q_limit := None;
            q_single := true |}
    with (legacy_sensor_insert sensors).
  unfold record_call.
  destruct (supabase (calls w) (legacy_sensor_insert sensors)) as [r|e];
    [|reflexivity].
  destruct (truthy (error r)); [reflexivity|].
  unfold bind, lift, ret. destruct (get (data r) "id"); reflexivity.
Qed.

Lemma bind_lift_normal :
  forall (G A B : Type) (a : A) (k : A -> M G B) (w : World G),
    bind (lift (Normal a)) k w = k a w.
Proof. reflexivity. Qed.

Lemma legacy_onMessage_dispatch :
  forall (payload : JsValue) (w : World unit),
    missing payload = false ->
    exec (Legacy.onMessage supabase (Some payload)) w =
      if truthy (field payload "sensors")
      then exec (Legacy.handleSensorData supabase payload) w
      else if truthy (field payload "sensor_errors") && truthy (field payload "actuators")
      then exec (Legacy.handleControlData supabase payload) w
      else w.
Proof.
  intros payload w Hm. unfold Legacy.onMessage.
  rewrite exec_try_catch_ret. unfold exec.
  rewrite (get_readable payload "sensors" Hm), bind_lift_normal.
  destruct (truthy (field payload "sensors")); [reflexivity|].
  rewrite (get_readable payload "sensor_errors" Hm), bind_lift_normal.
  destruct (truthy (field payload "sensor_errors")); [|reflexivity].
  rewrite (get_readable payload "actuators" Hm), bind_lift_normal.
  destruct (truthy (field payload "actuators")); reflexivity.
Qed.

(** X21: the first handler tells the kind of a message from its shape.
    It returns normally for every message.  A payload with a truthy
    [sensors] section is a sensor message whatever else it carries (its
    control sections are dropped): exactly one query is sent, the insert
    into [sensors] of the four fields as they come, answered with the whole
    row.  A payload without [sensors] that lacks [sensor_errors] or
    [actuators], and a text that does not parse, send nothing. *)
Theorem legacy_listener_tells_kind_by_shape :
  forall (payload : JsValue) (message : option JsValue) (w : World unit),
    eval (Legacy.onMessage supabase message) w = Normal tt /\
    exec (Legacy.onMessage supabase None) w = w /\
    (truthy (field payload "sensors") = true ->
       exec (Legacy.onMessage supabase (Some payload)) w =
         record_call (legacy_sensor_insert (field payload "sensors")) w) /\
    (truthy (field payload "sensors") = false ->
     truthy (field payload "sensor_errors") && truthy (field payload "actuators") = false ->
       exec (Legacy.onMessage supabase (Some payload)) w = w).
Proof.
  intros payload message w. split; [|split; [reflexivity|split]].
  - unfold eval, Legacy.onMessage, try_catch.
    match goal with |- fst (match ?b with _ => _ end) = _ => destruct b as [[[]|e] w'] end;
      reflexivity.
  - intros T.
    assert (Hm : missing payload = false)
      by (destruct payload; try discriminate; reflexivity).
    rewrite (legacy_onMessage_dispatch payload w Hm), T. unfold exec.
    rewrite (legacy_handleSensorData_run payload (field payload "sensors") w
               (get_readable payload "sensors" Hm) T).
    reflexivity.
  - intros Ts Tc. destruct (missing payload) eqn:Hm.
    + unfold exec, Legacy.onMessage, try_catch, bind at 1, lift at 1.
      rewrite (get_unreadable payload "sensors" Hm). reflexivity.
    + rewrite (legacy_onMessage_dispatch payload w Hm), Ts, Tc. reflexivity.
Qed.

Lemma legacy_handleControlData_calls :
  forall (payload : JsValue) (w : World unit),
    missing payload = false ->
    truthy (field payload "sensor_errors") = true ->
    truthy (field payload "actuators") = true ->
    calls (exec (Legacy.handleControlData supabase payload) w) =
      calls w ++ legacy_control_queries supabase (calls w) payload.
Proof.
  intros payload w Hm Te Ta.
  unfold Legacy.handleControlData, legacy_control_queries.
  rewrite exec_try_catch_ret. unfold exec.
  change (select_latest "sensors" "id" "created_at") with latest_sensor_query.
  rewrite !(get_path_section payload (field payload "sensor_errors") "sensor_errors" _
              (get_readable payload "sensor_errors" Hm) Te).
  rewrite !(get_path_section payload (field payload "actuators") "actuators" _
              (get_readable payload "actuators" Hm) Ta).
  unfold bind at 1, await at 1.
  destruct (supabase (calls w) latest_sensor_query) as [r|e]; [|reflexivity].
  destruct (truthy (error r)); [reflexivity|].
  unfold bind at 1, lift at 1.
  destruct (get (data r) "id") as [id|e]; [|reflexivity].
  rewrite !bind_lift_normal.
  change (insert_into "sensor_errors" _)
    with (legacy_errors_insert id (field payload "sensor_errors")).
  cbv zeta. unfold bind at 1, await at 1. cbn [calls globals clock].
  destruct (supabase (calls w ++ [latest_sensor_query])
              (legacy_errors_insert id (field payload "sensor_errors")))
    as [r1|e1];
    [|cbn [snd calls]; rewrite <- app_assoc; reflexivity].
  rewrite !bind_lift_normal.
  change (insert_into "actuators" _)
    with (legacy_actuators_insert (field payload "actuators")).
  unfold bind at 1, await at 1. cbn [calls globals clock].
  match goal with |- context [supabase ?h ?q] =>
    destruct (supabase h q) as [r2|e2] end;
    cbn [snd calls ret]; rewrite <- !app_assoc; reflexivity.
Qed.

(** X22: a control message of the first handler (no [sensors], truthy
    [sensor_errors] and [actuators]).  The latest reading is looked up
    first, always.  When the look-up fails (an error in the reply, a reply
    without data, a rejected promise) nothing is written.  Otherwise the
    row of [sensor_errors] is inserted with the id found, and the row of
    [actuators] is inserted after it even when the gateway answered the
    first insert with an error; only a rejected promise stops it.  All
    fields are written as they come. *)
Theorem legacy_control_message_writes :
  forall (payload : JsValue) (w : World unit),
    truthy (field payload "sensors") = false ->
    truthy (field payload "sensor_errors") = true ->
    truthy (field payload "actuators") = true ->
    let w' := exec (Legacy.onMessage supabase (Some payload)) w in
    let looked_up := calls w ++ [latest_sensor_query] in
    match supabase (calls w) latest_sensor_query with
    | Normal r =>
        if truthy (error r) then calls w' = looked_up
        else
          match get (data r) "id" with
          | Normal id =>
              let errors := legacy_errors_insert id (field payload "sensor_errors") in
              match supabase looked_up errors with
              | Normal _ =>
                  calls w' = looked_up ++
                    [errors; legacy_actuators_insert (field payload "actuators")]
              | Throw _ => calls w' = looked_up ++ [errors]
              end
          | Throw _ => calls w' = looked_up
          end
    | Throw _ => calls w' = looked_up
    end.
Proof.
  intros payload w Ts Te Ta w' looked_up. subst w' looked_up.
  assert (Hm : missing payload = false)
    by (destruct payload; try discriminate; reflexivity).
  rewrite (legacy_onMessage_dispatch payload w Hm), Ts, Te, Ta. cbn [andb].
  rewrite (legacy_handleControlData_calls payload w Hm Te Ta).
  unfold legacy_control_queries.
  destruct (supabase (calls w) latest_sensor_query) as [r|e]; [|reflexivity].
  destruct (truthy (error r)); [reflexivity|].
  destruct (get (data r) "id") as [id|e]; [|reflexivity].
  cbv zeta.
  destruct (supabase (calls w ++ [latest_sensor_query])
              (legacy_errors_insert id (field payload "sensor_errors")));
    rewrite <- app_assoc; reflexivity.
Qed.

Lemma unvalidated_insertSensorData_run :
  forall (sensors : JsValue) (w : World Unvalidated.Globals),
    missing sensors = false ->
    let q := insert_returning "sensors" (raw_record sensor_keys sensors) "id" in
    Unvalidated.insertSensorData supabase sensors w =
      (Normal (returned_id (supabase (calls w) q)), record_call q w).
Proof.
  intros sensors w H q. unfold Unvalidated.insertSensorData.
  rewrite !(get_readable sensors _ H).
  unfold try_catch, bind at 1, lift at 1. unfold bind at 1, lift at 1.
  unfold bind at 1, lift at 1. unfold bind at 1, lift at 1.
  unfold bind at 1, await at 1. cbv beta iota.
  change (insert_returning "sensors" _ "id") with q.
  unfold returned_id, record_call.
  destruct (supabase (calls w) q) as [r|e]; [|reflexivity].
  destruct (truthy (error r)); [reflexivity|].
  unfold bind, lift, ret.
  destruct (get0 (data r)) as [row|e]; simpl; [|reflexivity].
  destruct (get row "id") as [id|e]; [|reflexivity].
  unfold template, convertible.
  destruct (ToString_throws id); reflexivity.
Qed.

Lemma unvalidated_insertSensorErrors_run :
  forall (sensorId sensorErrors : JsValue) (w : World Unvalidated.Globals),
    missing sensorErrors = false ->
    Unvalidated.insertSensorErrors supabase sensorId sensorErrors w =
      (Normal tt, record_call (legacy_errors_insert sensorId sensorErrors) w).
Proof.
  intros sensorId sensorErrors w H. unfold Unvalidated.insertSensorErrors.
  rewrite !(get_readable sensorErrors _ H).
  unfold try_catch, bind at 1, lift at 1. unfold bind at 1, lift at 1.
  unfold bind at 1, lift at 1. unfold bind at 1, lift at 1.
  unfold bind at 1, await at 1. cbv beta iota.
  change (insert_into "sensor_errors" _)
    with (legacy_errors_insert sensorId sensorErrors).
  unfold record_call.
  destruct (supabase (calls w) (legacy_errors_insert sensorId sensorErrors))
    as [r|e]; [|reflexivity].
  destruct (truthy (error r)); [reflexivity|].
  unfold lift, template. destruct (ToString_throws sensorId); reflexivity.
Qed.

(** X23: the handler without a validator writes what it is given.  For
    every truthy [sensors] section, object or not, exactly one insert into
    [sensors] is sent, of the four fields as they come; a section that is
    not an object (a string, a number, [true]) is written as a row of four
    [undefined].  The row of [sensor_errors] follows when an id came back
    and the section is truthy, and the id is kept as correlation id. *)
Theorem unvalidated_handler_writes_fields_as_they_come :
  forall (payload sensors : JsValue) (w : World Unvalidated.Globals),
    get payload "sensors" = Normal sensors ->
    truthy sensors = true ->
    let q := insert_returning "sensors" (raw_record sensor_keys sensors) "id" in
    let id := returned_id (supabase (calls w) q) in
    let margins := field payload "sensor_errors" in
    let w' := exec (Unvalidated.onMessage supabase "biogas/data/sensors" (Some payload)) w in
    calls w' = calls w ++
      q :: (if truthy id && truthy margins
            then [legacy_errors_insert id margins] else []) /\
    Unvalidated.currentSensorId (globals w') =
      (if truthy id then id else Unvalidated.currentSensorId (globals w)) /\
    (is_keyed_mapping sensors = false ->
       raw_record sensor_keys sensors =
         JObj [("ph", JUndefined); ("temp", JUndefined);
               ("ch4", JUndefined); ("pressure", JUndefined)]).
Proof.
  intros payload sensors w Hs Ts q id margins w'. subst w'.
  split; [|split].
  3:{ intros K. destruct sensors; try discriminate; reflexivity. }
  all: unfold Unvalidated.onMessage; rewrite exec_try_catch_ret;
    simpl String.eqb; cbv iota;
    unfold exec, bind at 1, lift at 1; rewrite Hs; rewrite Ts;
    unfold bind at 1, lift at 1;
    rewrite (get_sensors_keyed payload sensors "sensor_errors" Hs Ts);
    fold margins; destruct (truthy margins) eqn:Tm; cbn [andb];
    unfold bind at 1;
    rewrite (unvalidated_insertSensorData_run sensors w (truthy_not_missing _ Ts));
    fold q; fold id; destruct (truthy id) eqn:Tid; cbn [andb];
    try reflexivity;
    unfold bind at 1, modify at 1; cbv beta iota;
    rewrite (unvalidated_insertSensorErrors_run id margins _ (truthy_not_missing _ Tm));
    unfold record_call; simpl; rewrite <- ?app_assoc; reflexivity.
Qed.

End EarlierHandlers.

Lemma legacy_listener_tells_kind_by_shape_witness :
  let payload := JObj [("sensors", sample_sensors); ("sensor_errors", sample_errors);
                       ("actuators", sample_actuators)] in
  exec (Legacy.onMessage gateway_ok (Some payload)) (legacy_world []) =
    record_call (legacy_sensor_insert sample_sensors) (legacy_world []) /\
  exec (Legacy.onMessage gateway_ok (Some (JObj [("actuators", sample_actuators)])))
       (legacy_world []) = legacy_world [].
Proof.
  split.
  - apply (proj1 (proj2 (proj2 (legacy_listener_tells_kind_by_shape gateway_ok
             (JObj [("sensors", sample_sensors); ("sensor_errors", sample_errors);
                    ("actuators", sample_actuators)])
             None (legacy_world []))))).
    reflexivity.
  - apply (proj2 (proj2 (proj2 (legacy_listener_tells_kind_by_shape gateway_ok
             (JObj [("actuators", sample_actuators)]) None (legacy_world [])))));
      reflexivity.
Defined.

Lemma legacy_control_message_writes_witness :
  let payload := JObj [("sensor_errors", sample_errors); ("actuators", sample_actuators)] in
  calls (exec (Legacy.onMessage gateway_ok (Some payload)) (legacy_world [])) =
    [latest_sensor_query;
     legacy_errors_insert (JNum (num_of_Z 41)) sample_errors;
     legacy_actuators_insert sample_actuators] /\
  calls (exec (Legacy.onMessage gateway_down (Some payload)) (legacy_world [])) =
    [latest_sensor_query].
Proof.
  split.
  - exact (legacy_control_message_writes gateway_ok
             (JObj [("sensor_errors", sample_errors); ("actuators", sample_actuators)])
             (legacy_world []) eq_refl eq_refl eq_refl).
  - exact (legacy_control_message_writes gateway_down
             (JObj [("sensor_errors", sample_errors); ("actuators", sample_actuators)])
             (legacy_world []) eq_refl eq_refl eq_refl).
Defined.

Lemma unvalidated_handler_writes_fields_as_they_come_witness :
  calls (exec (Unvalidated.onMessage gateway_ok "biogas/data/sensors"
                 (Some (JObj [("sensors", JStr "offline")])))
              (unvalidated_world JNull)) =
    [insert_returning "sensors"
       (JObj [("ph", JUndefined); ("temp", JUndefined);
              ("ch4", JUndefined); ("pressure", JUndefined)]) "id"] /\
  exec (MqttHandler.onMessage gateway_ok "biogas/data/sensors"
          (Some (JObj [("sensors", JStr "offline")]))) (idle false) = idle false.
Proof.
  split; [|reflexivity].
  exact (proj1 (unvalidated_handler_writes_fields_as_they_come gateway_ok
                  (JObj [("sensors", JStr "offline")]) (JStr "offline")
                  (unvalidated_world JNull) eq_refl eq_refl)).
Defined.

(* ================================================================== *)
(** * The validator against the handler without one *)
(* ================================================================== *)

Lemma sanitized_record_integers :
  forall (ks : list string) (v : JsValue),
    integer_fields ks v -> sanitized_record ks v = raw_record ks v.
Proof.
  intros ks v H. unfold sanitized_record, raw_record. f_equal.
  apply map_ext_in. intros k Hk.
  destruct (H k Hk) as (n & Hn & E). rewrite E.
  rewrite (sanitize_num_of_Z n Hn). reflexivity.
Qed.

Lemma integer_fields_valid :
  forall (ks : list string) (v : JsValue),
    is_keyed_mapping v = true -> integer_fields ks v -> valid_section ks v = true.
Proof.
  intros ks v K H. unfold valid_section. rewrite K. cbn [andb].
  apply forallb_forall. intros k Hk.
  destruct (H k Hk) as (n & _ & E). rewrite E. reflexivity.
Qed.

(** X24: on integers the validator is transparent.  For a [sensors]
    section that is an object whose four fields are integers of magnitude
    at most 9007199254, the validating [insertSensorData] sends the very
    row that the handler without a validator sends, and returns the same
    id; and so for any section and key list: the sanitised record is the
    record of the fields as they come. *)
Theorem validator_is_transparent_on_integers :
  forall (supabase : Client) (ks : list string) (section sensors : JsValue)
         (wv : World MqttHandler.Globals) (wu : World Unvalidated.Globals),
    (integer_fields ks section ->
       sanitized_record ks section = raw_record ks section) /\
    (is_keyed_mapping sensors = true ->
     integer_fields sensor_keys sensors ->
     calls wv = calls wu ->
       eval (insertSensorData supabase sensors) wv =
         eval (Unvalidated.insertSensorData supabase sensors) wu /\
       calls (exec (insertSensorData supabase sensors) wv) =
         calls (exec (Unvalidated.insertSensorData supabase sensors) wu)).
Proof.
  intros supabase ks section sensors wv wu.
  split; [apply sanitized_record_integers|].
  intros K H E. unfold eval, exec.
  rewrite (insertSensorData_run supabase sensors wv
             (integer_fields_valid sensor_keys sensors K H)).
  rewrite (unvalidated_insertSensorData_run supabase sensors wu
             (truthy_not_missing _ (truthy_keyed_mapping _ K))).
  rewrite (sanitized_record_integers sensor_keys sensors H).
  unfold record_call. cbn [fst snd calls]. rewrite E.
  split; reflexivity.
Qed.

Lemma validator_is_transparent_on_integers_witness :
  sanitized_record actuator_keys sample_actuators =
    raw_record actuator_keys sample_actuators.
Proof.
  apply (proj1 (validator_is_transparent_on_integers gateway_ok actuator_keys
                  sample_actuators sample_actuators (idle false)
                  (unvalidated_world JNull))).
  intros k Hk. simpl in Hk.
  destruct Hk as [<-|[<-|[<-|[<-|[<-|[]]]]]].
  - exists 128. split; [simpl; lia|reflexivity].
  - exists 0. split; [simpl; lia|reflexivity].
  - exists 255. split; [simpl; lia|reflexivity].
  - exists 1. split; [simpl; lia|reflexivity].
  - exists 1. split; [simpl; lia|reflexivity].
Defined.

(* ================================================================== *)
(** * Responses without a request *)
(* ================================================================== *)

(** X25: the log of a calibration response is filled from whatever request
    is held.  Processing a response does not release the request, so a
    second response, for which no calibration is in progress, is logged
    with the offset, reference and current pH of the last request again;
    and a response that arrives when no request was ever made is logged
    with [null] in these three columns. *)
Theorem responses_are_logged_with_the_held_request :
  forall (supabase : Client) (first second : JsValue) (w : World Server.Globals),
    missing first = false ->
    missing second = false ->
    let held := Server.pendingCalibration (Server.phCalibrationStatus (globals w)) in
    let topic := "biogas/ph_calibration/response" in
    let w1 := exec (Server.onMessage supabase topic (Some first)) w in
    let w2 := exec (Server.onMessage supabase topic (Some second)) w1 in
    calls w2 =
      calls w ++
      [insert_into "calibration_logs" (calibration_log held first (clock w));
       insert_into "calibration_logs" (calibration_log held second (clock w))] /\
    Server.pendingCalibration (Server.phCalibrationStatus (globals w2)) = held /\
    Server.isCalibrating (Server.phCalibrationStatus (globals w1)) = false /\
    (held = JNull ->
       field (calibration_log held second (clock w)) "offset_value" = JNull /\
       field (calibration_log held second (clock w)) "reference_ph" = JNull /\
       field (calibration_log held second (clock w)) "current_ph" = JNull).
Proof.
  intros supabase first second w H1 H2 held topic w1 w2.
  subst w2 w1 topic. rewrite !server_onMessage_exec. simpl String.eqb. cbv iota.
  unfold exec.
  rewrite (calibration_response_run supabase first w H1).
  cbn [snd].
  rewrite (calibration_response_run supabase second _ H2).
  unfold record_call. cbn [snd globals calls clock].
  split; [rewrite <- app_assoc; reflexivity|].
  split; [reflexivity|]. split; [reflexivity|].
  intros E. subst held. rewrite E. repeat split.
Qed.

Lemma responses_are_logged_with_the_held_request_witness :
  let topic := "biogas/ph_calibration/response" in
  let ok := JObj [("success", JBool true)] in
  let w1 := exec (Server.onMessage gateway_ok topic (Some ok))
                 (server_world true sample_pending true) in
  let w2 := exec (Server.onMessage gateway_ok topic (Some ok)) w1 in
  calls w2 =
    [insert_into "calibration_logs"
       (calibration_log sample_pending ok "2025-01-01T00:00:00.000Z");
     insert_into "calibration_logs"
       (calibration_log sample_pending ok "2025-01-01T00:00:00.000Z")].
Proof.
  exact (proj1 (responses_are_logged_with_the_held_request gateway_ok
                  (JObj [("success", JBool true)]) (JObj [("success", JBool true)])
                  (server_world true sample_pending true) eq_refl eq_refl)).
Defined.
